(** * HDFC-Stock forecasting pipeline: a shallow embedding

    The Python sources embedded here are
      - backend/services/feature_engineering/feature_engineer.py  (FeatureEngineer)
      - backend/models/advanced_model.py                          (AdvancedXGBoostModel)
      - backend/models/baseline_model.py                          (BaselineARIMAModel.save_metadata)
      - backend/services/prediction_service.py                    (PredictionService)

    Conventions of the embedding.
      - A Python/NumPy float is an exact rational, or NaN: [float := option Q]
        with [None] for NaN.  [None] of a JSON record and NaN of a frame are the
        same missing value, as [pd.isna] has it.  A series holds no infinity: a
        quotient by zero is stored as NaN, and where the sources compare such
        a quotient the comparison is the one of IEEE ([fdiv_gt]).
      - Where the sources round a product before they compare or truncate it
        ([current_price * 1.001], [int(len(X) * train_ratio)]), the arithmetic
        is IEEE binary64 with round to nearest even ([Double], over the
        Standard Library's [SpecFloat]); a rational that enters it is read as
        the double nearest to it, which is the rational itself when it is the
        value of a Python float.
      - A timestamp is a number of seconds since the epoch ([Z]); the calendar
        date string [strftime('%Y-%m-%d')] is the day number [t / 86400]: on
        four-digit years the string order is the order of day numbers.
      - A pandas DataFrame is a row count and a finite map from column names to
        typed columns; an assignment [df[name] = series] is an insert.
      - Database tables are values passed in and out; a query is a function of
        the table.  Only [logger.error] and [logger.warning] calls are kept in
        the log that a function returns.
      - [try: ... except Exception: return df] blocks that assign columns one
        after the other are a list of steps run until the first one raises. *)

From Stdlib Require Import QArith Qround Qabs ZArith List Sorted Lia Lqa Ascii String.
From Stdlib Require SpecFloat.
From stdpp Require Import base option list gmap strings.

Open Scope string_scope.
Open Scope list_scope.

(** ** Python values *)
Module Py.

Abbreviation float := (option Q).

Definition nan : float := None.

Definition Qlt_bool (x y : Q) : bool := negb (Qle_bool y x).

Definition lift2 (f : Q -> Q -> Q) (a b : float) : float :=
  match a, b with
  | Some x, Some y => Some (f x y)
  | _, _ => None
  end.

Definition fadd : float -> float -> float := lift2 Qplus.
Definition fsub : float -> float -> float := lift2 Qminus.
Definition fmul : float -> float -> float := lift2 Qmult.

(** [a / b]; a zero divisor gives a non-finite float, which is NaN here. *)
Definition fdiv (a b : float) : float :=
  match a, b with
  | Some x, Some y => if Qeq_bool y 0 then None else Some (x / y)%Q
  | _, _ => None
  end.

Definition fabs (a : float) : float := Qabs <$> a.

(** [a / b > c] for a finite threshold [c], the quotient as IEEE has it: over
    a zero divisor a positive number is +inf, which is above [c], a negative
    number is -inf and zero is NaN. *)
Definition fdiv_gt (a b : float) (c : Q) : bool :=
  match a, b with
  | Some x, Some y => if Qeq_bool y 0 then Qlt_bool 0 x else Qlt_bool c (x / y)
  | _, _ => false
  end.

(** [a > b] and [a < b]: False as soon as one side is NaN. *)
Definition fgt (a b : float) : bool :=
  match a, b with
  | Some x, Some y => Qlt_bool y x
  | _, _ => false
  end.

Definition flt (a b : float) : bool := fgt b a.

Definition isna (a : float) : bool :=
  match a with
  | None => true
  | Some _ => false
  end.

Definition Qsum (qs : list Q) : Q := fold_right Qplus 0%Q qs.

Definition Qmean (qs : list Q) : Q := (Qsum qs / inject_Z (Z.of_nat (length qs)))%Q.

(** Square root of a float, rounded down to a multiple of [2^-52]. *)
Definition Qsqrt (q : Q) : Q :=
  Qmake (Z.sqrt (Qfloor (q * inject_Z (2 ^ 104)))) (2 ^ 52).

(** [np.std(a)]: the population standard deviation (ddof = 0); NaN on an
    empty array. *)
Definition np_std (qs : list Q) : float :=
  match qs with
  | [] => None
  | _ => let m := Qmean qs in
         Some (Qsqrt (Qmean (map (fun q => (q - m) * (q - m))%Q qs)))
  end.

(** The exceptions the modelled code can raise. *)
Inductive exn :=
| KeyError (key : string)
| ValueError (msg : string)
| TypeError (what : string)
| OverflowError (msg : string).

Inductive result (A : Type) :=
| Ok (a : A)
| Raise (e : exn).

Arguments Ok {A} a.
Arguments Raise {A} e.

Definition bind {A B : Type} (r : result A) (k : A -> result B) : result B :=
  match r with
  | Ok a => k a
  | Raise e => Raise e
  end.

(** [d[key]] on an optional lookup: a missing key raises [KeyError]. *)
Definition getitem {A : Type} (key : string) (o : option A) : result A :=
  match o with
  | Some a => Ok a
  | None => Raise (KeyError key)
  end.

(** Log records: the level and the message, the values of an f-string kept
    as arguments. *)
Inductive level := ERROR | WARNING.

Inductive message :=
| NoDataFound (symbol : string)
| NoDataAvailable (symbol : string)
| NoFeatureData
| NoFeaturesForPrediction
| MergeFailedNoMatchingDates
| FeatureDateRange (lo hi : option Z)
| PriceDateRange (lo hi : option Z)
| ErrorIn (where_ : string).

Definition log := list (level * message).

(** IEEE binary64, the [float] of Python, for the products that the sources
    compare or truncate. *)
Module Double.

Definition prec : Z := 53.
Definition emax : Z := 1024.

Definition double : Type := SpecFloat.spec_float.

(** [float(n)] of an integer: the double nearest to it, ties to even (an
    infinity past the largest double, where Python raises). *)
Definition of_Z (z : Z) : double := SpecFloat.binary_normalize prec emax z 0 false.

(** The double nearest to a rational, ties to even: the value of a decimal
    literal or of a number of a JSON response. *)
Definition of_Q (q : Q) : double :=
  match Qnum q with
  | Z0 => SpecFloat.S754_zero false
  | Zpos n => SpecFloat.SFdiv prec emax (SpecFloat.S754_finite false n 0)
                              (SpecFloat.S754_finite false (Qden q) 0)
  | Zneg n => SpecFloat.SFdiv prec emax (SpecFloat.S754_finite true n 0)
                              (SpecFloat.S754_finite false (Qden q) 0)
  end.

Definition mul : double -> double -> double := SpecFloat.SFmul prec emax.

(** [x < y], False as soon as one side is NaN. *)
Definition ltb : double -> double -> bool := SpecFloat.SFltb.

(** The truth value of a float: False for 0.0 and -0.0 only. *)
Definition truthy (x : double) : bool :=
  match x with
  | SpecFloat.S754_zero _ => false
  | _ => true
  end.

(** [int(x)]: truncation toward zero; NaN and the infinities raise. *)
Definition to_int (x : double) : result Z :=
  match x with
  | SpecFloat.S754_zero _ => Ok 0%Z
  | SpecFloat.S754_finite s m e =>
      let magnitude := Z.shiftl (Zpos m) e in
      Ok (if s then (- magnitude)%Z else magnitude)
  | SpecFloat.S754_infinity _ => Raise (OverflowError "cannot convert float infinity to integer")
  | SpecFloat.S754_nan => Raise (ValueError "cannot convert float NaN to integer")
  end.

End Double.

End Py.

#[global]
Instance result_bind : MBind Py.result := fun _ _ k r => Py.bind r k.

(** ** The pandas operations the sources use *)
Module Pandas.
Import Py.

(** The value at position [i] of a float series, NaN out of range. *)
Definition cell (xs : list float) (i : nat) : float := default None (xs !! i).

(** [s.shift(periods)]: values move down by [periods] rows (up when it is
    negative); the vacated rows are NaN and the length is kept. *)
Definition shift (periods : Z) (xs : list float) : list float :=
  if (0 <=? periods)%Z
  then take (length xs) (replicate (Z.to_nat periods) None ++ xs)
  else drop (Z.to_nat (- periods)) xs
       ++ replicate (Nat.min (Z.to_nat (- periods)) (length xs)) None.

(** [s.ffill()] *)
Fixpoint ffill_from (last : float) (xs : list float) : list float :=
  match xs with
  | [] => []
  | Some x :: rest => Some x :: ffill_from (Some x) rest
  | None :: rest => last :: ffill_from last rest
  end.

Definition ffill (xs : list float) : list float := ffill_from None xs.

(** [s.pct_change(periods)] with the default [fill_method='pad']:
    [s.ffill() / s.ffill().shift(periods) - 1]. *)
Definition pct_change (periods : nat) (xs : list float) : list float :=
  let filled := ffill xs in
  zip_with (fun a b => fsub (fdiv a b) (Some 1%Q)) filled (shift (Z.of_nat periods) filled).

(** The [w] values of the window that ends at position [i]. *)
Definition window (w i : nat) (xs : list float) : list float :=
  take w (drop (S i - w) xs).

(** [s.rolling(window=w).agg()]: [min_periods] defaults to [w], so the result
    is NaN until [w] observations are there and whenever one of them is NaN. *)
Definition rolling (agg : list Q -> float) (w : nat) (xs : list float) : list float :=
  map (fun i => if (S i <? w)%nat then None else mapM id (window w i xs) ≫= agg)
      (seq 0 (length xs)).

Definition rolling_mean : nat -> list float -> list float :=
  rolling (fun qs => Some (Qmean qs)).

(** Row-wise mean over several series, NaN skipped ([mean(axis=1)]). *)
Definition row_mean (n : nat) (series : list (list float)) : list float :=
  map (fun i => match omap (fun s => cell s i) series with
                | [] => None
                | qs => Some (Qmean qs)
                end)
      (seq 0 n).

(** The series of [f 0 .. f (n - 1)]: an element-wise expression over the
    rows of a frame. *)
Definition tabulate {A : Type} (n : nat) (f : nat -> A) : list A := map f (seq 0 n).

(** A series re-indexed to [n] rows: cut, or filled with NaN. *)
Definition resize (n : nat) (xs : list float) : list float :=
  take n (xs ++ replicate (n - length xs) None).

(** Typed columns. *)
Inductive column :=
| FloatCol (xs : list float)
| IntCol (zs : list Z)
| BoolCol (bs : list bool)
| StrCol (ss : list (option string))
| TimeCol (ts : list Z).

Definition col_len (c : column) : nat :=
  match c with
  | FloatCol xs => length xs
  | IntCol zs => length zs
  | BoolCol bs => length bs
  | StrCol ss => length ss
  | TimeCol ts => length ts
  end.

(** Positional gather: the rows [idx], in that order. *)
Definition gather {A : Type} (d : A) (xs : list A) (idx : list nat) : list A :=
  map (fun i => nth i xs d) idx.

Definition col_take (idx : list nat) (c : column) : column :=
  match c with
  | FloatCol xs => FloatCol (gather None xs idx)
  | IntCol zs => IntCol (gather 0%Z zs idx)
  | BoolCol bs => BoolCol (gather false bs idx)
  | StrCol ss => StrCol (gather None ss idx)
  | TimeCol ts => TimeCol (gather 0%Z ts idx)
  end.

(** [pd.isna] of the value at row [i] of a column. *)
Definition col_isna (c : column) (i : nat) : bool :=
  match c with
  | FloatCol xs => isna (cell xs i)
  | StrCol ss => match ss !! i with Some (Some _) => false | _ => true end
  | _ => false
  end.

Record DataFrame := mkDF { nrows : nat; columns : gmap string column }.

(** [pd.DataFrame()] *)
Definition empty_frame : DataFrame := mkDF 0 ∅.

(** [df.empty]: no row or no column. *)
Definition df_empty (df : DataFrame) : bool :=
  (nrows df =? 0)%nat || bool_decide (columns df = ∅).

Definition has_col (df : DataFrame) (name : string) : bool :=
  bool_decide (is_Some (columns df !! name)).

Definition floats (df : DataFrame) (name : string) : option (list float) :=
  match columns df !! name with
  | Some (FloatCol xs) => Some xs
  | _ => None
  end.

(** A numeric column read as floats (int64 columns convert). *)
Definition numeric (df : DataFrame) (name : string) : option (list float) :=
  match columns df !! name with
  | Some (FloatCol xs) => Some xs
  | Some (IntCol zs) => Some (map (fun z => Some (inject_Z z)) zs)
  | _ => None
  end.

Definition times (df : DataFrame) (name : string) : option (list Z) :=
  match columns df !! name with
  | Some (TimeCol ts) => Some ts
  | _ => None
  end.

Definition bools (df : DataFrame) (name : string) : option (list bool) :=
  match columns df !! name with
  | Some (BoolCol bs) => Some bs
  | _ => None
  end.

(** [df[name] = c] *)
Definition assign (name : string) (c : column) (df : DataFrame) : DataFrame :=
  mkDF (nrows df) (<[name := c]> (columns df)).

(** The frame of the rows [idx] (what a merge, a sort or a dropna leaves). *)
Definition df_take (idx : list nat) (df : DataFrame) : DataFrame :=
  mkDF (length idx) (col_take idx <$> columns df).

(** Stable insertion sort of (key, payload) pairs by key. *)
Fixpoint insert_by_key {A : Type} (p : Z * A) (l : list (Z * A)) : list (Z * A) :=
  match l with
  | [] => [p]
  | q :: rest => if (fst p <=? fst q)%Z then p :: q :: rest
                 else q :: insert_by_key p rest
  end.

Definition sort_pairs {A : Type} (l : list (Z * A)) : list (Z * A) :=
  fold_right insert_by_key [] l.

(** The positions of [keys] in ascending key order ([argsort]). *)
Definition argsort (keys : list Z) : list nat :=
  map snd (sort_pairs (zip keys (seq 0 (length keys)))).

(** [df.sort_values(key)] for an integer-valued key column.  Rows of equal
    key stay in their order, as they do in the sort of pandas on short
    frames; on long ones their order among themselves is not fixed. *)
Definition sort_values (keys : list Z) (df : DataFrame) : DataFrame :=
  df_take (argsort keys) df.

(** The positions of the right keys equal to [k], in right order. *)
Definition matches (k : Z) (rkeys : list Z) : list nat :=
  List.filter (fun j => (nth j rkeys 0%Z =? k)%Z) (seq 0 (length rkeys)).

(** Row pairs of [left.merge(right, on=key, how='inner')]: for each left row
    in order, its matching right rows. *)
Definition inner_pairs (lkeys rkeys : list Z) : list (nat * nat) :=
  flat_map (fun i => map (fun j => (i, j)) (matches (nth i lkeys 0%Z) rkeys))
           (seq 0 (length lkeys)).

(** Row pairs of [how='left']: a left row without a match is kept once, with
    no right row. *)
Definition left_pairs (lkeys rkeys : list Z) : list (nat * option nat) :=
  flat_map (fun i => match matches (nth i lkeys 0%Z) rkeys with
                     | [] => [(i, None)]
                     | js => map (fun j => (i, Some j)) js
                     end)
           (seq 0 (length lkeys)).

(** The right-hand float column along the row pairs of a left merge: NaN
    where there is no right row. *)
Definition gather_opt (xs : list float) (idx : list (option nat)) : list float :=
  map (fun o => match o with Some j => cell xs j | None => None end) idx.

(** [df.dropna(subset=names)]: the rows where no column of [names] is
    missing; a name that is no column raises [KeyError]. *)
Definition row_complete (cs : list column) (i : nat) : bool :=
  forallb (fun c => negb (col_isna c i)) cs.

Fixpoint lookup_all (df : DataFrame) (names : list string) : result (list column) :=
  match names with
  | [] => Ok []
  | name :: rest =>
      c ← getitem name (columns df !! name);
      cs ← lookup_all df rest;
      Ok (c :: cs)
  end.

Definition complete_rows (cs : list column) (n : nat) : list nat :=
  List.filter (row_complete cs) (seq 0 n).

Definition dropna (subset : list string) (df : DataFrame) : result DataFrame :=
  cs ← lookup_all df subset;
  Ok (df_take (complete_rows cs (nrows df)) df).

(** Minimum and maximum of a key column; NaN (None) on an empty column. *)
Definition key_min (keys : list Z) : option Z :=
  match keys with
  | [] => None
  | k :: rest => Some (fold_right Z.min k rest)
  end.

Definition key_max (keys : list Z) : option Z :=
  match keys with
  | [] => None
  | k :: rest => Some (fold_right Z.max k rest)
  end.

End Pandas.

(** ** Numeric kernels of the installed packages *)
Module Ta.
Import Py Pandas.

(** The indicator functions of the [ta] package that the feature engineer
    calls, and pandas' rolling standard deviation and correlation.  They are
    no code of this repository and no statement below depends on the values
    they return; an indicator call may raise ([None]). *)
Record Library := mkLibrary {
  ema_indicator : list float -> nat -> option (list float);
  rsi : list float -> nat -> option (list float);
  macd : list float -> option (list float);
  macd_signal : list float -> option (list float);
  macd_diff : list float -> option (list float);
  bollinger_hband : list float -> option (list float);
  bollinger_mavg : list float -> option (list float);
  bollinger_lband : list float -> option (list float);
  average_true_range : list float -> list float -> list float -> nat -> option (list float);
  on_balance_volume : list float -> list float -> option (list float);
  rolling_std : nat -> list float -> list float;
  rolling_corr : nat -> list float -> list float -> list float
}.

(** Modelled from the spec: [ta.trend.sma_indicator] is a function of the [ta]
    package, not of this repository.  The spec (4.1, 8) fixes it: the output
    at position [i] is the arithmetic mean of the [w] most recent closes
    ending at [i], and is undefined for [i < w - 1]. *)
Definition sma_indicator (close : list float) (w : nat) : list float :=
  rolling_mean w close.

(** The library on a series shorter than every window (fewer than 9 rows):
    each windowed indicator is still warming up, the average true range has
    no first window to start from, and the on-balance volume is the running
    sum of the signed volume. *)
Definition signed_volume (close volume : list float) : list float :=
  tabulate (length close)
    (fun i => if flt (cell close i) (cell (shift 1 close) i)
              then fsub (Some 0%Q) (cell volume i) else cell volume i).

Fixpoint cumsum_from (acc : float) (xs : list float) : list float :=
  match xs with
  | [] => []
  | x :: rest => let acc' := fadd acc x in acc' :: cumsum_from acc' rest
  end.

Definition all_nan (xs : list float) : list float := replicate (length xs) None.

Definition warming_up : Library := {|
  ema_indicator := fun close _ => Some (all_nan close);
  rsi := fun close _ => Some (all_nan close);
  macd := fun close => Some (all_nan close);
  macd_signal := fun close => Some (all_nan close);
  macd_diff := fun close => Some (all_nan close);
  bollinger_hband := fun close => Some (all_nan close);
  bollinger_mavg := fun close => Some (all_nan close);
  bollinger_lband := fun close => Some (all_nan close);
  average_true_range := fun _ _ _ _ => None;
  on_balance_volume := fun close volume =>
    Some (cumsum_from (Some 0%Q) (signed_volume close volume));
  rolling_std := fun _ xs => all_nan xs;
  rolling_corr := fun _ xs _ => all_nan xs
|}.

End Ta.

(** ** JSON records and the tables of the store *)
Module Store.
Import Py Pandas.

(** A value of a record ([to_dict('records')], a row of a response). *)
Inductive value :=
| VFloat (q : Q)
| VInt (z : Z)
| VBool (b : bool)
| VStr (s : string)
| VTime (t : Z)
| VNone.

Definition value_at (c : column) (i : nat) : value :=
  match c with
  | FloatCol xs => match cell xs i with Some q => VFloat q | None => VNone end
  | IntCol zs => VInt (nth i zs 0%Z)
  | BoolCol bs => VBool (nth i bs false)
  | StrCol ss => match nth i ss None with Some s => VStr s | None => VNone end
  | TimeCol ts => VTime (nth i ts 0%Z)
  end.

(** Row [i] of [df[names]] as a dict. *)
Definition record_of_row (df : DataFrame) (names : list string) (i : nat)
  : gmap string value :=
  list_to_map (omap (fun name => c ← columns df !! name; Some (name, value_at c i)) names).

(** A row of table [market_data_raw], keyed by (symbol, timestamp). *)
Record Bar := mkBar {
  symbol : string;
  timestamp : Z;
  open : float;
  high : float;
  low : float;
  close : float;
  volume : float;
  adjusted_close : float
}.

(** [.eq('symbol', sym).gte('timestamp', start).order('timestamp')]; without
    [gte] when [start] is [None]. *)
Definition select_bars (tbl : list Bar) (sym : string) (start : option Z) : list Bar :=
  let hit b := bool_decide (symbol b = sym)
               && match start with Some t => (t <=? timestamp b)%Z | None => true end in
  map snd (sort_pairs (map (fun b => (timestamp b, b)) (List.filter hit tbl))).

(** [pd.DataFrame(response.data)] for rows of [market_data_raw]. *)
Definition frame_of_bars (rows : list Bar) : DataFrame :=
  mkDF (length rows)
    (list_to_map
       [("symbol", StrCol (map (fun b => Some (symbol b)) rows));
        ("timestamp", TimeCol (map timestamp rows));
        ("open", FloatCol (map open rows));
        ("high", FloatCol (map high rows));
        ("low", FloatCol (map low rows));
        ("close", FloatCol (map close rows));
        ("volume", FloatCol (map volume rows));
        ("adjusted_close", FloatCol (map adjusted_close rows))]).

(** Table [features_store], keyed by (symbol, timestamp, feature_version). *)
Definition feature_key (r : gmap string value) : option (string * Z * string) :=
  match r !! "symbol", r !! "timestamp", r !! "feature_version" with
  | Some (VStr s), Some (VTime t), Some (VStr v) => Some (s, t, v)
  | _, _, _ => None
  end.

(** [.upsert(batch, on_conflict='symbol,timestamp,feature_version')]: one
    statement, so a record without its key fails the whole batch. *)
Definition upsert_features (batch : list (gmap string value))
    (tbl : gmap (string * Z * string) (gmap string value))
  : option (gmap (string * Z * string) (gmap string value)) :=
  keys ← mapM feature_key batch;
  Some (foldl (fun t kr => <[fst kr := snd kr]> t) tbl (zip keys batch)).

End Store.

(** ** feature_engineer.py *)
Module FeatureEngineer.
Import Py Pandas Store.

Definition FEATURE_VERSION : string := "v1".

(** [fetch_market_data]: the rows of the symbol since [now - days_back]
    days, ascending; an empty response is an empty frame and a warning. *)
Definition fetch_market_data (market_data_raw : list Bar) (now : Z)
    (sym : string) (days_back : Z) : DataFrame * log :=
  match select_bars market_data_raw sym (Some (now - days_back * 86400)%Z) with
  | [] => (empty_frame, [(WARNING, NoDataFound sym)])
  | rows => (frame_of_bars rows, [])
  end.

(** A statement [df[name] = ...] of a [try] block: the new frame, or [None]
    when the statement raises. *)
Definition step := DataFrame -> option DataFrame.

(** The statements of a [try] block run in order on the frame, which they
    change in place; [except Exception] logs and returns the frame as the
    statements before the failing one left it. *)
Fixpoint try_steps (where_ : string) (steps : list step) (df : DataFrame)
  : DataFrame * log :=
  match steps with
  | [] => (df, [])
  | s :: rest =>
      match s df with
      | Some df' => try_steps where_ rest df'
      | None => (df, [(ERROR, ErrorIn where_)])
      end
  end.

(** [df[name] = f(df[src])] *)
Definition derive (name src : string) (f : list float -> option (list float)) : step :=
  fun df => xs ← floats df src; ys ← f xs; Some (assign name (FloatCol ys) df).

Section WithLibrary.
Variable lib : Ta.Library.

Definition calculate_technical_indicators : DataFrame -> DataFrame * log :=
  try_steps "calculating technical indicators"
    [derive "sma_5" "close" (fun c => Some (Ta.sma_indicator c 5));
     derive "sma_20" "close" (fun c => Some (Ta.sma_indicator c 20));
     derive "sma_50" "close" (fun c => Some (Ta.sma_indicator c 50));
     derive "ema_12" "close" (fun c => Ta.ema_indicator lib c 12);
     derive "ema_26" "close" (fun c => Ta.ema_indicator lib c 26);
     derive "rsi_14" "close" (fun c => Ta.rsi lib c 14);
     derive "macd" "close" (Ta.macd lib);
     derive "macd_signal" "close" (Ta.macd_signal lib);
     derive "macd_histogram" "close" (Ta.macd_diff lib);
     derive "bollinger_upper" "close" (Ta.bollinger_hband lib);
     derive "bollinger_middle" "close" (Ta.bollinger_mavg lib);
     derive "bollinger_lower" "close" (Ta.bollinger_lband lib);
     (fun df => h ← floats df "high"; l ← floats df "low"; c ← floats df "close";
                ys ← Ta.average_true_range lib h l c 14;
                Some (assign "atr_14" (FloatCol ys) df));
     (fun df => c ← floats df "close"; v ← floats df "volume";
                ys ← Ta.on_balance_volume lib c v;
                Some (assign "obv" (FloatCol ys) df))].

Definition calculate_price_features : DataFrame -> DataFrame * log :=
  try_steps "calculating price features"
    [derive "returns_1d" "close" (fun c => Some (pct_change 1 c));
     derive "returns_5d" "close" (fun c => Some (pct_change 5 c));
     derive "returns_20d" "close" (fun c => Some (pct_change 20 c));
     derive "volatility_20d" "returns_1d" (fun r => Some (Ta.rolling_std lib 20 r))].

Definition calculate_volume_features : DataFrame -> DataFrame * log :=
  try_steps "calculating volume features"
    [derive "volume_sma_20" "volume" (fun v => Some (rolling_mean 20 v));
     (fun df => v ← floats df "volume"; m ← floats df "volume_sma_20";
                Some (assign "volume_ratio" (FloatCol (zip_with fdiv v m)) df))].

(** [left.merge(right[['timestamp', 'close']], on='timestamp', how='left',
    suffixes=('', suffix))]: the right close is renamed only when the left
    frame has a close column of its own. *)
Definition merge_close (left right : DataFrame) (suffix : string) : option DataFrame :=
  rts ← times right "timestamp";
  rclose ← floats right "close";
  lts ← times left "timestamp";
  let pairs := left_pairs lts rts in
  let name := if has_col left "close" then "close" +:+ suffix else "close" in
  Some (assign name (FloatCol (gather_opt rclose (map snd pairs)))
               (df_take (map fst pairs) left)).

(** The body of the [try] block of [calculate_sector_features]: [None] when
    it raises. *)
Definition sector_features (df_primary df_index : DataFrame)
    (df_peers : list DataFrame) : option DataFrame :=
  merged ← merge_close df_primary df_index "_index";
  r1 ← floats merged "returns_1d";
  ci ← floats merged "close_index";
  let merged := assign "correlation_nifty_bank"
                  (FloatCol (Ta.rolling_corr lib 20 r1 (pct_change 1 ci))) merged in
  c ← floats merged "close";
  ci ← floats merged "close_index";
  let merged := assign "relative_strength_sector"
                  (FloatCol (zip_with fdiv c ci)) merged in
  match df_peers with
  | [] => Some merged
  | _ =>
      peer_returns ← mapM (fun peer_df =>
                             peer_merged ← merge_close merged peer_df "_peer";
                             cp ← floats peer_merged "close_peer";
                             Some (pct_change 1 cp)) df_peers;
      (* pd.concat(axis=1) and corr align the series on the row labels *)
      let rows := foldr Nat.max (nrows merged) (length <$> peer_returns) in
      let avg_peer_returns := row_mean rows peer_returns in
      r1 ← floats merged "returns_1d";
      Some (assign "correlation_banking_peers"
              (FloatCol (resize (nrows merged)
                           (Ta.rolling_corr lib 20 (resize rows r1) avg_peer_returns)))
              merged)
  end.

Definition calculate_sector_features (df_primary df_index : DataFrame)
    (df_peers : list DataFrame) : DataFrame * log :=
  match sector_features df_primary df_index df_peers with
  | Some merged => (merged, [])
  | None => (df_primary, [(ERROR, ErrorIn "calculating sector features")])
  end.

End WithLibrary.

(** [np.select(conditions, choices, default)] at one row. *)
Fixpoint np_select (conditions : list bool) (choices : list string)
    (default : string) : string :=
  match conditions, choices with
  | true :: _, choice :: _ => choice
  | false :: conditions', _ :: choices' => np_select conditions' choices' default
  | _, _ => default
  end.

(** [classify_regime].  The columns it reads are numeric (float64 or int64).
    The frame stores [trend_strength] with NaN where the quotient is not
    finite, so [df['trend_strength'] > 0.02] is taken on the quotient
    itself, as IEEE has it ([fdiv_gt]). *)
Definition classify_regime : DataFrame -> DataFrame * log :=
  try_steps "classifying regime"
    [(fun df => s5 ← numeric df "sma_5"; s20 ← numeric df "sma_20"; s50 ← numeric df "sma_50";
                Some (assign "trend_up"
                        (BoolCol (tabulate (nrows df) (fun i =>
                           fgt (cell s5 i) (cell s20 i) && fgt (cell s20 i) (cell s50 i))))
                        df));
     (fun df => s5 ← numeric df "sma_5"; s20 ← numeric df "sma_20"; s50 ← numeric df "sma_50";
                Some (assign "trend_down"
                        (BoolCol (tabulate (nrows df) (fun i =>
                           flt (cell s5 i) (cell s20 i) && flt (cell s20 i) (cell s50 i))))
                        df));
     (fun df => s5 ← numeric df "sma_5"; s50 ← numeric df "sma_50";
                Some (assign "trend_strength"
                        (FloatCol (tabulate (nrows df) (fun i =>
                           fdiv (fabs (fsub (cell s5 i) (cell s50 i))) (cell s50 i))))
                        df));
     (fun df => up ← bools df "trend_up"; _ ← floats df "trend_strength";
                s5 ← numeric df "sma_5"; s50 ← numeric df "sma_50";
                down ← bools df "trend_down"; vol ← numeric df "volatility_20d";
                let strong i :=
                  fdiv_gt (fabs (fsub (cell s5 i) (cell s50 i))) (cell s50 i) (2 # 100) in
                let vol_mean := rolling_mean 50 vol in
                Some (assign "regime_classification"
                        (StrCol (tabulate (nrows df) (fun i =>
                           Some (np_select
                                   [nth i up false && strong i;
                                    nth i down false && strong i;
                                    fgt (cell vol i) (fmul (cell vol_mean i) (Some (15 # 10)))]
                                   ["trending_up"; "trending_down"; "high_volatility"]
                                   "ranging"))))
                        df))].

Definition feature_columns : list string :=
  ["symbol"; "timestamp"; "feature_version";
   "sma_5"; "sma_20"; "sma_50"; "ema_12"; "ema_26";
   "rsi_14"; "macd"; "macd_signal"; "macd_histogram";
   "bollinger_upper"; "bollinger_middle"; "bollinger_lower";
   "atr_14"; "obv";
   "returns_1d"; "returns_5d"; "returns_20d"; "volatility_20d";
   "volume_sma_20"; "volume_ratio";
   "correlation_nifty_bank"; "correlation_banking_peers"; "relative_strength_sector";
   "regime_classification"; "trend_strength"].

(** [prepare_features_for_storage]: one record per row of the frame, over
    the listed columns that the frame has; NaN is replaced by None. *)
Definition prepare_features_for_storage (df : DataFrame) (sym : string)
  : list (gmap string value) :=
  let df := assign "symbol" (StrCol (replicate (nrows df) (Some sym))) df in
  let df := assign "feature_version"
              (StrCol (replicate (nrows df) (Some FEATURE_VERSION))) df in
  let available_columns := List.filter (has_col df) feature_columns in
  tabulate (nrows df) (record_of_row df available_columns).

(** [int(value)]: truncation toward zero. *)
Definition Qtruncate (q : Q) : Z :=
  if Qle_bool 0 q then Qfloor q else Qceiling q.

Definition bigint_columns : list string := ["obv"; "volume_sma_20"].

(** [int(s)] of a string of code points below 256: white space around an
    optional sign and decimal digits, single underscores between digits; at
    most 4300 digits (the limit of the integer string conversion). *)
Definition is_space (a : ascii) : bool :=
  let n := nat_of_ascii a in
  ((9 <=? n) && (n <=? 13) || (n =? 32) || (n =? 133) || (n =? 160))%nat.

Definition digit_of (a : ascii) : option Z :=
  let n := nat_of_ascii a in
  if ((48 <=? n) && (n <=? 57))%nat then Some (Z.of_nat (n - 48)) else None.

Fixpoint lstrip (s : list ascii) : list ascii :=
  match s with
  | a :: rest => if is_space a then lstrip rest else s
  | [] => []
  end.

Definition strip (s : list ascii) : list ascii := rev (lstrip (rev (lstrip s))).

(** The digits after a first digit: the value and the number of digits. *)
Fixpoint more_digits (acc : Z) (count : nat) (s : list ascii) : option (Z * nat) :=
  match s with
  | [] => Some (acc, count)
  | a :: rest =>
      match digit_of a with
      | Some d => more_digits (10 * acc + d) (S count) rest
      | None =>
          if Ascii.eqb a "_"%char
          then match rest with
               | b :: rest' =>
                   match digit_of b with
                   | Some d => more_digits (10 * acc + d) (S count) rest'
                   | None => None
                   end
               | [] => None
               end
          else None
      end
  end.

Definition int_of_str (s : string) : option Z :=
  let body := strip (list_ascii_of_string s) in
  let signed :=
    match body with
    | a :: rest => if Ascii.eqb a "-"%char then (true, rest)
                   else if Ascii.eqb a "+"%char then (false, rest)
                   else (false, body)
    | [] => (false, body)
    end in
  match snd signed with
  | a :: rest =>
      d ← digit_of a;
      '(magnitude, count) ← more_digits d 1 rest;
      if (4300 <? count)%nat then None
      else Some (if fst signed then (- magnitude)%Z else magnitude)
  | [] => None
  end.

(** [int(value)] of line 232; [None] when it raises. *)
Definition py_int (v : value) : option Z :=
  match v with
  | VFloat q => Some (Qtruncate q)
  | VInt z => Some z
  | VBool b => Some (if b then 1%Z else 0%Z)
  | VStr s => int_of_str s
  | VTime _ => None
  | VNone => None
  end.

(** The body of the loop over [record.items()].  Where [int(value)] raises
    the value is left as it is: [store_features] does not get there, see
    [sanitizable]. *)
Definition sanitize_value (key : string) (v : value) : value :=
  match v with
  | VNone => VNone
  | VTime t => VTime t
  | _ => if bool_decide (key ∈ bigint_columns)
         then match py_int v with Some z => VInt z | None => v end
         else v
  end.

Definition sanitize (r : gmap string value) : gmap string value :=
  map_imap (fun key v => Some (sanitize_value key v)) r.

(** No [int(value)] of the record raises. *)
Definition sanitizable_value (key : string) (v : value) : bool :=
  match v with
  | VNone => true
  | VTime _ => true
  | _ => if bool_decide (key ∈ bigint_columns) then bool_decide (is_Some (py_int v)) else true
  end.

Definition sanitizable (r : gmap string value) : bool :=
  forallb (fun kv => sanitizable_value (fst kv) (snd kv)) (map_to_list r).

(** [records[i:i + batch_size] for i in range(0, len(records), batch_size)] *)
Fixpoint batches_of {A : Type} (fuel batch_size : nat) (l : list A) : list (list A) :=
  match fuel, l with
  | S fuel', _ :: _ => take batch_size l :: batches_of fuel' batch_size (drop batch_size l)
  | _, _ => []
  end.

Fixpoint upsert_batches (bs : list (list (gmap string value)))
    (tbl : gmap (string * Z * string) (gmap string value))
  : bool * gmap (string * Z * string) (gmap string value) * log :=
  match bs with
  | [] => (true, tbl, [])
  | b :: rest =>
      match upsert_features b tbl with
      | Some tbl' => upsert_batches rest tbl'
      | None => (false, tbl, [(ERROR, ErrorIn "storing features")])
      end
  end.

(** [store_features]: every record is sanitised before the first upsert,
    then the upserts go in batches; the first failing statement ends it with
    False (a zero [batch_size] makes [range] raise). *)
Definition store_features (records : list (gmap string value)) (batch_size : nat)
    (tbl : gmap (string * Z * string) (gmap string value))
  : bool * gmap (string * Z * string) (gmap string value) * log :=
  if forallb sanitizable records
  then
    let sanitized_records := sanitize <$> records in
    match batch_size with
    | O => (false, tbl, [(ERROR, ErrorIn "storing features")])
    | _ => upsert_batches
             (batches_of (length sanitized_records) batch_size sanitized_records) tbl
    end
  else (false, tbl, [(ERROR, ErrorIn "storing features")]).

Definition peers : list string := ["ICICIBANK.NS"; "KOTAKBANK.NS"; "AXISBANK.NS"].

(** The frame that [engineer_features] hands to
    [prepare_features_for_storage], for a primary frame that is not empty. *)
Definition engineered_frame (lib : Ta.Library) (df_primary df_index : DataFrame)
    (df_peers : list DataFrame) : DataFrame * log :=
  let '(df1, l1) := calculate_technical_indicators lib df_primary in
  let '(df2, l2) := calculate_price_features lib df1 in
  let '(df3, l3) := calculate_volume_features df2 in
  let '(df4, l4) := if df_empty df_index then (df3, [])
                    else calculate_sector_features lib df3 df_index df_peers in
  let '(df5, l5) := classify_regime df4 in
  (df5, l1 ++ l2 ++ l3 ++ l4 ++ l5).

(** [engineer_features]: the success flag, the features table after the run
    and the log.  [clock k] is the reading of the [k]-th call of
    [datetime.now()] in the run (one per fetch). *)
Definition engineer_features (lib : Ta.Library) (market_data_raw : list Bar)
    (features_store : gmap (string * Z * string) (gmap string value))
    (clock : nat -> Z) (sym : string) (days_back : Z)
  : bool * gmap (string * Z * string) (gmap string value) * log :=
  let '(df_primary, l0) := fetch_market_data market_data_raw (clock 0%nat) sym days_back in
  if df_empty df_primary
  then (false, features_store, l0 ++ [(ERROR, NoDataAvailable sym)])
  else
    let '(df_index, li) := fetch_market_data market_data_raw (clock 1%nat) "^NSEBANK" days_back in
    let fetched := imap (fun k peer =>
                           fetch_market_data market_data_raw (clock (2 + k)%nat) peer days_back)
                        peers in
    let df_peers := List.filter (fun d => negb (df_empty d)) (fst <$> fetched) in
    let lp := concat (snd <$> fetched) in
    let '(df, lf) := engineered_frame lib df_primary df_index df_peers in
    let records := prepare_features_for_storage df sym in
    let '(success, tbl, ls) := store_features records 1000 features_store in
    (success, tbl, l0 ++ li ++ lp ++ lf ++ ls).

End FeatureEngineer.

(** ** advanced_model.py *)
Module AdvancedXGBoostModel.
Import Py Pandas Store.

Definition MODEL_NAME : string := "advanced_xgboost".
Definition MODEL_VERSION : string := "v1.0".
Definition FEATURE_VERSION : string := "v1".

(** The columns of table [features_store] and their types, as
    [FeatureEngineer.prepare_features_for_storage] writes them. *)
Inductive dtype := Float64 | Object | Datetime.

Definition features_schema : list (string * dtype) :=
  [("symbol", Object); ("timestamp", Datetime); ("feature_version", Object);
   ("sma_5", Float64); ("sma_20", Float64); ("sma_50", Float64);
   ("ema_12", Float64); ("ema_26", Float64);
   ("rsi_14", Float64); ("macd", Float64); ("macd_signal", Float64);
   ("macd_histogram", Float64);
   ("bollinger_upper", Float64); ("bollinger_middle", Float64);
   ("bollinger_lower", Float64);
   ("atr_14", Float64); ("obv", Float64);
   ("returns_1d", Float64); ("returns_5d", Float64); ("returns_20d", Float64);
   ("volatility_20d", Float64);
   ("volume_sma_20", Float64); ("volume_ratio", Float64);
   ("correlation_nifty_bank", Float64); ("correlation_banking_peers", Float64);
   ("relative_strength_sector", Float64);
   ("regime_classification", Object); ("trend_strength", Float64)].

Definition float_of_value (v : option value) : float :=
  match v with
  | Some (VFloat q) => Some q
  | Some (VInt z) => Some (inject_Z z)
  | _ => None
  end.

Definition str_of_value (v : option value) : option string :=
  match v with
  | Some (VStr s) => Some s
  | _ => None
  end.

Definition time_of_value (v : option value) : Z :=
  match v with
  | Some (VTime t) => t
  | _ => 0%Z
  end.

Definition column_of_values (name : string) (ty : dtype)
    (rows : list (gmap string value)) : column :=
  match ty with
  | Float64 => FloatCol (map (fun r => float_of_value (r !! name)) rows)
  | Object => StrCol (map (fun r => str_of_value (r !! name)) rows)
  | Datetime => TimeCol (map (fun r => time_of_value (r !! name)) rows)
  end.

(** [pd.DataFrame(response.data)] for rows of [features_store] ([select('*')]
    returns every column of the table, null where a record had none). *)
Definition frame_of_features (rows : list (gmap string value)) : DataFrame :=
  match rows with
  | [] => empty_frame
  | _ => mkDF (length rows)
           (list_to_map
              (map (fun '(name, ty) => (name, column_of_values name ty rows))
                   features_schema))
  end.

(** [.eq('symbol', sym).eq('feature_version', version)
     .gte('timestamp', start).order('timestamp')] on [features_store]. *)
Definition select_features (tbl : gmap (string * Z * string) (gmap string value))
    (sym version : string) (start : option Z) : list (gmap string value) :=
  let hit (kr : (string * Z * string) * gmap string value) :=
    let '(s, t, v) := fst kr in
    bool_decide (s = sym) && bool_decide (v = version)
    && match start with Some t0 => (t0 <=? t)%Z | None => true end in
  map snd (sort_pairs (map (fun kr => (snd (fst (fst kr)), snd kr))
                           (List.filter hit (map_to_list tbl)))).

(** [fetch_training_data]: the date filter is dropped when it leaves
    nothing. *)
Definition fetch_training_data (features_store : gmap (string * Z * string) (gmap string value))
    (now : Z) (sym : string) (days_back : Z) : DataFrame * log :=
  match select_features features_store sym FEATURE_VERSION
          (Some (now - days_back * 86400)%Z) with
  | [] =>
      match select_features features_store sym FEATURE_VERSION None with
      | [] => (empty_frame, [(WARNING, NoFeatureData); (ERROR, NoFeatureData)])
      | rows => (frame_of_features rows, [(WARNING, NoFeatureData)])
      end
  | rows => (frame_of_features rows, [])
  end.

Definition base_feature_columns : list string :=
  ["sma_5"; "sma_20"; "sma_50"; "ema_12"; "ema_26";
   "rsi_14"; "macd"; "macd_signal"; "macd_histogram";
   "bollinger_upper"; "bollinger_middle"; "bollinger_lower";
   "atr_14";
   "returns_1d"; "returns_5d"; "returns_20d"; "volatility_20d";
   "volume_ratio";
   "correlation_nifty_bank"; "correlation_banking_peers"; "relative_strength_sector";
   "trend_strength"].

Definition lag_features : list string := ["returns_1d"; "rsi_14"; "macd"; "volatility_20d"].

Definition all_regimes : list string :=
  ["high_volatility"; "ranging"; "trending_down"; "trending_up"].

Definition regime_column (regime : string) : string := "regime_" +:+ regime.

(** The state of [prepare_features]: the frame and [self.feature_columns]. *)
Definition prep_state : Type := DataFrame * list string.

(** The lag loop.  The lag and rolling sources are numeric columns of the
    features table; under another dtype the model raises. *)
Fixpoint add_lags (cols : list string) (st : prep_state) : result prep_state :=
  match cols with
  | [] => Ok st
  | col :: rest =>
      let '(df, feature_columns) := st in
      if has_col df col
      then
        xs ← getitem col (numeric df col);
        let df := assign (col +:+ "_lag1") (FloatCol (shift 1 xs)) df in
        let df := assign (col +:+ "_lag2") (FloatCol (shift 2 xs)) df in
        add_lags rest (df, feature_columns ++ [col +:+ "_lag1"; col +:+ "_lag2"])
      else add_lags rest st
  end.

Definition add_rolling (lib : Ta.Library) (st : prep_state) : result prep_state :=
  let '(df, feature_columns) := st in
  if has_col df "returns_1d"
  then
    xs ← getitem "returns_1d" (numeric df "returns_1d");
    let df := assign "returns_1d_rolling_mean_5" (FloatCol (rolling_mean 5 xs)) df in
    let df := assign "returns_1d_rolling_std_5" (FloatCol (Ta.rolling_std lib 5 xs)) df in
    Ok (df, feature_columns ++ ["returns_1d_rolling_mean_5"; "returns_1d_rolling_std_5"])
  else Ok st.

(** [df['regime_classification'] == regime], row by row. *)
Definition eq_mask (c : column) (regime : string) (i : nat) : bool :=
  match c with
  | StrCol ss => bool_decide (nth i ss None = Some regime)
  | _ => false
  end.

(** [df.loc[mask, name] = 1] on an integer column. *)
Definition loc_set_one (mask : nat -> bool) (name : string) (df : DataFrame) : DataFrame :=
  match columns df !! name with
  | Some (IntCol zs) =>
      assign name (IntCol (tabulate (nrows df)
                             (fun i => if mask i then 1%Z else nth i zs 0%Z))) df
  | _ => df
  end.

Definition encode_regimes (st : prep_state) : prep_state :=
  let '(df, feature_columns) := st in
  match columns df !! "regime_classification" with
  | Some classification =>
      let df := foldl (fun d regime =>
                         assign (regime_column regime) (IntCol (replicate (nrows d) 0%Z)) d)
                      df all_regimes in
      let df := foldl (fun d regime =>
                         loc_set_one (eq_mask classification regime) (regime_column regime) d)
                      df all_regimes in
      let regime_cols := regime_column <$> all_regimes in
      if existsb (fun col => bool_decide (col ∈ feature_columns)) regime_cols
      then (df, feature_columns)
      else (df, feature_columns ++ regime_cols)
  | None => st
  end.

(** [prepare_features]: the frame with the lag, rolling and regime columns,
    and the new value of [self.feature_columns]. *)
Definition prepare_features (lib : Ta.Library) (df : DataFrame) : result prep_state :=
  st ← add_lags lag_features (df, base_feature_columns);
  st ← add_rolling lib st;
  Ok (encode_regimes st).

(** The paging loop of [create_sequences] over the ascending rows of the
    symbol: pages of [range_size] rows until a page is empty or short. *)
Definition range_size : nat := 1000.

Fixpoint fetch_pages (fuel : nat) (rows : list Bar) (range_start : nat) : list Bar :=
  match fuel with
  | O => []
  | S fuel' =>
      match take range_size (drop range_start rows) with
      | [] => []
      | page => if (length page <? range_size)%nat then page
                else page ++ fetch_pages fuel' rows (range_start + range_size)
      end
  end.

Definition fetch_all_prices (market_data_raw : list Bar) : list Bar :=
  let rows := select_bars market_data_raw "HDFCBANK.NS" None in
  fetch_pages (S (length rows)) rows 0.

(** [strftime('%Y-%m-%d')] as a day number. *)
Definition date_str (t : Z) : Z := (t / 86400)%Z.

Definition ints (df : DataFrame) (name : string) : option (list Z) :=
  match columns df !! name with
  | Some (IntCol zs) => Some zs
  | _ => None
  end.

(** [df.merge(price_df[['date_str', 'close']], on='date_str', how='inner')]:
    the feature rows paired with the price rows of the same date.  A close
    column of the feature frame itself would be renamed [close_x], and the
    price close [close_y]. *)
Definition merge_on_date (df : DataFrame) (feature_dates price_dates : list Z)
    (price_close : list float) : DataFrame :=
  let pairs := inner_pairs feature_dates price_dates in
  let left := df_take (map fst pairs) df in
  let close := FloatCol (gather None price_close (map snd pairs)) in
  match columns left !! "close" with
  | Some own => mkDF (nrows left)
                  (<["close_y" := close]> (<["close_x" := own]> (delete "close" (columns left))))
  | None => assign "close" close left
  end.

(** [merged.sort_values('date_str')] and
    [merged['target'] = merged['close'].shift(-forecast_horizon)]. *)
Definition with_target (merged : DataFrame) (forecast_horizon : Z) : result DataFrame :=
  keys ← getitem "date_str" (ints merged "date_str");
  let merged := sort_values keys merged in
  close ← getitem "close" (floats merged "close");
  Ok (assign "target" (FloatCol (shift (- forecast_horizon) close)) merged).

Record Sequences := mkSequences {
  X : list column;
  y : list float;
  timestamps : list Z
}.

(** The frame of the merge: the feature frame with its [date_str] column,
    joined to the prices on the date. *)
Definition joined_frame (df : DataFrame) (feature_times : list Z) (all_prices : list Bar)
  : DataFrame :=
  let feature_dates := date_str <$> feature_times in
  let price_dates := date_str <$> (timestamp <$> all_prices) in
  merge_on_date (assign "date_str" (IntCol feature_dates) df)
                feature_dates price_dates (close <$> all_prices).

(** The dates of the joined rows, one per pair of a feature row and a price
    row of the same date. *)
Definition joined_dates (feature_times : list Z) (all_prices : list Bar) : list Z :=
  let feature_dates := date_str <$> feature_times in
  gather 0%Z feature_dates
    (map fst (inner_pairs feature_dates (date_str <$> (timestamp <$> all_prices)))).

(** [create_sequences]: the log and the returned triple, or the exception
    that leaves the function. *)
Definition create_sequences (feature_columns : list string) (market_data_raw : list Bar)
    (df : DataFrame) (forecast_horizon : Z) : log * result Sequences :=
  match fetch_all_prices market_data_raw with
  | [] => ([], Raise (KeyError "timestamp"))
  | all_prices =>
      match times df "timestamp" with
      | None => ([], Raise (KeyError "timestamp"))
      | Some feature_times =>
          let feature_dates := date_str <$> feature_times in
          let price_dates := date_str <$> (timestamp <$> all_prices) in
          let merged := joined_frame df feature_times all_prices in
          if (nrows merged =? 0)%nat
          then ([(ERROR, MergeFailedNoMatchingDates);
                 (ERROR, FeatureDateRange (key_min feature_dates) (key_max feature_dates));
                 (ERROR, PriceDateRange (key_min price_dates) (key_max price_dates))],
                Raise (ValueError "No matching dates between features and prices"))
          else
            ([],
             merged ← with_target merged forecast_horizon;
             merged ← dropna (feature_columns ++ ["target"]) merged;
             X ← lookup_all merged feature_columns;
             y ← getitem "target" (floats merged "target");
             timestamps ← getitem "timestamp" (times merged "timestamp");
             Ok (mkSequences X y timestamps))
      end
  end.

(** A fitted regressor is a function of the feature row; a fitted
    [StandardScaler] its means and scales. *)
Record Fitted := mkFitted {
  xgb_predict : list float -> Q;
  scaler_mean : list Q;
  scaler_scale : list Q
}.

Record Prediction := mkPrediction {
  predicted_price : Q;
  confidence_lower : Q;
  confidence_upper : Q
}.

Definition z_score : Q := 196 # 100.

(** [predict]: [None] stands for the empty frame of the [except] branch (no
    model loaded). *)
Definition predict (model : option Fitted) (X : list (list float)) (confidence_level : Q)
  : option (list Prediction) :=
  m ← model;
  let predictions := xgb_predict m <$> X in
  match np_std predictions with
  | None => Some []
  | Some sd =>
      let std_error := (sd * (1 # 10))%Q in
      Some ((fun p => mkPrediction p (p - z_score * std_error)%Q
                                     (p + z_score * std_error)%Q) <$> predictions)
  end.

(** A row of table [model_metadata], keyed by (model_name, model_version). *)
Record Metadata := mkMetadata {
  model_name : string;
  model_version : string;
  model_type : string;
  trained_at : Z;
  training_data_start : Z;
  training_data_end : Z;
  training_samples : Z;
  hyperparameters : gmap string value;
  train_rmse : Q;
  train_mae : Q;
  train_r2 : option Q;
  val_rmse : Q;
  val_mae : Q;
  val_r2 : Q;
  directional_accuracy : Q;
  feature_importance : gmap string Q;
  status : string;
  is_production : bool
}.

(** A metrics dict: its numbers, and the dicts it holds under
    'hyperparameters' and 'feature_importance'. *)
Record Metrics := mkMetrics {
  numbers : gmap string Q;
  params : gmap string value;
  importance : gmap string Q
}.

(** [float(metrics.get(key, 0))] *)
Definition get0 (m : Metrics) (key : string) : Q := default 0%Q (numbers m !! key).

(** [.upsert(metadata, on_conflict='model_name,model_version')] *)
Definition upsert_metadata (metadata : Metadata)
    (tbl : gmap (string * string) Metadata) : gmap (string * string) Metadata :=
  <[(model_name metadata, model_version metadata) := metadata]> tbl.

Definition save_metadata (model_metadata : gmap (string * string) Metadata) (now : Z)
    (train_metrics val_metrics : Metrics)
    (training_start training_end training_samples : Z)
  : gmap (string * string) Metadata :=
  upsert_metadata
    {| model_name := MODEL_NAME;
       model_version := MODEL_VERSION;
       model_type := "XGBoost";
       trained_at := now;
       training_data_start := training_start;
       training_data_end := training_end;
       training_samples := training_samples;
       hyperparameters := params train_metrics;
       train_rmse := get0 train_metrics "train_rmse";
       train_mae := get0 train_metrics "train_mae";
       train_r2 := Some (get0 train_metrics "train_r2");
       val_rmse := get0 val_metrics "val_rmse";
       val_mae := get0 val_metrics "val_mae";
       val_r2 := get0 val_metrics "val_r2";
       directional_accuracy := get0 val_metrics "directional_accuracy";
       feature_importance := importance val_metrics;
       status := "active";
       is_production := true |}
    model_metadata.

(** [prepare_data]: the chronological split at [int(len(X) * train_ratio)]
    and the scaling.  [s.iloc[:k]] and [s.iloc[k:]] are Python slices: a
    negative bound counts from the end, a bound past the end is the end. *)
Definition slice_bound (n : nat) (k : Z) : nat :=
  if (k <? 0)%Z then Z.to_nat (Z.of_nat n + k) else Nat.min (Z.to_nat k) n.

(** [int(len(X) * train_ratio)]: the length converts to a float, the product
    is rounded to a double, and [int] truncates it.  [train_ratio] is the
    float the caller passes. *)
Definition train_size (len_X : nat) (train_ratio : Q) : result Z :=
  match Double.of_Z (Z.of_nat len_X) with
  | SpecFloat.S754_infinity _ => Raise (OverflowError "int too large to convert to float")
  | n => Double.to_int (Double.mul n (Double.of_Q train_ratio))
  end.

(** Rows [lo .. hi - 1] of a column. *)
Definition col_rows (lo hi : nat) (c : column) : column := col_take (seq lo (hi - lo)) c.

(** scikit-learn's [StandardScaler], no code of this repository: [fit] gives
    the fitted state of a matrix (its columns), [transform] applies a state
    to a matrix; a call raises on data that the scaler rejects. *)
Record StandardScaler (S M : Type) := mkScaler {
  fit : list column -> result S;
  transform : S -> list column -> result M
}.

Arguments fit {S M} _ _.
Arguments transform {S M} _ _ _.

(** The input validation of every call of the scaler ([check_array]): a
    matrix without a row, or without a column, is rejected. *)
Definition check_array (rows : nat) (X : list column) : result unit :=
  match rows, X with
  | O, _ => Raise (ValueError "Found array with 0 sample(s)")
  | _, [] => Raise (ValueError "Found array with 0 feature(s)")
  | _, _ => Ok tt
  end.

Record Split (S M : Type) := mkSplit {
  scaler : S;
  X_train_scaled : M;
  X_val_scaled : M;
  y_train : list float;
  y_val : list float
}.

Arguments mkSplit {S M} _ _ _ _ _.
Arguments scaler {S M} _.
Arguments X_train_scaled {S M} _.
Arguments X_val_scaled {S M} _.
Arguments y_train {S M} _.
Arguments y_val {S M} _.

(** [len_X] is [len(X)], the number of rows of the frame [X]. *)
Definition prepare_data {S M : Type} (sk : StandardScaler S M) (len_X : nat)
    (X : list column) (y : list float) (train_ratio : Q) : result (Split S M) :=
  train_size ← train_size len_X train_ratio;
  let X_train := col_rows 0 (slice_bound len_X train_size) <$> X in
  let X_val := col_rows (slice_bound len_X train_size) len_X <$> X in
  let y_train := take (slice_bound (length y) train_size) y in
  let y_val := drop (slice_bound (length y) train_size) y in
  _ ← check_array (slice_bound len_X train_size) X_train;
  fitted ← fit sk X_train;
  X_train_scaled ← transform sk fitted X_train;
  _ ← check_array (len_X - slice_bound len_X train_size) X_val;
  X_val_scaled ← transform sk fitted X_val;
  Ok (mkSplit fitted X_train_scaled X_val_scaled y_train y_val).

(** [np.sign] *)
Definition np_sign (q : Q) : Z := Z.sgn (Qnum q).

(** Lines 293-296 of [validate]: the share of the steps where the sign of
    the predicted move from the previous actual value is the sign of the
    actual move; the mean of no value is NaN. *)
Definition val_directional_accuracy (y_val_array val_pred : list Q) : float :=
  let previous := removelast y_val_array in
  let actual_direction := zip_with (fun a b => np_sign (a - b)) (drop 1 y_val_array) previous in
  let pred_direction := zip_with (fun a b => np_sign (a - b)) (drop 1 val_pred) previous in
  match zip_with Z.eqb actual_direction pred_direction with
  | [] => None
  | hits => Some (inject_Z (Z.of_nat (length (List.filter id hits)))
                  / inject_Z (Z.of_nat (length hits)))%Q
  end.

(** [dict(items)]: a key keeps its first position and its last value. *)
Fixpoint dict_set (key : string) (v : Q) (d : list (string * Q)) : list (string * Q) :=
  match d with
  | [] => [(key, v)]
  | (key', v') :: rest =>
      if bool_decide (key' = key) then (key', v) :: rest else (key', v') :: dict_set key v rest
  end.

Definition dict_of (items : list (string * Q)) : list (string * Q) :=
  foldl (fun d kv => dict_set (fst kv) (snd kv) d) [] items.

(** [sorted(items, key=lambda x: x[1], reverse=True)]: descending, items of
    equal value in their original order. *)
Fixpoint insert_descending (p : string * Q) (l : list (string * Q)) : list (string * Q) :=
  match l with
  | [] => [p]
  | q :: rest => if Qle_bool (snd q) (snd p) then p :: q :: rest
                 else q :: insert_descending p rest
  end.

Definition sorted_descending (items : list (string * Q)) : list (string * Q) :=
  fold_right insert_descending [] items.

(** Lines 299-302 of [validate]; [importances] is
    [self.model.feature_importances_]. *)
Definition top_features (feature_columns : list string) (importances : list Q)
  : list (string * Q) :=
  take 10 (sorted_descending (dict_of (zip feature_columns importances))).

(** The metric functions of scikit-learn, no code of this repository; [None]
    when the call raises. *)
Record Sklearn := mkSklearn {
  mean_squared_error : list Q -> list Q -> option Q;
  mean_absolute_error : list Q -> list Q -> option Q;
  r2_score : list Q -> list Q -> option float
}.

Record Validation := mkValidation {
  validation_rmse : Q;
  validation_mae : Q;
  validation_r2 : float;
  validation_directional_accuracy : float;
  validation_feature_importance : list (string * Q)
}.

(** [validate]: [None] stands for the empty dict of the [except] branch. *)
Definition validate (sk : Sklearn) (model : option Fitted) (importances : list Q)
    (feature_columns : list string) (X_val : list (list float)) (y_val : list Q)
  : option Validation :=
  m ← model;
  let val_pred := xgb_predict m <$> X_val in
  mse ← mean_squared_error sk y_val val_pred;
  mae ← mean_absolute_error sk y_val val_pred;
  r2 ← r2_score sk y_val val_pred;
  Some (mkValidation (Qsqrt mse) mae r2
          (val_directional_accuracy y_val val_pred)
          (dict_of (top_features feature_columns importances))).

End AdvancedXGBoostModel.

(** ** baseline_model.py *)
Module BaselineARIMAModel.
Import Py Store AdvancedXGBoostModel.

Definition MODEL_NAME : string := "baseline_arima".
Definition MODEL_VERSION : string := "v1.0".

Definition save_metadata (model_metadata : gmap (string * string) Metadata) (now : Z)
    (train_metrics val_metrics : Metrics)
    (training_start training_end training_samples : Z)
  : gmap (string * string) Metadata :=
  upsert_metadata
    {| model_name := MODEL_NAME;
       model_version := MODEL_VERSION;
       model_type := "SARIMAX";
       trained_at := now;
       training_data_start := training_start;
       training_data_end := training_end;
       training_samples := training_samples;
       hyperparameters :=
         {[ "order" := VStr "[2, 1, 2]"; "seasonal_order" := VStr "[1, 1, 1, 5]" ]};
       train_rmse := get0 train_metrics "train_rmse";
       train_mae := get0 train_metrics "train_mae";
       train_r2 := None;
       val_rmse := get0 val_metrics "val_rmse";
       val_mae := get0 val_metrics "val_mae";
       val_r2 := get0 val_metrics "val_r2";
       directional_accuracy := get0 val_metrics "directional_accuracy";
       feature_importance := ∅;
       status := "active";
       is_production := false |}
    model_metadata.

(** [prepare_data]: the split of the close column at
    [int(len(df) * train_ratio)]; a frame without the column raises. *)
Definition prepare_data (df : Pandas.DataFrame) (train_ratio : Q)
  : result (list float * list float) :=
  train_size ← train_size (Pandas.nrows df) train_ratio;
  close ← getitem "close" (Pandas.floats df "close");
  Ok (take (slice_bound (length close) train_size) close,
      drop (slice_bound (length close) train_size) close).

(** [s.diff()] *)
Definition diff (xs : list float) : list float :=
  zip_with fsub xs (Pandas.shift 1 xs).

(** [(s.diff() > 0).astype(int)] *)
Definition rising (xs : list float) : list Z :=
  map (fun d => if fgt d (Some 0%Q) then 1%Z else 0%Z) (diff xs).

(** Lines 118-120 of [validate].  [forecast] is the forecast on the index of
    [val_data], [pd.Series(forecast, index=val_data.index)]: as many values
    as [val_data] has, NaN where the forecast has none for a label. *)
Definition val_directional_accuracy (val_data forecast : list float) : float :=
  match zip_with Z.eqb (rising val_data) (rising forecast) with
  | [] => None
  | hits => Some (inject_Z (Z.of_nat (length (List.filter id hits)))
                  / inject_Z (Z.of_nat (length hits)))%Q
  end.

End BaselineARIMAModel.

(** ** prediction_service.py *)
Module PredictionService.
Import Py Pandas Store.

Module Model := AdvancedXGBoostModel.

(** [self.symbol] *)
Definition service_symbol : string := "HDFCBANK.NS".

(** A prediction record, field by field as the dict of the source has it. *)
Record Forecast := mkForecast {
  symbol : string;
  prediction_timestamp : Z;
  target_timestamp : Z;
  predicted_price : Q;
  confidence_lower : Q;
  confidence_upper : Q;
  confidence_level : Q;
  model_name : string;
  model_version : string;
  feature_version : string;
  predicted_direction : option string;
  direction_probability : option Q
}.

(** [fetch_latest_features]: indexing the timestamp column of an empty
    response raises, which the function turns into an empty frame. *)
Definition fetch_latest_features
    (features_store : gmap (string * Z * string) (gmap string value))
    (now : Z) (days_back : Z) : DataFrame * log :=
  match Model.select_features features_store service_symbol "v1"
          (Some (now - days_back * 86400)%Z) with
  | [] => (empty_frame, [(ERROR, ErrorIn "fetching features")])
  | rows => (Model.frame_of_features rows, [])
  end.

(** [df.iloc[-1:][feature_columns]] as one numeric row; [None] when a column
    is missing or not numeric. *)
Definition latest_row (df : DataFrame) (feature_columns : list string)
  : option (list float) :=
  mapM (fun name => xs ← numeric df name; Some (cell xs (nrows df - 1))) feature_columns.

(** [scaler.transform(row)]: raises ([None]) when the scaler is not fitted
    to this number of features. *)
Definition scaler_transform (m : Model.Fitted) (row : list float) : option (list float) :=
  if bool_decide (length row = length (Model.scaler_mean m)
                  /\ length row = length (Model.scaler_scale m))
  then Some (zip_with (fun x ms => fdiv (fsub x (Some (fst ms))) (Some (snd ms)))
                      row (zip (Model.scaler_mean m) (Model.scaler_scale m)))
  else None.

(** The newest close of the symbol ([order('timestamp', desc=True).limit(1)]):
    [None] without a row. *)
Definition latest_close (market_data_raw : list Bar) : option float :=
  close <$> last (select_bars market_data_raw service_symbol None).

(** Lines 108-121: the direction and its probability.  [if current_price:]
    is False for a missing price and for a price of 0.0.  The price and the
    prediction are floats, and the two bounds are products of floats. *)
Definition determine_direction (predicted_price : Q) (current_price : option Q)
  : option string * option Q :=
  match current_price with
  | Some price =>
      let current_price := Double.of_Q price in
      let predicted_price := Double.of_Q predicted_price in
      if Double.truthy current_price
      then
        if Double.ltb (Double.mul current_price (Double.of_Q (1001 # 1000))) predicted_price
        then (Some "UP", Some (65 # 100))
        else if Double.ltb predicted_price
                           (Double.mul current_price (Double.of_Q (999 # 1000)))
        then (Some "DOWN", Some (65 # 100))
        else (Some "NEUTRAL", Some (5 # 10))
      else (None, None)
  | None => (None, None)
  end.

(** One turn of the loop over [range(1, forecast_days + 1)]; [None] when it
    raises.  [now] is the clock reading of this turn. *)
Definition forecast_day (model : option Model.Fitted) (market_data_raw : list Bar)
    (latest_scaled : list float) (current_date now : Z) (day : nat) : option Forecast :=
  let target_date := (current_date + Z.of_nat day * 86400)%Z in
  pred_result ← Model.predict model [latest_scaled] (95 # 100);
  first ← head pred_result;
  current_price ← match latest_close market_data_raw with
                  | Some (Some q) => Some (Some q)
                  | Some None => None          (* float(None) raises *)
                  | None => Some None
                  end;
  let '(direction, probability) :=
    determine_direction (Model.predicted_price first) current_price in
  Some {| symbol := service_symbol;
          prediction_timestamp := now;
          target_timestamp := target_date;
          predicted_price := Model.predicted_price first;
          confidence_lower := Model.confidence_lower first;
          confidence_upper := Model.confidence_upper first;
          confidence_level := 95 # 100;
          model_name := Model.MODEL_NAME;
          model_version := Model.MODEL_VERSION;
          feature_version := Model.FEATURE_VERSION;
          predicted_direction := direction;
          direction_probability := probability |}.

(** The [try] block of [generate_predictions] after the features are there:
    [None] when a statement raises.  [clock k] is the reading of the [k]-th
    call of [datetime.now()]: reading 1 is [current_date], reading [1 + day]
    stamps the record of [day]. *)
Definition predictions_from (lib : Ta.Library) (model : option Model.Fitted)
    (market_data_raw : list Bar) (clock : nat -> Z) (forecast_days : Z)
    (df : DataFrame) : option (list Forecast) :=
  match Model.prepare_features lib df with
  | Raise _ => None
  | Ok (df, feature_columns) =>
      latest_features ← latest_row df feature_columns;
      m ← model;
      latest_scaled ← scaler_transform m latest_features;
      mapM (fun day => forecast_day model market_data_raw latest_scaled
                         (clock 1%nat) (clock (1 + day)%nat) day)
           (seq 1 (Z.to_nat forecast_days))
  end.

(** [generate_predictions].  [model] is what [load_model] finds on disk;
    without it [load_model] logs its error and returns, the scaler is not
    fitted and the transform raises. *)
Definition generate_predictions (lib : Ta.Library) (model : option Model.Fitted)
    (features_store : gmap (string * Z * string) (gmap string value))
    (market_data_raw : list Bar) (clock : nat -> Z) (forecast_days : Z)
  : list Forecast * log :=
  let loading := match model with
                 | Some _ => []
                 | None => [(ERROR, ErrorIn "loading model")]
                 end in
  let '(df, l0) := fetch_latest_features features_store (clock 0%nat) 100 in
  if df_empty df
  then ([], loading ++ l0 ++ [(ERROR, NoFeaturesForPrediction)])
  else
    match predictions_from lib model market_data_raw clock forecast_days df with
    | Some predictions => (predictions, loading ++ l0)
    | None => ([], loading ++ l0 ++ [(ERROR, ErrorIn "generating predictions")])
    end.

(** A row of table [predictions]: the id the database gave it, the record
    that was inserted, and [actual_price], null until it is filled in. *)
Record Stored := mkStored {
  id : Z;
  forecast : Forecast;
  actual_price : option Q
}.

(** What [store_predictions] and [update_actual_prices] log. *)
Inductive notice :=
| NoPredictionsToStore
| ErrorUpdatingActualPrices.

(** [.eq('symbol', ..).eq('target_timestamp', ..).eq('model_name', ..)
     .eq('model_version', ..)] *)
Definition same_key (pred : Forecast) (row : Stored) : bool :=
  bool_decide (symbol (forecast row) = symbol pred)
  && (target_timestamp (forecast row) =? target_timestamp pred)%Z
  && bool_decide (model_name (forecast row) = model_name pred)
  && bool_decide (model_version (forecast row) = model_version pred).

Definition delete_existing (tbl : list Stored) (pred : Forecast) : list Stored :=
  List.filter (fun row => negb (same_key pred row)) tbl.

(** [store_predictions]: one delete per record, then one insert of all of
    them.  [fresh k] is the id the database gives the [k]-th inserted row. *)
Definition store_predictions (fresh : nat -> Z) (predictions : list Forecast)
    (tbl : list Stored) : bool * list Stored * list (level * notice) :=
  match predictions with
  | [] => (false, tbl, [(WARNING, NoPredictionsToStore)])
  | _ => (true,
          foldl delete_existing tbl predictions
          ++ imap (fun k pred => mkStored (fresh k) pred None) predictions,
          [])
  end.

(** [.eq('symbol', sym).gte('timestamp', target_date)
     .lt('timestamp', target_date + 1 day)]: the bars of the calendar day of
    the target, in the order of the table. *)
Definition on_target_date (sym : string) (target : Z) (b : Bar) : bool :=
  bool_decide (Store.symbol b = sym)
  && (Model.date_str target * 86400 <=? timestamp b)%Z
  && (timestamp b <? (Model.date_str target + 1) * 86400)%Z.

(** [.update({'actual_price': price}).eq('id', i)] *)
Definition set_actual_price (i : Z) (price : Q) (tbl : list Stored) : list Stored :=
  map (fun row => if (id row =? i)%Z
                  then mkStored (id row) (forecast row) (Some price) else row) tbl.

(** The loop of [update_actual_prices] over the rows of the response; a
    null close makes [float] raise, which ends the run. *)
Fixpoint update_each (market_data_raw : list Bar) (response : list Stored)
    (tbl : list Stored) : list Stored * list (level * notice) :=
  match response with
  | [] => (tbl, [])
  | pred :: rest =>
      match List.filter (on_target_date (symbol (forecast pred))
                                        (target_timestamp (forecast pred)))
                        market_data_raw with
      | [] => update_each market_data_raw rest tbl
      | b :: _ =>
          match close b with
          | Some actual => update_each market_data_raw rest
                                       (set_actual_price (id pred) actual tbl)
          | None => (tbl, [(ERROR, ErrorUpdatingActualPrices)])
          end
      end
  end.

(** [update_actual_prices]: the rows without an actual price whose target is
    before [now] get the first close of the target's day, when there is
    one. *)
Definition update_actual_prices (market_data_raw : list Bar) (now : Z)
    (tbl : list Stored) : list Stored * list (level * notice) :=
  let response :=
    List.filter (fun row => bool_decide (actual_price row = None)
                            && (target_timestamp (forecast row) <? now)%Z) tbl in
  update_each market_data_raw response tbl.

End PredictionService.
(** * Properties *)

(** ** Facts about the pandas operations *)
Module PandasFacts.
Import Py Pandas.

Lemma gather_length {A : Type} (d : A) (xs : list A) (idx : list nat) :
  length (gather d xs idx) = length idx.
Proof. unfold gather. apply length_map. Qed.

Lemma gather_nth {A : Type} (d : A) (xs : list A) (idx : list nat) (k : nat) :
  (k < length idx)%nat ->
  nth k (gather d xs idx) d = nth (nth k idx 0%nat) xs d.
Proof.
  intros Hk. unfold gather.
  rewrite (nth_indep _ d (nth 0%nat xs d)) by (rewrite length_map; lia).
  apply (map_nth (fun i => nth i xs d)).
Qed.

Lemma gather_map {A B : Type} (f : A -> B) (d : A) (xs : list A) (idx : list nat) :
  gather (f d) (map f xs) idx = map f (gather d xs idx).
Proof.
  unfold gather. rewrite List.map_map. apply map_ext. intros i. apply map_nth.
Qed.

Lemma gather_gather {A : Type} (d : A) (xs : list A) (idx idx' : list nat) :
  Forall (fun k => (k < length idx)%nat) idx' ->
  gather d (gather d xs idx) idx' = gather d xs (gather 0%nat idx idx').
Proof.
  intros Hall. unfold gather. rewrite List.map_map.
  apply map_ext_in. intros k Hk.
  rewrite Forall_forall in Hall.
  apply (gather_nth d xs idx k), Hall, list_elem_of_In, Hk.
Qed.

Lemma cell_nth (xs : list float) (i : nat) : cell xs i = nth i xs None.
Proof.
  unfold cell. revert i. induction xs as [|x xs IH]; intros [|i]; simpl; auto.
Qed.

Lemma cell_ge (xs : list float) (i : nat) : (length xs <= i)%nat -> cell xs i = None.
Proof. intros H. unfold cell. now rewrite lookup_ge_None_2. Qed.

Lemma cell_Some_lt (xs : list float) (i : nat) (q : Q) :
  cell xs i = Some q -> (i < length xs)%nat.
Proof.
  intros H. destruct (Nat.lt_ge_cases i (length xs)) as [Hlt|Hge]; [exact Hlt|].
  rewrite cell_ge in H by exact Hge. discriminate.
Qed.

(** A shift keeps the length of the series. *)
Lemma shift_length (periods : Z) (xs : list float) :
  length (shift periods xs) = length xs.
Proof.
  unfold shift. destruct (0 <=? periods)%Z.
  - rewrite length_take, length_app, length_replicate. lia.
  - rewrite length_app, length_drop, length_replicate. lia.
Qed.

(** [s.shift(-h)] for [h >= 1]: row [i] holds the value of row [i + h], and
    the last [h] rows are NaN. *)
Lemma cell_shift_up (h : Z) (xs : list float) (i : nat) :
  (1 <= h)%Z ->
  cell (shift (- h) xs) i =
    if (i + Z.to_nat h <? length xs)%nat then cell xs (i + Z.to_nat h) else None.
Proof.
  intros Hh. unfold shift.
  replace (0 <=? - h)%Z with false by (symmetry; apply Z.leb_gt; lia).
  rewrite Z.opp_involutive. set (k := Z.to_nat h). unfold cell.
  destruct (Nat.ltb_spec (i + k) (length xs)) as [Hlt|Hge].
  - rewrite lookup_app_l by (rewrite length_drop; lia).
    rewrite lookup_drop. f_equal. f_equal. lia.
  - destruct (Nat.lt_ge_cases i (length (drop k xs))) as [Hin|Hout].
    + rewrite length_drop in Hin. lia.
    + rewrite lookup_app_r by exact Hout.
      destruct (replicate _ _ !! _) as [v|] eqn:E; [|reflexivity].
      apply lookup_replicate in E as [-> _]. reflexivity.
Qed.

(** [s.shift(k)] for [k >= 0]: the first [k] rows are NaN. *)
Lemma cell_shift_down (k : nat) (xs : list float) (i : nat) :
  (i < length xs)%nat ->
  cell (shift (Z.of_nat k) xs) i =
    if (i <? k)%nat then None else cell xs (i - k).
Proof.
  intros Hin. unfold shift.
  replace (0 <=? Z.of_nat k)%Z with true by (symmetry; apply Z.leb_le; lia).
  rewrite Nat2Z.id. unfold cell.
  rewrite lookup_take_lt by exact Hin.
  destruct (Nat.ltb_spec i k) as [Hlt|Hge].
  - rewrite lookup_app_l by (rewrite length_replicate; lia).
    rewrite lookup_replicate_2 by lia. reflexivity.
  - rewrite lookup_app_r by (rewrite length_replicate; lia).
    rewrite length_replicate. reflexivity.
Qed.

Lemma tabulate_length {A : Type} (n : nat) (f : nat -> A) : length (tabulate n f) = n.
Proof. unfold tabulate. now rewrite length_map, length_seq. Qed.

Lemma tabulate_lookup {A : Type} (n : nat) (f : nat -> A) (i : nat) :
  (i < n)%nat -> tabulate n f !! i = Some (f i).
Proof.
  intros Hi. unfold tabulate. rewrite list_lookup_fmap.
  rewrite lookup_seq_lt by exact Hi. reflexivity.
Qed.

Lemma tabulate_nth {A : Type} (d : A) (n : nat) (f : nat -> A) (i : nat) :
  (i < n)%nat -> nth i (tabulate n f) d = f i.
Proof.
  intros Hi. apply nth_lookup_Some. now apply tabulate_lookup.
Qed.

(** Rolling windows: NaN until the window is full. *)
Lemma rolling_length (agg : list Q -> float) (w : nat) (xs : list float) :
  length (rolling agg w xs) = length xs.
Proof. unfold rolling. now rewrite length_map, length_seq. Qed.

Lemma rolling_warm_up (agg : list Q -> float) (w : nat) (xs : list float) (i : nat) :
  (S i < w)%nat -> cell (rolling agg w xs) i = None.
Proof.
  intros Hw. unfold cell, rolling.
  destruct (Nat.lt_ge_cases i (length xs)) as [Hin|Hout].
  - change (map ?f ?l) with (f <$> l). rewrite list_lookup_fmap.
    rewrite lookup_seq_lt by exact Hin. simpl.
    now rewrite (proj2 (Nat.ltb_lt _ _) Hw).
  - rewrite lookup_ge_None_2; [reflexivity|].
    now rewrite length_map, length_seq.
Qed.

(** *** Sorting by key *)
Definition by_key {A : Type} (p q : Z * A) : Prop := (fst p <= fst q)%Z.

Lemma insert_by_key_perm {A : Type} (p : Z * A) (l : list (Z * A)) :
  insert_by_key p l ≡ₚ p :: l.
Proof.
  induction l as [|q l IH]; simpl; [reflexivity|].
  destruct (fst p <=? fst q)%Z; [reflexivity|].
  rewrite IH. apply Permutation_swap.
Qed.

Lemma sort_pairs_perm {A : Type} (l : list (Z * A)) : sort_pairs l ≡ₚ l.
Proof.
  induction l as [|p l IH]; [reflexivity|].
  change (sort_pairs (p :: l)) with (insert_by_key p (sort_pairs l)).
  rewrite insert_by_key_perm. now rewrite IH.
Qed.

Lemma insert_by_key_sorted {A : Type} (p : Z * A) (l : list (Z * A)) :
  StronglySorted by_key l -> StronglySorted by_key (insert_by_key p l).
Proof.
  induction 1 as [|q l Hs IH Hq]; simpl.
  - repeat constructor.
  - destruct (Z.leb_spec (fst p) (fst q)) as [Hle|Hgt].
    + constructor; [now constructor|].
      constructor; [exact Hle|].
      eapply Forall_impl; [exact Hq|]. unfold by_key. intros r Hr. lia.
    + constructor; [exact IH|].
      rewrite insert_by_key_perm. constructor; [unfold by_key; lia|exact Hq].
Qed.

Lemma sort_pairs_sorted {A : Type} (l : list (Z * A)) :
  StronglySorted by_key (sort_pairs l).
Proof.
  induction l as [|p l IH]; [constructor|].
  change (sort_pairs (p :: l)) with (insert_by_key p (sort_pairs l)).
  now apply insert_by_key_sorted.
Qed.

Lemma sorted_keys {A : Type} (l : list (Z * A)) :
  StronglySorted by_key l -> StronglySorted Z.le (map fst l).
Proof.
  induction 1 as [|q l Hs IH Hq]; simpl; constructor; [exact IH|].
  apply Forall_forall. intros k Hk. apply list_elem_of_In, in_map_iff in Hk.
  destruct Hk as [r [<- Hr]]. rewrite Forall_forall in Hq.
  apply Hq, list_elem_of_In, Hr.
Qed.

(** [argsort] is a permutation of the positions... *)
Lemma argsort_perm (keys : list Z) : argsort keys ≡ₚ seq 0 (length keys).
Proof.
  unfold argsort. rewrite sort_pairs_perm.
  change (map snd ?l) with (l.*2).
  rewrite snd_zip by (rewrite length_seq; lia). reflexivity.
Qed.

Lemma argsort_length (keys : list Z) : length (argsort keys) = length keys.
Proof. rewrite argsort_perm. apply length_seq. Qed.

Lemma argsort_bound (keys : list Z) :
  Forall (fun i => (i < length keys)%nat) (argsort keys).
Proof.
  rewrite argsort_perm. apply Forall_forall. intros i Hi.
  apply list_elem_of_In, in_seq in Hi. lia.
Qed.

(** ... along which the keys ascend. *)
Lemma argsort_sorted (keys : list Z) :
  StronglySorted Z.le (gather 0%Z keys (argsort keys)).
Proof.
  unfold argsort, gather. rewrite List.map_map.
  rewrite (map_ext_in _ fst).
  - apply sorted_keys, sort_pairs_sorted.
  - intros [k i] Hin. simpl.
    apply list_elem_of_In in Hin. rewrite sort_pairs_perm in Hin.
    apply list_elem_of_lookup in Hin as [j Hj].
    apply lookup_zip_with_Some in Hj as (k' & i' & Heq & Hk & Hi).
    injection Heq as -> ->.
    apply lookup_seq in Hi as [-> _]. simpl.
    now apply nth_lookup_Some.
Qed.

Lemma gather_seq {A : Type} (d : A) (xs : list A) :
  gather d xs (seq 0 (length xs)) = xs.
Proof.
  unfold gather. apply nth_ext with (d := d) (d' := d).
  - now rewrite length_map, length_seq.
  - intros n Hn. rewrite length_map, length_seq in Hn.
    rewrite (nth_indep _ d (nth 0%nat xs d)) by (rewrite length_map, length_seq; lia).
    rewrite (map_nth (fun i => nth i xs d)). now rewrite seq_nth.
Qed.

Lemma gather_perm {A : Type} (d : A) (xs : list A) (idx idx' : list nat) :
  idx ≡ₚ idx' -> gather d xs idx ≡ₚ gather d xs idx'.
Proof. intros H. unfold gather. now apply Permutation_map. Qed.

Lemma gather_argsort_perm (keys : list Z) : gather 0%Z keys (argsort keys) ≡ₚ keys.
Proof.
  rewrite (gather_perm _ _ _ _ (argsort_perm keys)). now rewrite gather_seq.
Qed.

(** In an ascending series without repetition a later row has a strictly
    larger key. *)
Lemma sorted_nth_le (l : list Z) (i j : nat) :
  StronglySorted Z.le l -> (i < j < length l)%nat ->
  (nth i l 0 <= nth j l 0)%Z.
Proof.
  intros Hs. revert i j.
  induction Hs as [|k l Hs IH Hk]; intros i j Hij; simpl in Hij; [lia|].
  destruct j as [|j]; [lia|]. destruct i as [|i]; simpl.
  - rewrite Forall_forall in Hk. apply Hk, list_elem_of_In, nth_In. lia.
  - apply IH. lia.
Qed.

Lemma sorted_nodup_lt (l : list Z) (i j : nat) :
  StronglySorted Z.le l -> NoDup l -> (i < j < length l)%nat ->
  (nth i l 0 < nth j l 0)%Z.
Proof.
  intros Hs Hnd Hij.
  pose proof (sorted_nth_le l i j Hs Hij) as Hle.
  destruct (Z.eq_dec (nth i l 0%Z) (nth j l 0%Z)) as [Heq|Hne]; [|lia].
  apply NoDup_ListNoDup in Hnd.
  apply (proj1 (List.NoDup_nth l 0%Z) Hnd) in Heq; lia.
Qed.

(** *** Frames *)
Lemma columns_assign (name name' : string) (c : column) (df : DataFrame) :
  columns (assign name c df) !! name' =
    if decide (name = name') then Some c else columns df !! name'.
Proof. unfold assign. simpl. apply lookup_insert. Qed.

Lemma columns_assign_ne (name name' : string) (c : column) (df : DataFrame) :
  name <> name' -> columns (assign name c df) !! name' = columns df !! name'.
Proof. intros H. rewrite columns_assign. now destruct (decide (name = name')). Qed.

Lemma columns_assign_eq (name : string) (c : column) (df : DataFrame) :
  columns (assign name c df) !! name = Some c.
Proof. rewrite columns_assign. now destruct (decide (name = name)). Qed.

Lemma nrows_assign (name : string) (c : column) (df : DataFrame) :
  nrows (assign name c df) = nrows df.
Proof. reflexivity. Qed.

Lemma columns_take (idx : list nat) (df : DataFrame) (name : string) :
  columns (df_take idx df) !! name = col_take idx <$> columns df !! name.
Proof. unfold df_take. simpl. apply lookup_fmap. Qed.

Lemma floats_take (idx : list nat) (df : DataFrame) (name : string) :
  floats (df_take idx df) name = (fun xs => gather None xs idx) <$> floats df name.
Proof.
  unfold floats. rewrite columns_take.
  destruct (columns df !! name) as [[]|]; reflexivity.
Qed.

Lemma times_take (idx : list nat) (df : DataFrame) (name : string) :
  times (df_take idx df) name = (fun ts => gather 0%Z ts idx) <$> times df name.
Proof.
  unfold times. rewrite columns_take.
  destruct (columns df !! name) as [[]|]; reflexivity.
Qed.

Lemma floats_assign_ne (name name' : string) (c : column) (df : DataFrame) :
  name <> name' -> floats (assign name c df) name' = floats df name'.
Proof. intros H. unfold floats. now rewrite columns_assign_ne. Qed.

Lemma floats_assign_eq (name : string) (xs : list float) (df : DataFrame) :
  floats (assign name (FloatCol xs) df) name = Some xs.
Proof. unfold floats. now rewrite columns_assign_eq. Qed.

Lemma bools_assign_ne (name name' : string) (c : column) (df : DataFrame) :
  name <> name' -> bools (assign name c df) name' = bools df name'.
Proof. intros H. unfold bools. now rewrite columns_assign_ne. Qed.

Lemma bools_assign_eq (name : string) (bs : list bool) (df : DataFrame) :
  bools (assign name (BoolCol bs) df) name = Some bs.
Proof. unfold bools. now rewrite columns_assign_eq. Qed.

Lemma numeric_assign_ne (name name' : string) (c : column) (df : DataFrame) :
  name <> name' -> numeric (assign name c df) name' = numeric df name'.
Proof. intros H. unfold numeric. now rewrite columns_assign_ne. Qed.

Lemma floats_numeric (df : DataFrame) (name : string) (xs : list float) :
  floats df name = Some xs -> numeric df name = Some xs.
Proof.
  unfold floats, numeric. destruct (columns df !! name) as [[]|]; congruence.
Qed.

Lemma times_assign_ne (name name' : string) (c : column) (df : DataFrame) :
  name <> name' -> times (assign name c df) name' = times df name'.
Proof. intros H. unfold times. now rewrite columns_assign_ne. Qed.

Lemma has_col_assign_ne (name name' : string) (c : column) (df : DataFrame) :
  name <> name' -> has_col (assign name c df) name' = has_col df name'.
Proof. intros H. unfold has_col. now rewrite columns_assign_ne. Qed.

Lemma has_col_assign_eq (name : string) (c : column) (df : DataFrame) :
  has_col (assign name c df) name = true.
Proof.
  unfold has_col. rewrite columns_assign_eq. apply bool_decide_eq_true. eauto.
Qed.

Lemma has_col_true (df : DataFrame) (name : string) :
  has_col df name = true <-> exists c, columns df !! name = Some c.
Proof. unfold has_col. rewrite bool_decide_eq_true. reflexivity. Qed.

Lemma has_col_false (df : DataFrame) (name : string) :
  has_col df name = false <-> columns df !! name = None.
Proof.
  unfold has_col. rewrite bool_decide_eq_false, <- eq_None_not_Some. reflexivity.
Qed.

(** *** dropna *)
Lemma lookup_all_app (df : DataFrame) (names names' : list string) (cs : list column) :
  lookup_all df (names ++ names') = Ok cs ->
  exists cs1 cs2, cs = cs1 ++ cs2 /\ lookup_all df names = Ok cs1
                  /\ lookup_all df names' = Ok cs2.
Proof.
  revert cs. induction names as [|name names IH]; intros cs H; simpl in *.
  - exists [], cs. auto.
  - destruct (columns df !! name) as [c|]; simpl in *; [|discriminate].
    destruct (lookup_all df (names ++ names')) as [cs'|e] eqn:E; simpl in *; [|discriminate].
    injection H as <-.
    destruct (IH cs' eq_refl) as (cs1 & cs2 & -> & H1 & H2).
    exists (c :: cs1), cs2. rewrite H1. auto.
Qed.

Lemma lookup_all_single (df : DataFrame) (name : string) (cs : list column) :
  lookup_all df [name] = Ok cs -> exists c, cs = [c] /\ columns df !! name = Some c.
Proof.
  simpl. destruct (columns df !! name) as [c|]; simpl; [|discriminate].
  intros [= <-]. eauto.
Qed.

Lemma complete_rows_spec (cs : list column) (n i : nat) :
  In i (complete_rows cs n) <->
  (i < n)%nat /\ forall c, In c cs -> col_isna c i = false.
Proof.
  unfold complete_rows, row_complete.
  rewrite filter_In, in_seq, forallb_forall. split.
  - intros [Hi Hall]. split; [lia|]. intros c Hc. apply negb_true_iff, Hall, Hc.
  - intros [Hi Hall]. split; [lia|]. intros c Hc. apply negb_true_iff, Hall, Hc.
Qed.

End PandasFacts.

(** ** The dataset constructor ([create_sequences]) *)
Module DatasetFacts.
Import Py Pandas Store AdvancedXGBoostModel PandasFacts.

Lemma bind_Ok {A B : Type} (r : result A) (k : A -> result B) (b : B) :
  (r ≫= k) = Ok b -> exists a, r = Ok a /\ k a = Ok b.
Proof. destruct r as [a|e]; simpl; [eauto|discriminate]. Qed.

Lemma getitem_Ok {A : Type} (key : string) (o : option A) (a : A) :
  getitem key o = Ok a -> o = Some a.
Proof. destruct o; simpl; congruence. Qed.

Lemma date_str_gather (ts : list Z) (idx : list nat) :
  gather 0%Z (date_str <$> ts) idx = date_str <$> gather 0%Z ts idx.
Proof. apply (gather_map date_str 0%Z). Qed.

Lemma date_str_nth (ts : list Z) (i : nat) :
  nth i (date_str <$> ts) 0%Z = date_str (nth i ts 0%Z).
Proof. exact (map_nth date_str ts 0%Z i). Qed.

(** The frame of the merge, when its close column is the price close. *)
Lemma joined_frame_columns (df : DataFrame) (fts : list Z) (ps : list Bar)
    (c : list float) :
  times df "timestamp" = Some fts ->
  floats (joined_frame df fts ps) "close" = Some c ->
  let idx := map fst (inner_pairs (date_str <$> fts) (date_str <$> (timestamp <$> ps))) in
  ints (joined_frame df fts ps) "date_str" = Some (joined_dates fts ps)
  /\ times (joined_frame df fts ps) "timestamp" = Some (gather 0%Z fts idx)
  /\ joined_dates fts ps = date_str <$> gather 0%Z fts idx
  /\ nrows (joined_frame df fts ps) = length idx.
Proof.
  intros Hts Hc idx. unfold joined_frame, merge_on_date in *.
  fold idx in Hc |- *.
  set (left := df_take idx (assign "date_str" (IntCol (date_str <$> fts)) df)) in *.
  destruct (columns left !! "close") as [own|] eqn:Hown.
  - exfalso. unfold floats in Hc. simpl in Hc.
    rewrite lookup_insert_ne, lookup_insert_ne, lookup_delete_eq in Hc by discriminate.
    discriminate.
  - assert (Hd : columns left !! "date_str" = Some (IntCol (joined_dates fts ps))).
    { unfold left. rewrite columns_take, columns_assign_eq. reflexivity. }
    assert (Ht : columns left !! "timestamp" = Some (TimeCol (gather 0%Z fts idx))).
    { unfold left. rewrite columns_take, columns_assign_ne by discriminate.
      unfold times in Hts. destruct (columns df !! "timestamp") as [[]|]; try discriminate.
      now injection Hts as ->. }
    repeat split.
    + unfold ints. rewrite columns_assign_ne by discriminate. now rewrite Hd.
    + unfold times. rewrite columns_assign_ne by discriminate. now rewrite Ht.
    + unfold joined_dates. fold idx. apply date_str_gather.
Qed.

Lemma with_target_spec (merged : DataFrame) (h : Z) (J : DataFrame) :
  with_target merged h = Ok J ->
  exists keys close,
    ints merged "date_str" = Some keys
    /\ floats (sort_values keys merged) "close" = Some close
    /\ J = assign "target" (FloatCol (shift (- h) close)) (sort_values keys merged).
Proof.
  unfold with_target. intros H.
  apply bind_Ok in H as (keys & Hk & H). apply getitem_Ok in Hk.
  apply bind_Ok in H as (close & Hc & H). apply getitem_Ok in Hc.
  injection H as <-. eauto.
Qed.

Lemma dropna_spec (subset : list string) (df D : DataFrame) :
  dropna subset df = Ok D ->
  exists cs, lookup_all df subset = Ok cs
             /\ D = df_take (complete_rows cs (nrows df)) df.
Proof.
  unfold dropna. intros H. apply bind_Ok in H as (cs & Hcs & H).
  injection H as <-. eauto.
Qed.

(** X29.  [create_sequences] when no two rows of the joined series share a
    date (one price bar and one feature row a day): after the inner join on
    the date and the sort by date, the target at position [i] of the joined
    series is the close at position [i + forecast_horizon]; the returned rows
    are the positions where no feature and no target is missing, so the
    trailing [forecast_horizon] rows are dropped; and the date of the row a
    retained target is drawn from is strictly later than the date of the
    row's own features. *)
Theorem create_sequences_target_shift (fc : list string) (tbl : list Bar)
    (df : DataFrame) (h : Z) (fts : list Z) (l : log) (s : Sequences) :
  (1 <= h)%Z ->
  times df "timestamp" = Some fts ->
  NoDup (joined_dates fts (fetch_all_prices tbl)) ->
  create_sequences fc tbl df h = (l, Ok s) ->
  exists J ts closes targets cs,
    with_target (joined_frame df fts (fetch_all_prices tbl)) h = Ok J
    /\ times J "timestamp" = Some ts
    /\ floats J "close" = Some closes
    /\ floats J "target" = Some targets
    /\ length ts = nrows J /\ length closes = nrows J
    /\ StronglySorted Z.le (date_str <$> ts)
    /\ lookup_all J (fc ++ ["target"]) = Ok cs
    /\ (forall i, cell targets i =
                    if (i + Z.to_nat h <? nrows J)%nat
                    then cell closes (i + Z.to_nat h) else None)
    /\ timestamps s = gather 0%Z ts (complete_rows cs (nrows J))
    /\ y s = gather None targets (complete_rows cs (nrows J))
    /\ forall i, In i (complete_rows cs (nrows J)) ->
         (i + Z.to_nat h < nrows J)%nat
         /\ cell targets i = cell closes (i + Z.to_nat h)
         /\ cell targets i <> None
         /\ (date_str (nth i ts 0) < date_str (nth (i + Z.to_nat h) ts 0))%Z.
Proof.
  intros Hh Hts Hnd Hrun. unfold create_sequences in Hrun.
  destruct (fetch_all_prices tbl) as [|b ps] eqn:Hps; [discriminate|].
  rewrite Hts in Hrun.
  set (merged := joined_frame df fts (b :: ps)) in *.
  destruct (nrows merged =? 0)%nat; [discriminate|].
  injection Hrun as _ Hrun.
  apply bind_Ok in Hrun as (J & HJ & Hrun).
  apply bind_Ok in Hrun as (D & HD & Hrun).
  apply bind_Ok in Hrun as (Xs & _ & Hrun).
  apply bind_Ok in Hrun as (ys & Hy & Hrun). apply getitem_Ok in Hy.
  apply bind_Ok in Hrun as (tss & Htss & Hrun). apply getitem_Ok in Htss.
  injection Hrun as <-. simpl.
  destruct (with_target_spec _ _ _ HJ) as (keys & closes & Hkeys & Hclose & ->).
  destruct (dropna_spec _ _ _ HD) as (cs & Hcs & ->).
  rewrite nrows_assign in *.
  (* the columns of the joined frame *)
  pose proof Hclose as Hc0. unfold sort_values in Hc0. rewrite floats_take in Hc0.
  destruct (floats merged "close") as [c0|] eqn:Hc0'; [|discriminate].
  injection Hc0 as Hc0.
  destruct (joined_frame_columns df fts (b :: ps) c0 Hts Hc0') as (Hd & Ht & Hdates & Hn).
  fold merged in Hd, Ht, Hn.
  rewrite Hd in Hkeys. injection Hkeys as <-.
  set (keys := joined_dates fts (b :: ps)) in *. clearbody keys.
  set (idx := map fst (inner_pairs (date_str <$> fts)
                                  (date_str <$> (timestamp <$> b :: ps)))) in *. clearbody idx.
  set (S := sort_values keys merged) in *.
  set (ts := gather 0%Z (gather 0%Z fts idx) (argsort keys)).
  set (targets := shift (- h) closes) in *.
  set (J := assign "target" (FloatCol targets) S) in *.
  assert (Hlen : length keys = length idx).
  { rewrite Hdates. rewrite length_fmap. apply gather_length. }
  assert (HnS : nrows S = length keys).
  { unfold S, sort_values, df_take. simpl. apply argsort_length. }
  assert (HtS : times S "timestamp" = Some ts).
  { unfold S, sort_values. rewrite times_take, Ht. reflexivity. }
  assert (Hsorted : date_str <$> ts = gather 0%Z keys (argsort keys)).
  { unfold ts. rewrite <- date_str_gather. now rewrite <- Hdates. }
  assert (Hlc : length closes = nrows S).
  { rewrite <- Hc0, gather_length, HnS. apply argsort_length. }
  assert (HtJ : times J "timestamp" = Some ts).
  { unfold times, J. rewrite columns_assign_ne by discriminate. exact HtS. }
  assert (HcJ : floats J "close" = Some closes).
  { unfold floats, J. rewrite columns_assign_ne by discriminate. exact Hclose. }
  assert (HgJ : floats J "target" = Some targets).
  { unfold floats, J. now rewrite columns_assign_eq. }
  assert (Hshift : forall i, cell targets i =
            if (i + Z.to_nat h <? nrows S)%nat then cell closes (i + Z.to_nat h) else None).
  { intros i. unfold targets. rewrite cell_shift_up by exact Hh. now rewrite Hlc. }
  exists J, ts, closes, targets, cs. change (nrows J) with (nrows S) in *.
  split; [exact HJ|]. split; [exact HtJ|]. split; [exact HcJ|]. split; [exact HgJ|].
  split; [unfold ts; rewrite gather_length, HnS; apply argsort_length|].
  split; [exact Hlc|].
  split; [rewrite Hsorted; apply argsort_sorted|].
  split; [exact Hcs|]. split; [exact Hshift|].
  split.
  { rewrite times_take, HtJ in Htss. now injection Htss as <-. }
  split.
  { rewrite floats_take, HgJ in Hy. now injection Hy as <-. }
  intros i Hi. apply complete_rows_spec in Hi as [Hi Hall].
  (* the target column is one of the columns dropna looks at *)
  apply lookup_all_app in Hcs as (cs1 & cs2 & -> & _ & Hcs2).
  apply lookup_all_single in Hcs2 as (c & -> & Hc).
  unfold floats in HgJ. rewrite Hc in HgJ. destruct c; try discriminate.
  injection HgJ as ->.
  assert (Hna : col_isna (FloatCol targets) i = false).
  { apply Hall, in_or_app. right. now left. }
  simpl in Hna. pose proof (Hshift i) as Hi'.
  destruct (Nat.ltb_spec (i + Z.to_nat h) (nrows S)) as [Hlt|Hge];
    [|rewrite Hi' in Hna; discriminate].
  split; [exact Hlt|]. split; [exact Hi'|].
  split; [intros E; rewrite E in Hna; discriminate|].
  rewrite <- !date_str_nth, Hsorted.
  apply sorted_nodup_lt.
  - apply argsort_sorted.
  - now rewrite gather_argsort_perm.
  - rewrite gather_length, argsort_length, <- HnS. lia.
Qed.

(** Example data: a bar with every price equal to [c]. *)
Definition flat_bar (sym : string) (t : Z) (c : Q) : Bar :=
  mkBar sym t (Some c) (Some c) (Some c) (Some c) (Some 100%Q) (Some c).

(** Three trading days with one price bar and one feature row each (the
    feature rows out of order, the middle one with a missing feature). *)
Definition three_days : list Bar :=
  [flat_bar "HDFCBANK.NS" 0 100; flat_bar "HDFCBANK.NS" 86400 101;
   flat_bar "HDFCBANK.NS" 172800 102].

Definition three_features : DataFrame :=
  mkDF 3 (list_to_map [("timestamp", TimeCol [172800; 0; 86400]%Z);
                       ("sma_5", FloatCol [Some 3%Q; Some 1%Q; None])]).

Lemma create_sequences_target_shift_witness :
  exists J ts targets,
    with_target (joined_frame three_features [172800; 0; 86400]%Z
                   (fetch_all_prices three_days)) 1 = Ok J
    /\ times J "timestamp" = Some ts
    /\ floats J "target" = Some targets
    /\ cell targets 0 = Some 101%Q
    /\ (date_str (nth 0 ts 0) < date_str (nth 1 ts 0))%Z.
Proof.
  destruct (create_sequences_target_shift ["sma_5"] three_days three_features 1
              [172800; 0; 86400]%Z []
              (mkSequences [FloatCol [Some 1%Q]] [Some 101%Q] [0%Z]))
    as (J & ts & closes & targets & cs & HJ & Hts & Hc & Ht & _ & _ & _ & Hcs & Hshift & _ & _ & Hkept).
  - lia.
  - reflexivity.
  - apply (bool_decide_unpack _). vm_compute. exact I.
  - vm_compute. reflexivity.
  - exists J, ts, targets. repeat split; try assumption.
    + vm_compute in HJ. injection HJ as <-.
      vm_compute in Ht. injection Ht as <-. reflexivity.
    + vm_compute in HJ. injection HJ as <-.
      vm_compute in Hcs. injection Hcs as <-.
      apply (Hkept 0%nat). vm_compute. now left.
Defined.

(** Two price bars on one calendar day (the store keys bars by timestamp,
    not by date) and one feature row of that day. *)
Definition two_bars_one_day : list Bar :=
  [flat_bar "HDFCBANK.NS" 0 100; flat_bar "HDFCBANK.NS" 60 101].

Definition one_feature : DataFrame :=
  mkDF 1 (list_to_map [("timestamp", TimeCol [3600%Z]); ("sma_5", FloatCol [Some 1%Q])]).

(** C1.  The code at the failing input, two price bars on one calendar day
    and one feature row of that day: the join on the date gives two rows of
    the same date, and the shift by one row gives the only training row
    (feature timestamp 3600) the target 101, the close of the second bar of
    its own day, where the comment of line 189 says 'next day's close
    price'.  So the claim fails as stated: a retained row takes its target
    from a row that is not later than its own features. *)
Lemma create_sequences_same_date_target :
  create_sequences ["sma_5"] two_bars_one_day one_feature 1
    = ([], Ok (mkSequences [FloatCol [Some 1%Q]] [Some 101%Q] [3600%Z]))
  /\ ~ (forall (fc : list string) (tbl : list Bar) (df : DataFrame) (h : Z)
              (fts : list Z) (l : log) (s : Sequences),
          (1 <= h)%Z ->
          times df "timestamp" = Some fts ->
          create_sequences fc tbl df h = (l, Ok s) ->
          exists J ts cs,
            with_target (joined_frame df fts (fetch_all_prices tbl)) h = Ok J
            /\ times J "timestamp" = Some ts
            /\ lookup_all J (fc ++ ["target"]) = Ok cs
            /\ forall i, In i (complete_rows cs (nrows J)) ->
                 (date_str (nth i ts 0) < date_str (nth (i + Z.to_nat h) ts 0))%Z).
Proof.
  split; [vm_compute; reflexivity|].
  intros Hclaim.
  destruct (Hclaim ["sma_5"] two_bars_one_day one_feature 1%Z [3600%Z] []
              (mkSequences [FloatCol [Some 1%Q]] [Some 101%Q] [3600%Z]))
    as (J & ts & cs & HJ & Hts & Hcs & Hlater).
  - lia.
  - reflexivity.
  - vm_compute. reflexivity.
  - vm_compute in HJ. injection HJ as <-.
    vm_compute in Hts. injection Hts as <-.
    vm_compute in Hcs. injection Hcs as <-.
    specialize (Hlater 0%nat). vm_compute in Hlater.
    assert (H : (0 ?= 0)%Z = Lt) by (apply Hlater; now left).
    discriminate.
Qed.

(** The paging loop returns every row of the response: the fuel of the
    model is never what ends it. *)
Lemma fetch_pages_all (fuel : nat) (rows : list Bar) (start : nat) :
  (length rows - start < fuel * range_size)%nat ->
  fetch_pages fuel rows start = drop start rows.
Proof.
  revert start. induction fuel as [|fuel IH]; intros start Hfuel; [simpl in Hfuel; lia|].
  cbn [fetch_pages].
  pose proof (length_drop rows start) as Hlen.
  destruct (take range_size (drop start rows)) as [|r page] eqn:Hpage.
  - destruct (drop start rows); [reflexivity|discriminate].
  - rewrite <- Hpage.
    assert (Hp : length (take range_size (drop start rows))
                 = Nat.min range_size (length (drop start rows))) by apply length_take.
    destruct (Nat.ltb_spec (length (take range_size (drop start rows))) range_size) as [Hlt|Hge].
    + apply take_ge. lia.
    + rewrite IH by (unfold range_size in *; lia).
      rewrite <- (drop_drop rows range_size start).
      apply take_drop.
Qed.

Lemma fetch_all_prices_all (tbl : list Bar) :
  fetch_all_prices tbl = select_bars tbl "HDFCBANK.NS" None.
Proof.
  unfold fetch_all_prices. rewrite fetch_pages_all; [reflexivity|].
  unfold range_size. lia.
Qed.

(** The range a log record reports for a date column: its least and its
    greatest date, or nothing for an empty column. *)
Definition date_range (keys : list Z) (lo hi : option Z) : Prop :=
  match keys with
  | [] => lo = None /\ hi = None
  | _ => exists a b, lo = Some a /\ hi = Some b /\ In a keys /\ In b keys
                     /\ forall k, In k keys -> (a <= k <= b)%Z
  end.

Lemma fold_min_spec (k : Z) (rest : list Z) :
  In (fold_right Z.min k rest) (k :: rest)
  /\ forall x, In x (k :: rest) -> (fold_right Z.min k rest <= x)%Z.
Proof.
  induction rest as [|r rest [Hin Hle]]; simpl.
  - split; [now left|]. intros x [<-|[]]. lia.
  - split.
    + destruct (Z.min_spec r (fold_right Z.min k rest)) as [[_ ->]|[_ ->]].
      * right. now left.
      * destruct Hin as [<-|Hin]; [now left|right; now right].
    + intros x [<-|[<-|Hx]].
      * specialize (Hle k (or_introl eq_refl)). lia.
      * lia.
      * specialize (Hle x (or_intror Hx)). lia.
Qed.

Lemma fold_max_spec (k : Z) (rest : list Z) :
  In (fold_right Z.max k rest) (k :: rest)
  /\ forall x, In x (k :: rest) -> (x <= fold_right Z.max k rest)%Z.
Proof.
  induction rest as [|r rest [Hin Hle]]; simpl.
  - split; [now left|]. intros x [<-|[]]. lia.
  - split.
    + destruct (Z.max_spec r (fold_right Z.max k rest)) as [[_ ->]|[_ ->]].
      * destruct Hin as [<-|Hin]; [now left|right; now right].
      * right. now left.
    + intros x [<-|[<-|Hx]].
      * specialize (Hle k (or_introl eq_refl)). lia.
      * lia.
      * specialize (Hle x (or_intror Hx)). lia.
Qed.

Lemma key_range (keys : list Z) : date_range keys (key_min keys) (key_max keys).
Proof.
  destruct keys as [|k rest]; simpl; [auto|].
  destruct (fold_min_spec k rest) as [Hmin Hle].
  destruct (fold_max_spec k rest) as [Hmax Hge].
  eexists _, _. repeat split; try reflexivity; auto.
Qed.

(** Without a common date the inner join has no row. *)
Lemma inner_pairs_disjoint (lkeys rkeys : list Z) :
  (forall d, In d lkeys -> ~ In d rkeys) -> inner_pairs lkeys rkeys = [].
Proof.
  intros Hdis. destruct (inner_pairs lkeys rkeys) as [|[i j] rest] eqn:E; [reflexivity|].
  exfalso.
  assert (Hin : In (i, j) (inner_pairs lkeys rkeys)) by (rewrite E; now left).
  unfold inner_pairs in Hin. apply in_flat_map in Hin as (i' & Hi' & Hin).
  apply in_map_iff in Hin as (j' & [= <- <-] & Hj').
  unfold matches in Hj'. apply filter_In in Hj' as [Hj' Heq].
  apply in_seq in Hi'. apply in_seq in Hj'. apply Z.eqb_eq in Heq.
  apply (Hdis (nth i' lkeys 0%Z)).
  - apply nth_In. lia.
  - rewrite <- Heq. apply nth_In. lia.
Qed.

Lemma nrows_joined_frame (df : DataFrame) (fts : list Z) (ps : list Bar) :
  nrows (joined_frame df fts ps)
  = length (inner_pairs (date_str <$> fts) (date_str <$> (timestamp <$> ps))).
Proof.
  unfold joined_frame, merge_on_date.
  destruct (columns _ !! "close"); simpl; now rewrite length_map.
Qed.

(** X30.  When the feature frame has its timestamp column, the price table
    has rows of the symbol, and no feature date is a price date (the join
    yields no row), [create_sequences] raises its alignment error, the
    [ValueError] "No matching dates between features and prices", and the
    error log holds the least and greatest date of the feature side and of
    the price side. *)
Theorem create_sequences_no_overlap (fc : list string) (tbl : list Bar)
    (df : DataFrame) (h : Z) (fts : list Z) :
  fetch_all_prices tbl <> [] ->
  times df "timestamp" = Some fts ->
  (forall d, In d (date_str <$> fts) ->
             ~ In d (date_str <$> (timestamp <$> fetch_all_prices tbl))) ->
  exists flo fhi plo phi,
    create_sequences fc tbl df h =
      ([(ERROR, MergeFailedNoMatchingDates);
        (ERROR, FeatureDateRange flo fhi);
        (ERROR, PriceDateRange (Some plo) (Some phi))],
       Raise (ValueError "No matching dates between features and prices"))
    /\ date_range (date_str <$> fts) flo fhi
    /\ date_range (date_str <$> (timestamp <$> fetch_all_prices tbl)) (Some plo) (Some phi).
Proof.
  intros Hps Hts Hdis. unfold create_sequences.
  pose proof (nrows_joined_frame df fts (fetch_all_prices tbl)) as Hn.
  rewrite (inner_pairs_disjoint _ _ Hdis) in Hn.
  pose proof (key_range (date_str <$> (timestamp <$> fetch_all_prices tbl))) as Hpr.
  destruct (fetch_all_prices tbl) as [|b ps]; [contradiction|].
  rewrite Hts, Hn. simpl Nat.eqb. cbv iota.
  exists (key_min (date_str <$> fts)), (key_max (date_str <$> fts)).
  simpl in Hpr. destruct Hpr as (plo & phi & Hlo & Hhi & Hpr).
  exists plo, phi. rewrite <- Hlo, <- Hhi.
  split; [reflexivity|]. split; [apply key_range|].
  rewrite Hlo, Hhi. simpl. exists plo, phi. auto.
Qed.

(** A price table whose only bar is ten days after the three feature rows. *)
Definition late_bar : list Bar := [flat_bar "HDFCBANK.NS" 864000 100].

Lemma create_sequences_no_overlap_witness :
  exists flo fhi plo phi,
    create_sequences ["sma_5"] late_bar three_features 1 =
      ([(ERROR, MergeFailedNoMatchingDates);
        (ERROR, FeatureDateRange flo fhi);
        (ERROR, PriceDateRange (Some plo) (Some phi))],
       Raise (ValueError "No matching dates between features and prices"))
    /\ date_range [2; 0; 1]%Z flo fhi
    /\ date_range [10%Z] (Some plo) (Some phi).
Proof.
  apply (create_sequences_no_overlap ["sma_5"] late_bar three_features 1
           [172800; 0; 86400]%Z).
  - vm_compute. discriminate.
  - reflexivity.
  - vm_compute. intros d [<-|[<-|[<-|[]]]] [H|[]]; discriminate.
Defined.

(** A price table without a row of the symbol of the model. *)
Definition other_symbol_only : list Bar := [flat_bar "ICICIBANK.NS" 0 100].

(** C3.  The code at the failing input, three feature rows and a price table
    without a row of HDFCBANK.NS: no feature date has a price date to match,
    and [create_sequences] leaves with KeyError('timestamp'), raised at line
    161 before the join is computed.  The log stays empty: it holds neither
    the alignment error nor the date range of either side. *)
Lemma create_sequences_empty_prices_unreported :
  times three_features "timestamp" = Some [172800; 0; 86400]%Z
  /\ inner_pairs (date_str <$> [172800; 0; 86400]%Z)
                 (date_str <$> (timestamp <$> fetch_all_prices other_symbol_only)) = []
  /\ create_sequences ["sma_5"] other_symbol_only three_features 1
     = ([], Raise (KeyError "timestamp")).
Proof. repeat split; vm_compute; reflexivity. Qed.

End DatasetFacts.

(** ** Regime classification and its one-hot encoding *)
Module RegimeFacts.
Import Py Pandas Store PandasFacts.

Lemma try_steps_cons (where_ : string) (s : FeatureEngineer.step)
    (rest : list FeatureEngineer.step) (df df' : DataFrame) :
  s df = Some df' ->
  FeatureEngineer.try_steps where_ (s :: rest) df
  = FeatureEngineer.try_steps where_ rest df'.
Proof. intros H. simpl. now rewrite H. Qed.

Lemma tabulate_ext {A : Type} (n : nat) (f g : nat -> A) :
  (forall i, (i < n)%nat -> f i = g i) -> tabulate n f = tabulate n g.
Proof.
  intros H. unfold tabulate. apply map_ext_in. intros i Hi.
  apply in_seq in Hi. apply H. lia.
Qed.

Lemma cell_tabulate (n : nat) (f : nat -> float) (i : nat) :
  (i < n)%nat -> cell (tabulate n f) i = f i.
Proof. intros Hi. unfold cell. now rewrite tabulate_lookup. Qed.

(** The regime of row [i] as the spec words it (4.2, step 5): the first of
    trending_up, trending_down, high_volatility whose condition holds, and
    ranging when none does. *)
Definition spec_regime (s5 s20 s50 vol : list float) (i : nat) : string :=
  let sma5 := cell s5 i in
  let sma20 := cell s20 i in
  let sma50 := cell s50 i in
  let strong := fdiv_gt (fabs (fsub sma5 sma50)) sma50 (2 # 100) in
  if fgt sma5 sma20 && fgt sma20 sma50 && strong
  then "trending_up"
  else if flt sma5 sma20 && flt sma20 sma50 && strong
  then "trending_down"
  else if fgt (cell vol i) (fmul (cell (rolling_mean 50 vol) i) (Some (15 # 10)))
  then "high_volatility"
  else "ranging".

Ltac frame_lookup :=
  repeat first
    [ rewrite floats_assign_eq
    | rewrite bools_assign_eq
    | rewrite columns_assign_eq
    | rewrite floats_assign_ne by discriminate
    | rewrite bools_assign_ne by discriminate
    | rewrite numeric_assign_ne by discriminate
    | rewrite has_col_assign_ne by discriminate
    | rewrite columns_assign_ne by discriminate ].

(** [classify_regime] on a frame that has the moving averages and the
    volatility as numeric columns: no statement raises, and the label of
    each row is the regime of the spec. *)
Lemma classify_regime_columns (df : DataFrame) (s5 s20 s50 vol : list float) :
  numeric df "sma_5" = Some s5 ->
  numeric df "sma_20" = Some s20 ->
  numeric df "sma_50" = Some s50 ->
  numeric df "volatility_20d" = Some vol ->
  exists R,
    FeatureEngineer.classify_regime df = (R, [])
    /\ nrows R = nrows df
    /\ columns R !! "regime_classification"
       = Some (StrCol (tabulate (nrows df)
                         (fun i => Some (spec_regime s5 s20 s50 vol i))))
    /\ forall name,
         ~ In name ["trend_up"; "trend_down"; "trend_strength"; "regime_classification"] ->
         columns R !! name = columns df !! name.
Proof.
  intros H5 H20 H50 Hvol. unfold FeatureEngineer.classify_regime.
  erewrite try_steps_cons
    by (cbv beta; frame_lookup; rewrite H5, H20, H50; reflexivity).
  erewrite try_steps_cons
    by (cbv beta; frame_lookup; rewrite H5, H20, H50; reflexivity).
  erewrite try_steps_cons
    by (cbv beta; frame_lookup; rewrite H5, H50; reflexivity).
  erewrite try_steps_cons
    by (cbv beta; frame_lookup; rewrite H5, H50, Hvol; reflexivity).
  eexists. split; [reflexivity|]. split; [reflexivity|]. split.
  - rewrite columns_assign_eq. f_equal. f_equal.
    rewrite !nrows_assign. apply tabulate_ext. intros i Hi.
    rewrite !(tabulate_nth false) by exact Hi.
    unfold spec_regime. cbn [FeatureEngineer.np_select]. cbv zeta.
    repeat match goal with |- context [if ?b then _ else _] => destruct b end;
      reflexivity.
  - intros name Hname. simpl in Hname.
    rewrite !columns_assign_ne by (intros <-; tauto). reflexivity.
Qed.

Import AdvancedXGBoostModel.

(** The names [prepare_features] adds before the regime columns. *)
Definition lag_names : list string :=
  flat_map (fun c => [c +:+ "_lag1"; c +:+ "_lag2"]) lag_features.

Definition rolling_names : list string :=
  ["returns_1d_rolling_mean_5"; "returns_1d_rolling_std_5"].

Lemma lag_sources_fresh (c : string) : In c lag_features -> ~ In c lag_names.
Proof. simpl. intuition (subst; discriminate). Qed.

Lemma lag_names_intro (c : string) :
  In c lag_features -> In (c +:+ "_lag1") lag_names /\ In (c +:+ "_lag2") lag_names.
Proof.
  intros Hc. unfold lag_names. split; apply in_flat_map; exists c; simpl; auto.
Qed.

(** The lag loop on a frame whose lag sources, where present, are numeric:
    it raises nothing and writes the lag columns only. *)
Lemma add_lags_ok (cols : list string) (df : DataFrame) (fc : list string) :
  incl cols lag_features ->
  (forall c, In c lag_features -> has_col df c = true -> is_Some (numeric df c)) ->
  exists df' extra,
    add_lags cols (df, fc) = Ok (df', fc ++ extra)
    /\ nrows df' = nrows df
    /\ incl extra lag_names
    /\ forall name, ~ In name lag_names -> columns df' !! name = columns df !! name.
Proof.
  revert df fc. induction cols as [|c cols IH]; intros df fc Hincl Hnum.
  - exists df, []. rewrite app_nil_r. repeat split; auto. intros x [].
  - assert (Hc : In c lag_features) by (apply Hincl; now left).
    assert (Hrest : incl cols lag_features) by (intros x Hx; apply Hincl; now right).
    destruct (lag_names_intro c Hc) as [Hl1 Hl2].
    cbn [add_lags]. destruct (has_col df c) eqn:Hhas.
    + destruct (Hnum c Hc Hhas) as [xs Hxs]. rewrite Hxs. cbn [getitem].
      change (Ok xs ≫= ?k) with (k xs). cbv beta.
      set (df2 := assign (c +:+ "_lag2") _ (assign (c +:+ "_lag1") _ df)).
      destruct (IH df2 (fc ++ [c +:+ "_lag1"; c +:+ "_lag2"]) Hrest)
        as (df' & extra & Hrun & Hn & Hextra & Hsame).
      { intros c' Hc' Hhas'. pose proof (lag_sources_fresh c' Hc') as Hfresh.
        unfold df2 in *.
        rewrite !has_col_assign_ne in Hhas' by (intros E; apply Hfresh; now rewrite <- E).
        rewrite !numeric_assign_ne by (intros E; apply Hfresh; now rewrite <- E).
        now apply Hnum. }
      exists df', ([c +:+ "_lag1"; c +:+ "_lag2"] ++ extra).
      rewrite app_assoc. split; [exact Hrun|]. split; [exact Hn|]. split.
      * intros x Hx. apply in_app_or in Hx as [[<-|[<-|[]]]|Hx]; auto.
      * intros name Hname. rewrite Hsame by exact Hname. unfold df2.
        rewrite !columns_assign_ne by (intros E; apply Hname; now rewrite <- E).
        reflexivity.
    + apply (IH df fc Hrest Hnum).
Qed.

Lemma add_rolling_ok (lib : Ta.Library) (df : DataFrame) (fc : list string) :
  (has_col df "returns_1d" = true -> is_Some (numeric df "returns_1d")) ->
  exists df' extra,
    add_rolling lib (df, fc) = Ok (df', fc ++ extra)
    /\ nrows df' = nrows df
    /\ incl extra rolling_names
    /\ forall name, ~ In name rolling_names -> columns df' !! name = columns df !! name.
Proof.
  intros Hnum. unfold add_rolling. destruct (has_col df "returns_1d").
  - destruct (Hnum eq_refl) as [xs ->]. cbn [getitem].
    change (Ok xs ≫= ?k) with (k xs). cbv beta.
    eexists _, rolling_names. split; [reflexivity|]. split; [reflexivity|].
    split; [intros x Hx; exact Hx|].
    intros name Hname. simpl in Hname.
    rewrite !columns_assign_ne by (intros <-; tauto). reflexivity.
  - exists df, []. rewrite app_nil_r. repeat split; auto. intros x [].
Qed.

Lemma nth_replicate_same {A : Type} (d : A) (n i : nat) : nth i (replicate n d) d = d.
Proof. revert i. induction n as [|n IH]; intros [|i]; simpl; auto. Qed.

Lemma loc_set_one_int (mask : nat -> bool) (name : string) (df : DataFrame)
    (zs : list Z) :
  columns df !! name = Some (IntCol zs) ->
  loc_set_one mask name df
  = assign name (IntCol (tabulate (nrows df)
                           (fun i => if mask i then 1%Z else nth i zs 0%Z))) df.
Proof. intros H. unfold loc_set_one. now rewrite H. Qed.

(** The one-hot columns, given the classification column. *)
Lemma encode_regimes_columns (df : DataFrame) (fc : list string)
    (labels : list (option string)) :
  columns df !! "regime_classification" = Some (StrCol labels) ->
  (forall r, In r all_regimes -> ~ In (regime_column r) fc) ->
  exists df',
    encode_regimes (df, fc) = (df', fc ++ (regime_column <$> all_regimes))
    /\ nrows df' = nrows df
    /\ forall r, In r all_regimes ->
         ints df' (regime_column r)
         = Some (tabulate (nrows df)
                   (fun i => if bool_decide (nth i labels None = Some r)
                             then 1%Z else 0%Z)).
Proof.
  intros Hcls Hfresh. unfold encode_regimes. rewrite Hcls.
  replace (existsb _ _) with false.
  2:{ symmetry. apply not_true_is_false. intros Hex.
      apply existsb_exists in Hex as (col & Hcol & Hin).
      apply bool_decide_eq_true in Hin. apply list_elem_of_In in Hin.
      change (regime_column <$> all_regimes) with (map regime_column all_regimes) in Hcol.
      apply in_map_iff in Hcol as (r & <- & Hr). exact (Hfresh r Hr Hin). }
  eexists. split; [reflexivity|].
  cbn [foldl all_regimes].
  change (regime_column "high_volatility") with "regime_high_volatility".
  change (regime_column "ranging") with "regime_ranging".
  change (regime_column "trending_down") with "regime_trending_down".
  change (regime_column "trending_up") with "regime_trending_up".
  set (n := nrows df).
  set (z1 := assign "regime_high_volatility" (IntCol (replicate (nrows df) 0%Z)) df).
  set (z2 := assign "regime_ranging" (IntCol (replicate (nrows z1) 0%Z)) z1).
  set (z3 := assign "regime_trending_down" (IntCol (replicate (nrows z2) 0%Z)) z2).
  set (z4 := assign "regime_trending_up" (IntCol (replicate (nrows z3) 0%Z)) z3).
  change (nrows z1) with n in *. change (nrows z2) with n in *.
  change (nrows z3) with n in *. fold n in z1.
  set (cls := StrCol labels).
  rewrite (loc_set_one_int _ "regime_high_volatility" z4 (replicate n 0%Z))
    by (unfold z4, z3, z2, z1; now rewrite !columns_assign_ne, columns_assign_eq by discriminate).
  set (o1 := assign "regime_high_volatility" _ z4).
  rewrite (loc_set_one_int _ "regime_ranging" o1 (replicate n 0%Z))
    by (unfold o1, z4, z3, z2; now rewrite !columns_assign_ne, columns_assign_eq by discriminate).
  set (o2 := assign "regime_ranging" _ o1).
  rewrite (loc_set_one_int _ "regime_trending_down" o2 (replicate n 0%Z))
    by (unfold o2, o1, z4, z3; now rewrite !columns_assign_ne, columns_assign_eq by discriminate).
  set (o3 := assign "regime_trending_down" _ o2).
  rewrite (loc_set_one_int _ "regime_trending_up" o3 (replicate n 0%Z))
    by (unfold o3, o2, o1, z4; now rewrite !columns_assign_ne, columns_assign_eq by discriminate).
  set (o4 := assign "regime_trending_up" _ o3).
  split; [reflexivity|].
  change (nrows o3) with n. change (nrows o2) with n in *.
  change (nrows o1) with n in *. change (nrows z4) with n in *.
  assert (Hcol : forall r,
            tabulate n (fun i => if eq_mask cls r i then 1%Z else nth i (replicate n 0%Z) 0%Z)
            = tabulate n (fun i => if bool_decide (nth i labels None = Some r)
                                   then 1%Z else 0%Z)).
  { intros r. apply tabulate_ext. intros i Hi. unfold cls, eq_mask.
    now rewrite nth_replicate_same. }
  intros r Hr. unfold ints. simpl in Hr.
  destruct Hr as [<-|[<-|[<-|[<-|[]]]]].
  - change (regime_column "high_volatility") with "regime_high_volatility".
    unfold o4, o3, o2, o1.
    rewrite !columns_assign_ne, columns_assign_eq by discriminate. now rewrite Hcol.
  - change (regime_column "ranging") with "regime_ranging".
    unfold o4, o3, o2.
    rewrite !columns_assign_ne, columns_assign_eq by discriminate. now rewrite Hcol.
  - change (regime_column "trending_down") with "regime_trending_down".
    unfold o4, o3.
    rewrite !columns_assign_ne, columns_assign_eq by discriminate. now rewrite Hcol.
  - change (regime_column "trending_up") with "regime_trending_up".
    unfold o4. rewrite columns_assign_eq. now rewrite Hcol.
Qed.

Lemma regime_columns_fresh (r : string) (extra1 extra2 : list string) :
  In r all_regimes -> incl extra1 lag_names -> incl extra2 rolling_names ->
  ~ In (regime_column r) ((base_feature_columns ++ extra1) ++ extra2).
Proof.
  intros Hr H1 H2 Hin.
  assert (Hall : In (regime_column r) (base_feature_columns ++ lag_names ++ rolling_names)).
  { apply in_app_or in Hin as [Hin|Hin]; [apply in_app_or in Hin as [Hin|Hin]|].
    - apply in_or_app. now left.
    - apply in_or_app. right. apply in_or_app. left. now apply H1.
    - apply in_or_app. right. apply in_or_app. right. now apply H2. }
  clear -Hr Hall. simpl in Hr.
  destruct Hr as [<-|[<-|[<-|[<-|[]]]]]; simpl in Hall;
    intuition discriminate.
Qed.

Lemma spec_regime_cases (s5 s20 s50 vol : list float) (i : nat) :
  In (spec_regime s5 s20 s50 vol i) all_regimes.
Proof.
  unfold spec_regime. cbv zeta.
  repeat match goal with |- context [if ?b then _ else _] => destruct b end;
    simpl; auto.
Qed.





End RegimeFacts.

(** ** The feature engineer *)
Module FeatureFacts.
Import Py Pandas Store FeatureEngineer PandasFacts.

(** C4.  When the response for the primary symbol is empty,
    [engineer_features] reports failure (it returns False, after the warning
    of the fetch and the error "No data available"), and leaves the features
    table as it was: no feature row is written, complete or partial. *)
Theorem engineer_features_no_data (lib : Ta.Library) (market_data_raw : list Bar)
    (features_store : gmap (string * Z * string) (gmap string value))
    (clock : nat -> Z) (sym : string) (days_back : Z) :
  select_bars market_data_raw sym (Some (clock 0%nat - days_back * 86400)%Z) = [] ->
  engineer_features lib market_data_raw features_store clock sym days_back
  = (false, features_store,
     [(WARNING, NoDataFound sym); (ERROR, NoDataAvailable sym)]).
Proof.
  intros Hempty. unfold engineer_features, fetch_market_data.
  rewrite Hempty. reflexivity.
Qed.

(** A table that holds bars of the sector index only. *)
Definition index_only : list Bar := [DatasetFacts.flat_bar "^NSEBANK" 0 40000].

Lemma engineer_features_no_data_witness :
  engineer_features Ta.warming_up index_only ∅ (fun _ => 86400%Z) "HDFCBANK.NS" 365
  = (false, ∅,
     [(WARNING, NoDataFound "HDFCBANK.NS"); (ERROR, NoDataAvailable "HDFCBANK.NS")]).
Proof.
  apply (engineer_features_no_data Ta.warming_up index_only ∅ (fun _ => 86400%Z)
           "HDFCBANK.NS" 365).
  vm_compute. reflexivity.
Defined.

(** *** Sector features *)
Lemma matches_spec (k : Z) (rkeys : list Z) (j : nat) :
  In j (matches k rkeys) <-> (j < length rkeys)%nat /\ nth j rkeys 0%Z = k.
Proof.
  unfold matches. rewrite filter_In, in_seq, Z.eqb_eq. intuition lia.
Qed.

Lemma matches_nil (k : Z) (rkeys : list Z) : matches k rkeys = [] -> ~ In k rkeys.
Proof.
  intros Hnil Hin. apply (In_nth _ _ 0%Z) in Hin as (j & Hj & Hk).
  assert (H : In j (matches k rkeys)) by now apply matches_spec.
  rewrite Hnil in H. destruct H.
Qed.

Lemma left_pairs_spec (lkeys rkeys : list Z) (i : nat) (o : option nat) :
  In (i, o) (left_pairs lkeys rkeys) <->
  (i < length lkeys)%nat
  /\ match o with
     | Some j => In j (matches (nth i lkeys 0%Z) rkeys)
     | None => matches (nth i lkeys 0%Z) rkeys = []
     end.
Proof.
  unfold left_pairs. rewrite in_flat_map. split.
  - intros (i' & Hi' & Hin). apply in_seq in Hi'.
    destruct (matches (nth i' lkeys 0%Z) rkeys) as [|j0 js] eqn:E.
    + destruct Hin as [[= <- <-]|[]]. split; [lia|exact E].
    + apply in_map_iff in Hin as (j & [= <- <-] & Hj). split; [lia|]. now rewrite E.
  - intros [Hi Ho]. exists i. split; [apply in_seq; lia|].
    destruct o as [j|].
    + destruct (matches (nth i lkeys 0%Z) rkeys) as [|j0 js]; [destruct Ho|].
      apply in_map_iff. eauto.
    + rewrite Ho. now left.
Qed.

(** Every left row is in the result of a left merge. *)
Lemma left_pairs_total (lkeys rkeys : list Z) (i : nat) :
  (i < length lkeys)%nat -> In i (map fst (left_pairs lkeys rkeys)).
Proof.
  intros Hi. apply in_map_iff.
  destruct (matches (nth i lkeys 0%Z) rkeys) as [|j js] eqn:E.
  - exists (i, None). split; [reflexivity|]. apply left_pairs_spec. auto.
  - exists (i, Some j). split; [reflexivity|]. apply left_pairs_spec.
    split; [exact Hi|]. rewrite E. now left.
Qed.

Lemma cell_zip_with_fdiv (xs ys : list float) (k : nat) :
  cell (zip_with fdiv xs ys) k = fdiv (cell xs k) (cell ys k).
Proof.
  unfold cell. rewrite lookup_zip_with.
  destruct (xs !! k) as [x|]; simpl; [|reflexivity].
  destruct (ys !! k) as [y|]; simpl; [reflexivity|].
  now destruct x.
Qed.

Lemma cell_gather (xs : list float) (idx : list nat) (k i : nat) :
  idx !! k = Some i -> cell (gather None xs idx) k = cell xs i.
Proof.
  intros Hk. unfold cell at 1, gather.
  change (map ?f ?l) with (f <$> l). rewrite list_lookup_fmap, Hk. simpl.
  symmetry. apply cell_nth.
Qed.

Lemma cell_gather_opt (xs : list float) (idx : list (option nat)) (k : nat)
    (o : option nat) :
  idx !! k = Some o ->
  cell (gather_opt xs idx) k = match o with Some j => cell xs j | None => None end.
Proof.
  intros Hk. unfold cell at 1, gather_opt.
  change (map ?f ?l) with (f <$> l). rewrite list_lookup_fmap, Hk. reflexivity.
Qed.

(** C5 (as amended).  When [calculate_sector_features] raises nothing, its
    frame is the left merge of the primary frame with the index on the
    timestamp: every primary row is kept; a row with an index bar of the same
    timestamp has the relative strength primary close / index close of that
    bar; a row without one is kept too, with an undefined relative strength
    (nothing is carried forward from an earlier bar). *)
Theorem sector_relative_strength (lib : Ta.Library) (df_primary df_index : DataFrame)
    (df_peers : list DataFrame) (out : DataFrame)
    (c rc : list float) (lts rts : list Z) :
  sector_features lib df_primary df_index df_peers = Some out ->
  floats df_primary "close" = Some c ->
  times df_primary "timestamp" = Some lts ->
  floats df_index "close" = Some rc ->
  times df_index "timestamp" = Some rts ->
  let pairs := left_pairs lts rts in
  nrows out = length pairs
  /\ times out "timestamp" = Some (gather 0%Z lts (map fst pairs))
  /\ (forall i, (i < length lts)%nat -> In i (map fst pairs))
  /\ exists rs,
       floats out "relative_strength_sector" = Some rs
       /\ forall k i o, pairs !! k = Some (i, o) ->
            match o with
            | Some j => (j < length rts)%nat
                        /\ nth j rts 0%Z = nth i lts 0%Z
                        /\ cell rs k = fdiv (cell c i) (cell rc j)
            | None => ~ In (nth i lts 0%Z) rts /\ cell rs k = None
            end.
Proof.
  intros Hrun Hc Hlts Hrc Hrts pairs.
  unfold sector_features, merge_close in Hrun.
  rewrite Hrts, Hrc, Hlts in Hrun. cbn [mbind option_bind] in Hrun.
  fold pairs in Hrun.
  assert (Hhas : has_col df_primary "close" = true).
  { apply has_col_true. pose proof Hc as Hc'. unfold floats in Hc'.
    destruct (columns df_primary !! "close") as [col|]; [eauto|discriminate Hc']. }
  rewrite Hhas in Hrun. change ("close" +:+ "_index") with "close_index" in Hrun.
  set (left := df_take (map fst pairs) df_primary) in *.
  set (ci := gather_opt rc (map snd pairs)) in *.
  set (merged0 := assign "close_index" (FloatCol ci) left) in *.
  destruct (floats merged0 "returns_1d") as [r1|] eqn:Hr1; [|discriminate].
  cbn [mbind option_bind] in Hrun.
  assert (Hci : floats merged0 "close_index" = Some ci) by apply floats_assign_eq.
  rewrite Hci in Hrun. cbn [mbind option_bind] in Hrun.
  set (merged1 := assign "correlation_nifty_bank" _ merged0) in *.
  assert (Hc1 : floats merged1 "close" = Some (gather None c (map fst pairs))).
  { unfold merged1, merged0, left.
    rewrite !floats_assign_ne by discriminate. now rewrite floats_take, Hc. }
  assert (Hci1 : floats merged1 "close_index" = Some ci).
  { unfold merged1. now rewrite floats_assign_ne by discriminate. }
  rewrite Hc1 in Hrun. cbn [mbind option_bind] in Hrun.
  rewrite Hci1 in Hrun. cbn [mbind option_bind] in Hrun.
  set (rs := zip_with fdiv (gather None c (map fst pairs)) ci) in *.
  set (merged2 := assign "relative_strength_sector" (FloatCol rs) merged1) in *.
  assert (Hn2 : nrows merged2 = length pairs).
  { unfold merged2, merged1, merged0, left. cbn [nrows assign df_take].
    apply length_map. }
  assert (Ht2 : times merged2 "timestamp" = Some (gather 0%Z lts (map fst pairs))).
  { unfold merged2, merged1, merged0, left.
    rewrite !times_assign_ne by discriminate. now rewrite times_take, Hlts. }
  assert (Hrs2 : floats merged2 "relative_strength_sector" = Some rs)
    by apply floats_assign_eq.
  assert (Hout : nrows out = nrows merged2
                 /\ times out "timestamp" = times merged2 "timestamp"
                 /\ floats out "relative_strength_sector"
                    = floats merged2 "relative_strength_sector").
  { destruct df_peers as [|peer_df peers'].
    - injection Hrun as <-. auto.
    - destruct (mapM _ (peer_df :: peers')) as [peer_returns|]; [|discriminate].
      cbn [mbind option_bind] in Hrun.
      destruct (floats merged2 "returns_1d") as [r1'|]; [|discriminate].
      cbn [mbind option_bind] in Hrun. injection Hrun as <-.
      rewrite times_assign_ne, floats_assign_ne by discriminate. auto. }
  destruct Hout as (-> & -> & ->).
  split; [exact Hn2|]. split; [exact Ht2|].
  split; [intros i Hi; now apply left_pairs_total|].
  exists rs. split; [exact Hrs2|].
  intros k i o Hk.
  assert (Hin : In (i, o) pairs) by (apply list_elem_of_In, list_elem_of_lookup; eauto).
  apply left_pairs_spec in Hin as [Hi Ho].
  assert (Hcell : cell rs k = fdiv (cell c i)
                               match o with Some j => cell rc j | None => None end).
  { unfold rs. rewrite cell_zip_with_fdiv.
    rewrite (cell_gather c (map fst pairs) k i).
    2:{ change (map fst pairs) with (fst <$> pairs). now rewrite list_lookup_fmap, Hk. }
    unfold ci. rewrite (cell_gather_opt rc (map snd pairs) k o).
    2:{ change (map snd pairs) with (snd <$> pairs). now rewrite list_lookup_fmap, Hk. }
    reflexivity. }
  destruct o as [j|].
  - apply matches_spec in Ho as [Hj Heq]. auto.
  - split; [now apply matches_nil|]. rewrite Hcell. now destruct (cell c i).
Qed.

(** Two primary rows, and an index that has a bar for the second only. *)
Definition two_primary_rows : DataFrame :=
  mkDF 2 (list_to_map [("timestamp", TimeCol [0; 86400]%Z);
                       ("close", FloatCol [Some 100%Q; Some 110%Q]);
                       ("returns_1d", FloatCol [None; Some (1 # 10)])]).

Definition one_index_row : DataFrame :=
  mkDF 1 (list_to_map [("timestamp", TimeCol [86400%Z]);
                       ("close", FloatCol [Some 50%Q])]).

Lemma sector_relative_strength_witness :
  exists out rs,
    sector_features Ta.warming_up two_primary_rows one_index_row [] = Some out
    /\ nrows out = 2%nat
    /\ times out "timestamp" = Some [0; 86400]%Z
    /\ floats out "relative_strength_sector" = Some rs
    /\ cell rs 0 = None
    /\ cell rs 1 = fdiv (Some 110%Q) (Some 50%Q).
Proof.
  destruct (sector_features Ta.warming_up two_primary_rows one_index_row [])
    as [out|] eqn:Hrun; [|vm_compute in Hrun; discriminate].
  destruct (sector_relative_strength Ta.warming_up two_primary_rows one_index_row []
              out [Some 100%Q; Some 110%Q] [Some 50%Q] [0; 86400]%Z [86400%Z] Hrun)
    as (Hn & Hts & _ & rs & Hrs & Hrows); try reflexivity.
  exists out, rs. split; [reflexivity|]. split; [exact Hn|]. split; [exact Hts|].
  split; [exact Hrs|]. split.
  - destruct (Hrows 0%nat 0%nat None) as [_ H]; [reflexivity|exact H].
  - destruct (Hrows 1%nat 1%nat (Some 0%nat)) as (_ & _ & H); [reflexivity|exact H].
Defined.

(** C5 as stated fails: a primary row without an index bar of its timestamp
    is not excluded.  The row of timestamp 0 is in the output, and the index
    has no bar of timestamp 0. *)
Lemma sector_features_keep_unmatched :
  ~ (forall (lib : Ta.Library) (df_primary df_index : DataFrame)
            (df_peers : list DataFrame) (out : DataFrame) (rts ots : list Z),
        calculate_sector_features lib df_primary df_index df_peers = (out, []) ->
        times df_index "timestamp" = Some rts ->
        times out "timestamp" = Some ots ->
        forall t, In t ots -> In t rts).
Proof.
  intros Hclaim.
  destruct (FeatureEngineer.calculate_sector_features Ta.warming_up two_primary_rows
              one_index_row []) as [out l] eqn:Hrun.
  assert (Hl : l = []) by (vm_compute in Hrun; now injection Hrun as _ <-).
  subst l.
  assert (Hots : times out "timestamp" = Some [0; 86400]%Z)
    by (vm_compute in Hrun; now injection Hrun as <-).
  specialize (Hclaim Ta.warming_up two_primary_rows one_index_row [] out
                [86400%Z] [0; 86400]%Z Hrun eq_refl Hots 0%Z (or_introl eq_refl)).
  destruct Hclaim as [H|[]]. discriminate.
Qed.

(** *** Storage *)
Lemma omap_keys_NoDup {A B : Type} (g : string -> option A) (h : A -> B)
    (names : list string) :
  NoDup names ->
  NoDup (omap (fun name => c ← g name; Some (name, h c)) names).*1.
Proof.
  induction 1 as [|name names Hnotin Hnd IH]; [constructor|].
  cbn [omap list_omap]. destruct (g name) as [v|]; cbn [mbind option_bind]; [|exact IH].
  cbn [fmap list_fmap fst]. constructor; [|exact IH].
  intros Hin. apply Hnotin.
  apply list_elem_of_fmap in Hin as ([name' v'] & -> & Hin).
  apply list_elem_of_omap in Hin as (name'' & Hin & Hg).
  destruct (g name''); [|discriminate]. now injection Hg as <- _.
Qed.

Lemma record_of_row_lookup (df : DataFrame) (names : list string) (i : nat)
    (name : string) (col : column) :
  NoDup names -> In name names -> columns df !! name = Some col ->
  record_of_row df names i !! name = Some (value_at col i).
Proof.
  intros Hnd Hin Hcol. unfold record_of_row.
  apply elem_of_list_to_map_1.
  - exact (omap_keys_NoDup (fun name => columns df !! name)
             (fun c => value_at c i) names Hnd).
  - apply list_elem_of_omap. exists name. split; [now apply list_elem_of_In|].
    now rewrite Hcol.
Qed.

Lemma feature_columns_NoDup : NoDup feature_columns.
Proof. apply (bool_decide_unpack _). vm_compute. exact I. Qed.

(** The 50-day average is undefined on the first 49 rows. *)
Lemma sma_warm_up (close : list float) (w i : nat) :
  (S i < w)%nat -> cell (Ta.sma_indicator close w) i = None.
Proof. apply rolling_warm_up. Qed.

(** C6 (as amended).  [prepare_features_for_storage] drops no row: it makes
    one record per row of the frame, in which each listed float column holds
    the value of the row, with None in place of NaN.  So the rows of the
    warm-up period are stored too, with None for the features whose window
    is not full: the 50-day SMA of each of the first 49 rows is None. *)
Theorem storage_keeps_warm_up_rows (df : DataFrame) (sym : string)
    (close : list float) :
  floats df "sma_50" = Some (Ta.sma_indicator close 50) ->
  let records := prepare_features_for_storage df sym in
  length records = nrows df
  /\ (forall i name xs,
        (i < nrows df)%nat -> In name feature_columns ->
        name <> "symbol" -> name <> "feature_version" ->
        floats df name = Some xs ->
        exists r, records !! i = Some r
                  /\ r !! name = Some (match cell xs i with
                                       | Some q => VFloat q
                                       | None => VNone
                                       end))
  /\ (forall i, (i < nrows df)%nat -> (i < 49)%nat ->
        exists r, records !! i = Some r /\ r !! "sma_50" = Some VNone).
Proof.
  intros Hsma records.
  assert (Hgen : forall i name xs,
            (i < nrows df)%nat -> In name feature_columns ->
            name <> "symbol" -> name <> "feature_version" ->
            floats df name = Some xs ->
            exists r, records !! i = Some r
                      /\ r !! name = Some (match cell xs i with
                                           | Some q => VFloat q
                                           | None => VNone
                                           end)).
  { intros i name xs Hi Hname Hns Hnv Hxs.
    unfold records, prepare_features_for_storage. cbv zeta. cbn [nrows assign].
    set (df2 := assign "feature_version" _ (assign "symbol" _ df)).
    eexists. split; [now apply tabulate_lookup|].
    assert (Hcol : columns df2 !! name = Some (FloatCol xs)).
    { unfold df2. rewrite !columns_assign_ne by congruence.
      unfold floats in Hxs. destruct (columns df !! name) as [[]|]; try discriminate.
      now injection Hxs as ->. }
    rewrite (record_of_row_lookup df2 _ i name (FloatCol xs)).
    - reflexivity.
    - apply NoDup_ListNoDup, List.NoDup_filter, NoDup_ListNoDup, feature_columns_NoDup.
    - apply filter_In. split; [exact Hname|]. apply has_col_true. eauto.
    - exact Hcol. }
  split.
  - unfold records, prepare_features_for_storage. cbv zeta. apply tabulate_length.
  - split; [exact Hgen|].
    intros i Hi Hwarm.
    destruct (Hgen i "sma_50" (Ta.sma_indicator close 50) Hi) as (r & Hr & Hv);
      [simpl; tauto|discriminate|discriminate|exact Hsma|].
    exists r. split; [exact Hr|]. rewrite Hv.
    now rewrite sma_warm_up by lia.
Qed.

(** A frame of three rows whose 50-day average is the one of its closes. *)
Definition three_closes : DataFrame :=
  mkDF 3 (list_to_map
            [("timestamp", TimeCol [0; 86400; 172800]%Z);
             ("sma_50", FloatCol (Ta.sma_indicator [Some 100%Q; Some 101%Q; Some 102%Q] 50))]).

Lemma storage_keeps_warm_up_rows_witness :
  length (prepare_features_for_storage three_closes "HDFCBANK.NS") = 3%nat
  /\ exists r, prepare_features_for_storage three_closes "HDFCBANK.NS" !! 2%nat = Some r
               /\ r !! "sma_50" = Some VNone.
Proof.
  destruct (storage_keeps_warm_up_rows three_closes "HDFCBANK.NS"
              [Some 100%Q; Some 101%Q; Some 102%Q]) as (Hlen & _ & Hwarm).
  - vm_compute. reflexivity.
  - split; [exact Hlen|]. apply Hwarm; vm_compute; lia.
Defined.

(** C6 as stated fails: rows of the warm-up period are stored.  After a run
    over three days of bars, the features table holds a record of the first
    day whose 50-day SMA is None. *)
Lemma warm_up_rows_are_stored :
  ~ (forall (lib : Ta.Library) (market_data_raw : list Bar) (clock : nat -> Z)
            (sym : string) (days_back : Z) (ok : bool)
            (stored : gmap (string * Z * string) (gmap string value)) (l : log)
            (key : string * Z * string) (r : gmap string value),
        engineer_features lib market_data_raw ∅ clock sym days_back = (ok, stored, l) ->
        stored !! key = Some r ->
        exists q, r !! "sma_50" = Some (VFloat q)).
Proof.
  intros Hclaim.
  assert (Hfact : snd (fst (engineer_features Ta.warming_up DatasetFacts.three_days ∅
                              (fun _ => 259200%Z) "HDFCBANK.NS" 365))
                    !! ("HDFCBANK.NS", 0%Z, "v1")
                  ≫= (fun r => r !! "sma_50") = Some VNone)
    by (vm_compute; reflexivity).
  destruct (engineer_features Ta.warming_up DatasetFacts.three_days ∅
              (fun _ => 259200%Z) "HDFCBANK.NS" 365) as [[ok stored] l] eqn:Hrun.
  cbn [fst snd] in Hfact.
  destruct (stored !! ("HDFCBANK.NS", 0%Z, "v1")) as [r|] eqn:Hkey; [|discriminate].
  cbn [mbind option_bind] in Hfact.
  destruct (Hclaim _ _ _ _ _ _ _ _ _ r Hrun Hkey) as [q Hq].
  rewrite Hq in Hfact. discriminate.
Qed.

End FeatureFacts.

(** ** The forecaster *)
Module ForecastFacts.
Import Py Pandas Store PandasFacts.
Import AdvancedXGBoostModel.

(** The interval around a point prediction [p] for a dispersion [sd]. *)
Definition interval_row (sd p : Q) : Prediction :=
  mkPrediction p (p - z_score * (sd * (1 # 10)))%Q (p + z_score * (sd * (1 # 10)))%Q.

Lemma predict_rows (m : Fitted) (X : list (list float)) (cl : Q) :
  predict (Some m) X cl
  = Some (match np_std (xgb_predict m <$> X) with
          | Some sd => interval_row sd <$> (xgb_predict m <$> X)
          | None => []
          end).
Proof.
  unfold predict. cbn [mbind option_bind].
  destruct (np_std (xgb_predict m <$> X)); reflexivity.
Qed.

Lemma np_std_Some (qs : list Q) : qs <> [] -> is_Some (np_std qs).
Proof. destruct qs; [congruence|]. simpl. eauto. Qed.

Lemma Qsqrt_comp (q q' : Q) : (q == q')%Q -> Qsqrt q = Qsqrt q'.
Proof. intros H. unfold Qsqrt. now rewrite H. Qed.

(** The dispersion of a single prediction is zero. *)
Lemma np_std_single (p : Q) : np_std [p] = Some (Qsqrt 0).
Proof.
  simpl. f_equal. apply Qsqrt_comp. unfold Qmean, Qsum. simpl. field.
Qed.

Lemma Qsqrt_0 : (Qsqrt 0 == 0)%Q.
Proof. reflexivity. Qed.

(** What [predict] returns: for each input row, the point prediction of the
    model with the interval prediction -/+ 1.96 x std_error, where std_error
    is a tenth of the population standard deviation of the predictions of
    this call.  The interval is symmetric about the prediction; its
    half-width is the same for every requested confidence_level (the z value
    is the constant 1.96 of the 95% level); and for a single input row, as
    the prediction service calls it, it shrinks to the prediction itself. *)
Theorem predict_interval (m : Fitted) (X : list (list float)) (cl : Q) :
  exists rows,
    predict (Some m) X cl = Some rows
    /\ length rows = length X
    /\ (forall cl', predict (Some m) X cl' = Some rows)
    /\ (forall k x, X !! k = Some x ->
          exists sd r,
            np_std (xgb_predict m <$> X) = Some sd
            /\ rows !! k = Some r
            /\ predicted_price r = xgb_predict m x
            /\ confidence_lower r = (predicted_price r - (196 # 100) * (sd * (1 # 10)))%Q
            /\ confidence_upper r = (predicted_price r + (196 # 100) * (sd * (1 # 10)))%Q
            /\ (confidence_upper r - predicted_price r
                == predicted_price r - confidence_lower r)%Q)
    /\ (forall x, X = [x] ->
          exists r, rows = [r]
                    /\ (confidence_lower r == predicted_price r)%Q
                    /\ (confidence_upper r == predicted_price r)%Q).
Proof.
  destruct X as [|x0 X'].
  { exists []. split; [reflexivity|]. split; [reflexivity|]. split; [reflexivity|].
    split; [intros k x Hk; discriminate|intros x Hx; discriminate]. }
  destruct (np_std_Some (xgb_predict m <$> x0 :: X')) as [sd Hsd]; [discriminate|].
  exists (interval_row sd <$> (xgb_predict m <$> x0 :: X')).
  split; [rewrite predict_rows, Hsd; reflexivity|].
  split; [now rewrite !length_fmap|].
  split; [intros cl'; rewrite predict_rows, Hsd; reflexivity|].
  split.
  - intros k x Hk. exists sd, (interval_row sd (xgb_predict m x)).
    split; [exact Hsd|].
    split; [rewrite !list_lookup_fmap, Hk; reflexivity|].
    split; [reflexivity|]. split; [reflexivity|]. split; [reflexivity|].
    unfold interval_row, z_score. simpl. ring.
  - intros x [= -> ->]. eexists. split; [reflexivity|].
    change (xgb_predict m <$> [x]) with [xgb_predict m x] in Hsd.
    rewrite np_std_single in Hsd. injection Hsd as <-.
    unfold interval_row. simpl. rewrite Qsqrt_0. split; ring.
Qed.

(** A model that returns the single feature of its row, and two rows whose
    predictions, 0 and 20, have the standard deviation 10. *)
Definition echo_model : Fitted :=
  mkFitted (fun row => match row with [Some x] => x | _ => 0%Q end) [] [].

Definition two_rows : list (list float) := [[Some 0%Q]; [Some 20%Q]].

(** C8.  The code at the failing input, two rows whose predictions have the
    standard deviation 10: [predict] returns the same rows at the levels
    0.95 and 0.99, with the half-width 1.96 x 1 of the 95% level at both,
    where [BaselineARIMAModel.predict] passes [1 - confidence_level] on to
    its forecast.  So the half-width is not z(confidence_level) x std_error
    for any quantile function z (one that grows with the level) and any
    std_error of the model and the input. *)
Lemma predict_ignores_confidence_level :
  (exists rows,
     predict (Some echo_model) two_rows (95 # 100) = Some rows
     /\ predict (Some echo_model) two_rows (99 # 100) = Some rows
     /\ Forall (fun r => (confidence_upper r - predicted_price r == 196 # 100)%Q
                         /\ (predicted_price r - confidence_lower r == 196 # 100)%Q) rows
     /\ length rows = 2%nat)
  /\ ~ (exists (z : Q -> Q) (std_error : Fitted -> list (list float) -> Q),
          (forall a b, (a < b)%Q -> (z a < z b)%Q)
          /\ forall m X cl rows,
               predict (Some m) X cl = Some rows ->
               Forall (fun r =>
                         (confidence_upper r - predicted_price r == z cl * std_error m X)%Q
                         /\ (predicted_price r - confidence_lower r
                             == z cl * std_error m X)%Q) rows).
Proof.
  split.
  { eexists. split; [vm_compute; reflexivity|]. split; [vm_compute; reflexivity|].
    split; [|reflexivity]. repeat constructor. }
  intros (z & std_error & Hmono & Hclaim).
  set (s := std_error echo_model two_rows).
  assert (Hrow : forall cl, (196 # 100 == z cl * s)%Q).
  { intros cl.
    destruct (predict (Some echo_model) two_rows cl) as [rows|] eqn:Hrun;
      [|vm_compute in Hrun; discriminate].
    pose proof (Hclaim echo_model two_rows cl rows Hrun) as Hall.
    vm_compute in Hrun. injection Hrun as <-.
    apply Forall_cons in Hall as [[Hup _] _].
    cbn [confidence_upper predicted_price] in Hup. fold s in Hup.
    rewrite <- Hup. reflexivity. }
  assert (Hs : ~ (s == 0)%Q).
  { intros Hs. pose proof (Hrow 0%Q) as H. rewrite Hs, Qmult_0_r in H. discriminate H. }
  assert (Heq : (z (95 # 100) == z (99 # 100))%Q).
  { apply (Qmult_inj_r _ _ s Hs). now rewrite <- !Hrow. }
  specialize (Hmono (95 # 100) (99 # 100) eq_refl).
  rewrite Heq in Hmono. exact (Qlt_irrefl _ Hmono).
Qed.

Import PredictionService.

(** The record of one day, given the first prediction row and the current
    price of the run. *)
Definition forecast_record (first : Prediction) (current_price : option Q)
    (current_date now : Z) (day : nat) : Forecast :=
  {| symbol := service_symbol;
     prediction_timestamp := now;
     target_timestamp := (current_date + Z.of_nat day * 86400)%Z;
     predicted_price := Model.predicted_price first;
     confidence_lower := Model.confidence_lower first;
     confidence_upper := Model.confidence_upper first;
     confidence_level := 95 # 100;
     model_name := Model.MODEL_NAME;
     model_version := Model.MODEL_VERSION;
     feature_version := Model.FEATURE_VERSION;
     predicted_direction :=
       fst (determine_direction (Model.predicted_price first) current_price);
     direction_probability :=
       snd (determine_direction (Model.predicted_price first) current_price) |}.

(** What a turn of the loop reads: the prediction for the scaled row and the
    newest close.  Neither depends on the day. *)
Definition day_inputs (model : option Fitted) (market_data_raw : list Bar)
    (latest_scaled : list float) : option (Prediction * option Q) :=
  pred_result ← predict model [latest_scaled] (95 # 100);
  first ← head pred_result;
  current_price ← match latest_close market_data_raw with
                  | Some (Some q) => Some (Some q)
                  | Some None => None
                  | None => Some None
                  end;
  Some (first, current_price).

Lemma forecast_day_record (model : option Fitted) (market_data_raw : list Bar)
    (latest_scaled : list float) (current_date now : Z) (day : nat) :
  forecast_day model market_data_raw latest_scaled current_date now day
  = (fun fc => forecast_record (fst fc) (snd fc) current_date now day)
      <$> day_inputs model market_data_raw latest_scaled.
Proof.
  unfold forecast_day, day_inputs.
  destruct (predict model [latest_scaled] (95 # 100)) as [rows|]; [|reflexivity].
  cbn [mbind option_bind]. destruct (head rows) as [first|]; [|reflexivity].
  cbn [mbind option_bind].
  destruct (latest_close market_data_raw) as [[q|]|]; try reflexivity;
    cbn [mbind option_bind fmap option_fmap option_map fst snd];
    unfold forecast_record; now destruct (determine_direction _ _).
Qed.

(** The records of a run, when the run returns some. *)
Lemma generate_predictions_records (lib : Ta.Library) (model : option Fitted)
    (features_store : gmap (string * Z * string) (gmap string value))
    (market_data_raw : list Bar) (clock : nat -> Z) (forecast_days : Z) :
  fst (generate_predictions lib model features_store market_data_raw clock forecast_days) = []
  \/ exists latest_scaled first current_price,
       day_inputs model market_data_raw latest_scaled = Some (first, current_price)
       /\ fst (generate_predictions lib model features_store market_data_raw clock
                 forecast_days)
          = (fun day => forecast_record first current_price (clock 1%nat)
                          (clock (1 + day)%nat) day)
              <$> seq 1 (Z.to_nat forecast_days).
Proof.
  unfold generate_predictions.
  destruct (fetch_latest_features features_store (clock 0%nat) 100) as [df l0].
  destruct (df_empty df); [now left|].
  destruct (predictions_from lib model market_data_raw clock forecast_days df)
    as [preds|] eqn:Hrun; [|now left].
  cbn [fst]. unfold predictions_from in Hrun.
  destruct (Model.prepare_features lib df) as [[df' fc]|e]; [|discriminate].
  destruct (latest_row df' fc) as [row|]; [|discriminate].
  cbn [mbind option_bind] in Hrun.
  destruct model as [m|]; [|discriminate]. cbn [mbind option_bind] in Hrun.
  destruct (scaler_transform m row) as [scaled|]; [|discriminate].
  cbn [mbind option_bind] in Hrun.
  destruct (day_inputs (Some m) market_data_raw scaled) as [[first cp]|] eqn:Hin.
  - right. exists scaled, first, cp. split; [exact Hin|].
    apply mapM_Some in Hrun.
    apply list_eq_Forall2, Forall2_fmap_r.
    eapply Forall2_flip, Forall2_impl; [exact Hrun|].
    intros day r Hr. cbv beta in Hr.
    rewrite forecast_day_record, Hin in Hr. now injection Hr as <-.
  - left. destruct (seq 1 (Z.to_nat forecast_days)) as [|day days] eqn:Hdays.
    + now injection Hrun as <-.
    + cbn [mapM] in Hrun. rewrite forecast_day_record, Hin in Hrun. discriminate.
Qed.

(** Two records agree on every field but the two timestamps. *)
Definition agree_except_timestamps (r1 r2 : Forecast) : Prop :=
  symbol r1 = symbol r2
  /\ predicted_price r1 = predicted_price r2
  /\ confidence_lower r1 = confidence_lower r2
  /\ confidence_upper r1 = confidence_upper r2
  /\ confidence_level r1 = confidence_level r2
  /\ model_name r1 = model_name r2
  /\ model_version r1 = model_version r2
  /\ feature_version r1 = feature_version r2
  /\ predicted_direction r1 = predicted_direction r2
  /\ direction_probability r1 = direction_probability r2.

(** C10 (as amended).  The records of one run of [generate_predictions]
    carry the same predicted_price, confidence_lower and confidence_upper,
    and agree on every other field except the two timestamps: the
    target_timestamp of the record of day [k] is [current_date] plus [k]
    days, and its prediction_timestamp is the clock reading of its own turn
    of the loop. *)
Theorem forecasts_share_prediction (lib : Ta.Library) (model : option Fitted)
    (features_store : gmap (string * Z * string) (gmap string value))
    (market_data_raw : list Bar) (clock : nat -> Z) (forecast_days : Z) :
  let predictions :=
    fst (generate_predictions lib model features_store market_data_raw clock
           forecast_days) in
  (forall r1 r2, In r1 predictions -> In r2 predictions ->
                 agree_except_timestamps r1 r2)
  /\ (forall k r, predictions !! k = Some r ->
         target_timestamp r = (clock 1%nat + Z.of_nat (S k) * 86400)%Z
         /\ prediction_timestamp r = clock (2 + k)%nat)
  /\ (predictions = [] \/ length predictions = Z.to_nat forecast_days).
Proof.
  intros predictions. unfold predictions.
  destruct (generate_predictions_records lib model features_store market_data_raw
              clock forecast_days) as [->|(scaled & first & cp & _ & ->)].
  { split; [intros r1 r2 []|]. split; [intros k r Hk; discriminate|now left]. }
  split.
  - intros r1 r2 H1 H2.
    apply list_elem_of_In, list_elem_of_fmap in H1 as (d1 & -> & _).
    apply list_elem_of_In, list_elem_of_fmap in H2 as (d2 & -> & _).
    unfold agree_except_timestamps, forecast_record. cbn. tauto.
  - split.
    + intros k r Hk. rewrite list_lookup_fmap in Hk.
      destruct (seq 1 (Z.to_nat forecast_days) !! k) as [day|] eqn:Hday; [|discriminate].
      apply lookup_seq in Hday as [-> _]. injection Hk as <-.
      unfold forecast_record. cbn. split; reflexivity.
    + right. now rewrite length_fmap, length_seq.
Qed.

(** A run with one stored feature row, a newest close of 1500.00, a model
    that predicts 1503.00, and a clock that ticks between its readings. *)
Definition latest_feature_row : gmap string value :=
  list_to_map [("symbol", VStr "HDFCBANK.NS"); ("timestamp", VTime 0);
               ("feature_version", VStr "v1"); ("sma_5", VFloat 1500);
               ("regime_classification", VStr "ranging")].

Definition one_feature_row : gmap (string * Z * string) (gmap string value) :=
  {[ ("HDFCBANK.NS", 0%Z, "v1") := latest_feature_row ]}.

Definition close_1500 : list Bar := [DatasetFacts.flat_bar "HDFCBANK.NS" 0 1500].

Definition predicts_1503 : Fitted :=
  mkFitted (fun _ => 1503%Q) (replicate 36 0%Q) (replicate 36 1%Q).

(** C10 as stated fails: target_timestamp is not the only field that varies.
    Each record is stamped with the clock reading of its own turn of the
    loop, so two records of one run differ in prediction_timestamp too. *)
Lemma prediction_timestamp_varies :
  ~ (forall (lib : Ta.Library) (model : option Fitted)
            (features_store : gmap (string * Z * string) (gmap string value))
            (market_data_raw : list Bar) (clock : nat -> Z) (forecast_days : Z)
            (r1 r2 : Forecast),
        let predictions :=
          fst (generate_predictions lib model features_store market_data_raw clock
                 forecast_days) in
        In r1 predictions -> In r2 predictions ->
        agree_except_timestamps r1 r2
        /\ prediction_timestamp r1 = prediction_timestamp r2).
Proof.
  intros Hclaim.
  assert (Hrun : (prediction_timestamp <$>
                    fst (generate_predictions Ta.warming_up (Some predicts_1503)
                           one_feature_row close_1500 Z.of_nat 2)) = [2; 3]%Z)
    by (vm_compute; reflexivity).
  destruct (fst (generate_predictions Ta.warming_up (Some predicts_1503)
                   one_feature_row close_1500 Z.of_nat 2))
    as [|r1 [|r2 rest]] eqn:Hpreds; [discriminate Hrun|discriminate Hrun|].
  injection Hrun as H1 H2 _.
  destruct (Hclaim Ta.warming_up (Some predicts_1503) one_feature_row close_1500
              Z.of_nat 2%Z r1 r2) as [_ Heq].
  - rewrite Hpreds. now left.
  - rewrite Hpreds. right. now left.
  - rewrite H1, H2 in Heq. discriminate.
Qed.

End ForecastFacts.

(** ** The model registry (table [model_metadata]) *)
Module RegistryFacts.
Import Py Store AdvancedXGBoostModel.

Lemma upsert_metadata_lookup (metadata : Metadata)
    (tbl : gmap (string * string) Metadata) (key : string * string) :
  upsert_metadata metadata tbl !! key
  = if decide ((model_name metadata, model_version metadata) = key)
    then Some metadata else tbl !! key.
Proof. unfold upsert_metadata. apply lookup_insert. Qed.

(** C9 (as amended).  Persisting the metadata of a training run writes the
    production flag itself: after [save_metadata] of the XGBoost model the
    record of ("advanced_xgboost", "v1.0") is flagged production, whatever
    the table held before; after [save_metadata] of the baseline the record
    of ("baseline_arima", "v1.0") is flagged not production; the records of
    all other versions are left as they were. *)
Theorem save_metadata_writes_production_flag
    (model_metadata : gmap (string * string) Metadata) (now : Z)
    (train_metrics val_metrics : Metrics)
    (training_start training_end training_samples : Z) :
  let advanced :=
    AdvancedXGBoostModel.save_metadata model_metadata now train_metrics val_metrics
      training_start training_end training_samples in
  let baseline :=
    BaselineARIMAModel.save_metadata model_metadata now train_metrics val_metrics
      training_start training_end training_samples in
  (exists md, advanced !! ("advanced_xgboost", "v1.0") = Some md
              /\ is_production md = true /\ status md = "active")
  /\ (forall key, key <> ("advanced_xgboost", "v1.0") ->
                  advanced !! key = model_metadata !! key)
  /\ (exists md, baseline !! ("baseline_arima", "v1.0") = Some md
                 /\ is_production md = false /\ status md = "active")
  /\ (forall key, key <> ("baseline_arima", "v1.0") ->
                  baseline !! key = model_metadata !! key).
Proof.
  intros advanced baseline. unfold advanced, baseline,
    AdvancedXGBoostModel.save_metadata, BaselineARIMAModel.save_metadata.
  split; [|split; [|split]].
  - eexists. rewrite upsert_metadata_lookup. cbn [model_name model_version].
    rewrite decide_True by reflexivity. split; [reflexivity|]. split; reflexivity.
  - intros key Hkey. rewrite upsert_metadata_lookup. cbn [model_name model_version].
    now rewrite decide_False by (intros E; apply Hkey; now rewrite <- E).
  - eexists. rewrite upsert_metadata_lookup. cbn [model_name model_version].
    rewrite decide_True by reflexivity. split; [reflexivity|]. split; reflexivity.
  - intros key Hkey. rewrite upsert_metadata_lookup. cbn [model_name model_version].
    now rewrite decide_False by (intros E; apply Hkey; now rewrite <- E).
Qed.

Definition no_metrics : Metrics := mkMetrics ∅ ∅ ∅.

(** A registry in which an operator has taken the XGBoost model out of
    production. *)
Definition demoted : Metadata :=
  {| model_name := "advanced_xgboost"; model_version := "v1.0";
     model_type := "XGBoost"; trained_at := 0; training_data_start := 0;
     training_data_end := 0; training_samples := 0; hyperparameters := ∅;
     train_rmse := 0; train_mae := 0; train_r2 := None;
     val_rmse := 0; val_mae := 0; val_r2 := 0; directional_accuracy := 0;
     feature_importance := ∅; status := "active"; is_production := false |}.

Definition registry_with_demoted : gmap (string * string) Metadata :=
  {[ ("advanced_xgboost", "v1.0") := demoted ]}.

(** C9 as stated fails: persisting the metadata of a training run flips the
    production flag of a registered version.  The version that was not in
    production is in production after the run. *)
Lemma training_flips_production_flag :
  ~ (forall (model_metadata : gmap (string * string) Metadata) (now : Z)
            (train_metrics val_metrics : Metrics)
            (training_start training_end training_samples : Z)
            (key : string * string) (before after : Metadata),
        model_metadata !! key = Some before ->
        AdvancedXGBoostModel.save_metadata model_metadata now train_metrics val_metrics
          training_start training_end training_samples !! key = Some after ->
        is_production after = is_production before).
Proof.
  intros Hclaim.
  destruct (AdvancedXGBoostModel.save_metadata registry_with_demoted 0 no_metrics
              no_metrics 0 0 0 !! ("advanced_xgboost", "v1.0")) as [md|] eqn:Hmd.
  - specialize (Hclaim registry_with_demoted 0%Z no_metrics no_metrics 0%Z 0%Z 0%Z
                  ("advanced_xgboost", "v1.0") demoted md eq_refl Hmd).
    unfold AdvancedXGBoostModel.save_metadata in Hmd.
    rewrite upsert_metadata_lookup in Hmd. cbn [model_name model_version] in Hmd.
    rewrite decide_True in Hmd by reflexivity. injection Hmd as <-.
    discriminate Hclaim.
  - unfold AdvancedXGBoostModel.save_metadata in Hmd.
    rewrite upsert_metadata_lookup in Hmd. cbn [model_name model_version] in Hmd.
    rewrite decide_True in Hmd by reflexivity. discriminate Hmd.
Qed.

End RegistryFacts.

(** ** The feature pipeline beyond the claims *)
Module PipelineFacts.
Import Py Pandas Store FeatureEngineer PandasFacts.

(** The rows of a sorted list of (timestamp, bar) pairs. *)
Lemma sort_pairs_keys {A : Type} (key : A -> Z) (l : list A) :
  map key (map snd (sort_pairs (map (fun a => (key a, a)) l)))
  = map fst (sort_pairs (map (fun a => (key a, a)) l)).
Proof.
  assert (H : Forall (fun p => fst p = key (snd p))
                     (sort_pairs (map (fun a => (key a, a)) l))).
  { rewrite sort_pairs_perm. apply Forall_forall. intros p Hp.
    apply list_elem_of_In, in_map_iff in Hp as (a & <- & _). reflexivity. }
  induction H as [|p rest Hp _ IH]; [reflexivity|].
  cbn [map]. now rewrite IH, Hp.
Qed.

Lemma select_bars_perm (tbl : list Bar) (sym : string) (start : option Z) :
  select_bars tbl sym start
  ≡ₚ List.filter (fun b => bool_decide (symbol b = sym)
                           && match start with
                              | Some t => (t <=? timestamp b)%Z
                              | None => true
                              end) tbl.
Proof.
  unfold select_bars. rewrite sort_pairs_perm, List.map_map. cbn [snd].
  now rewrite List.map_id.
Qed.

Lemma select_bars_sorted (tbl : list Bar) (sym : string) (start : option Z) :
  StronglySorted Z.le (map timestamp (select_bars tbl sym start)).
Proof.
  unfold select_bars. rewrite sort_pairs_keys.
  apply sorted_keys, sort_pairs_sorted.
Qed.

Lemma frame_of_bars_times (rows : list Bar) :
  times (frame_of_bars rows) "timestamp" = Some (map timestamp rows).
Proof. reflexivity. Qed.

(** X1.  [fetch_market_data] returns the bars of the symbol that are not
    older than [days_back] days, all of them and nothing else, in ascending
    order of the timestamp; when there is none it returns the empty frame
    and logs the warning. *)
Theorem fetch_market_data_ascending (market_data_raw : list Bar) (now : Z)
    (sym : string) (days_back : Z) :
  let recent b := bool_decide (symbol b = sym)
                  && (now - days_back * 86400 <=? timestamp b)%Z in
  let out := fetch_market_data market_data_raw now sym days_back in
  (List.filter recent market_data_raw = []
   /\ out = (empty_frame, [(WARNING, NoDataFound sym)]))
  \/ (exists ts,
        times (fst out) "timestamp" = Some ts
        /\ snd out = []
        /\ nrows (fst out) = length ts
        /\ StronglySorted Z.le ts
        /\ ts ≡ₚ map timestamp (List.filter recent market_data_raw)).
Proof.
  cbv zeta. unfold fetch_market_data.
  pose proof (select_bars_perm market_data_raw sym (Some (now - days_back * 86400)%Z))
    as Hperm.
  pose proof (select_bars_sorted market_data_raw sym (Some (now - days_back * 86400)%Z))
    as Hsorted.
  destruct (select_bars market_data_raw sym (Some (now - days_back * 86400)%Z))
    as [|b rows] eqn:Hsel.
  - left. split; [|reflexivity]. symmetry in Hperm.
    now apply Permutation_nil_r in Hperm.
  - right. exists (map timestamp (b :: rows)). cbn [fst snd].
    split; [apply frame_of_bars_times|]. split; [reflexivity|].
    split; [now rewrite length_map|]. split; [exact Hsorted|].
    now rewrite Hperm.
Qed.

(** *** Blocks of statements under [try] *)

Lemma try_steps_invariant (P : DataFrame -> Prop) (where_ : string)
    (steps : list step) (df : DataFrame) :
  Forall (fun s => forall d d', P d -> s d = Some d' -> P d') steps ->
  P df -> P (fst (try_steps where_ steps df)).
Proof.
  intros Hsteps. revert df. induction Hsteps as [|s rest Hs _ IH]; intros df Hdf.
  - exact Hdf.
  - cbn [try_steps]. destruct (s df) as [df'|] eqn:Hrun.
    + apply IH. now apply (Hs df df').
    + exact Hdf.
Qed.

Lemma try_steps_log (where_ : string) (steps : list step) (df : DataFrame) :
  snd (try_steps where_ steps df) = []
  \/ snd (try_steps where_ steps df) = [(ERROR, ErrorIn where_)].
Proof.
  revert df. induction steps as [|s rest IH]; intros df.
  - now left.
  - cbn [try_steps]. destruct (s df) as [df'|]; [apply IH|now right].
Qed.

(** A statement that assigns the column [name] and nothing else. *)
Definition assigns (name : string) (s : step) : Prop :=
  forall d d', s d = Some d' ->
    nrows d' = nrows d
    /\ forall name', name' <> name -> columns d' !! name' = columns d !! name'.

Lemma derive_assigns (name src : string) (f : list float -> option (list float)) :
  assigns name (derive name src f).
Proof.
  intros d d'. unfold derive.
  destruct (floats d src) as [xs|]; [|discriminate]. cbn.
  destruct (f xs) as [ys|]; [|discriminate]. cbn. intros [= <-].
  split; [reflexivity|]. intros name' Hne. now rewrite columns_assign_ne.
Qed.

(** The frame of a block whose statements assign columns of [names] only. *)
Lemma try_steps_frame (where_ : string) (names : list string)
    (steps : list step) (df : DataFrame) :
  Forall (fun s => exists name, In name names /\ assigns name s) steps ->
  nrows (fst (try_steps where_ steps df)) = nrows df
  /\ forall name, ~ In name names ->
       columns (fst (try_steps where_ steps df)) !! name = columns df !! name.
Proof.
  intros Hsteps.
  apply (try_steps_invariant
           (fun d => nrows d = nrows df
                     /\ forall name, ~ In name names ->
                          columns d !! name = columns df !! name)).
  - eapply Forall_impl; [exact Hsteps|]. cbv beta.
    intros s (name & Hname & Hs) d d' [Hn Hsame] Hrun.
    destruct (Hs d d' Hrun) as [Hn' Hsame']. split; [congruence|].
    intros name' Hname'. rewrite Hsame' by (intros ->; tauto). now apply Hsame.
  - split; [reflexivity|]. intros; reflexivity.
Qed.

Definition technical_names : list string :=
  ["sma_5"; "sma_20"; "sma_50"; "ema_12"; "ema_26"; "rsi_14";
   "macd"; "macd_signal"; "macd_histogram";
   "bollinger_upper"; "bollinger_middle"; "bollinger_lower"; "atr_14"; "obv"].

Lemma technical_tail_frame (lib : Ta.Library) (df : DataFrame) :
  let tail_names := ["ema_12"; "ema_26"; "rsi_14"; "macd"; "macd_signal";
                     "macd_histogram"; "bollinger_upper"; "bollinger_middle";
                     "bollinger_lower"; "atr_14"; "obv"] in
  forall c,
    floats df "close" = Some c ->
    exists R l,
      calculate_technical_indicators lib df = (R, l)
      /\ (l = [] \/ l = [(ERROR, ErrorIn "calculating technical indicators")])
      /\ nrows R = nrows df
      /\ columns R !! "sma_5" = Some (FloatCol (Ta.sma_indicator c 5))
      /\ columns R !! "sma_20" = Some (FloatCol (Ta.sma_indicator c 20))
      /\ columns R !! "sma_50" = Some (FloatCol (Ta.sma_indicator c 50))
      /\ forall name, ~ In name technical_names ->
           columns R !! name = columns df !! name.
Proof.
  intros tail_names c Hc. unfold calculate_technical_indicators.
  erewrite RegimeFacts.try_steps_cons
    by (unfold derive; rewrite Hc; reflexivity).
  erewrite RegimeFacts.try_steps_cons
    by (unfold derive; rewrite floats_assign_ne by discriminate; rewrite Hc; reflexivity).
  erewrite RegimeFacts.try_steps_cons
    by (unfold derive; rewrite !floats_assign_ne by discriminate; rewrite Hc;
        reflexivity).
  match goal with |- context [try_steps ?w ?steps ?d] =>
    assert (Hall : Forall (fun s => exists name, In name tail_names /\ assigns name s)
                          steps);
    [|pose proof (try_steps_frame w tail_names steps d Hall) as [Hn Hsame];
      pose proof (try_steps_log w steps d) as Hlog;
      destruct (try_steps w steps d) as [R l]] end.
  { repeat constructor;
      try (eexists; split; [|apply derive_assigns]; simpl; tauto).
    - exists "atr_14". split; [simpl; tauto|]. intros d d'.
      destruct (floats d "high"); [|discriminate]. cbn.
      destruct (floats d "low"); [|discriminate]. cbn.
      destruct (floats d "close"); [|discriminate]. cbn.
      destruct (Ta.average_true_range lib _ _ _ _); [|discriminate]. cbn.
      intros [= <-]. split; [reflexivity|].
      intros name' Hne. now rewrite columns_assign_ne.
    - exists "obv". split; [simpl; tauto|]. intros d d'.
      destruct (floats d "close"); [|discriminate]. cbn.
      destruct (floats d "volume"); [|discriminate]. cbn.
      destruct (Ta.on_balance_volume lib _ _); [|discriminate]. cbn.
      intros [= <-]. split; [reflexivity|].
      intros name' Hne. now rewrite columns_assign_ne. }
  cbn [fst snd] in Hn, Hsame, Hlog.
  exists R, l. split; [reflexivity|]. split; [exact Hlog|].
  split; [rewrite Hn; reflexivity|].
  split; [rewrite Hsame by (simpl; intuition discriminate);
          rewrite !columns_assign_ne by discriminate; apply columns_assign_eq|].
  split; [rewrite Hsame by (simpl; intuition discriminate);
          rewrite !columns_assign_ne by discriminate; apply columns_assign_eq|].
  split; [rewrite Hsame by (simpl; intuition discriminate); apply columns_assign_eq|].
  intros name Hname. rewrite Hsame by (simpl in *; tauto).
  rewrite !columns_assign_ne by (intros <-; simpl in Hname; tauto). reflexivity.
Qed.

(** X2.  Whatever the indicator library does (each call may raise),
    [calculate_technical_indicators] on a frame with a float close column
    keeps the rows and every column that is no indicator, has set the three
    simple moving averages, and logs at most its one error. *)
Theorem technical_indicators_keep_sma (lib : Ta.Library) (df : DataFrame)
    (c : list float) :
  floats df "close" = Some c ->
  let out := calculate_technical_indicators lib df in
  nrows (fst out) = nrows df
  /\ floats (fst out) "sma_5" = Some (Ta.sma_indicator c 5)
  /\ floats (fst out) "sma_20" = Some (Ta.sma_indicator c 20)
  /\ floats (fst out) "sma_50" = Some (Ta.sma_indicator c 50)
  /\ (forall name, ~ In name technical_names ->
        columns (fst out) !! name = columns df !! name)
  /\ (snd out = [] \/ snd out = [(ERROR, ErrorIn "calculating technical indicators")]).
Proof.
  intros Hc. cbv zeta.
  destruct (technical_tail_frame lib df c Hc)
    as (R & l & -> & Hl & Hn & H5 & H20 & H50 & Hsame).
  cbn [fst snd]. unfold floats. rewrite H5, H20, H50. auto 10.
Qed.

Definition no_volume : DataFrame :=
  mkDF 2 (list_to_map [("close", FloatCol [Some 100%Q; Some 101%Q])]).

Lemma technical_indicators_keep_sma_witness :
  nrows (fst (calculate_technical_indicators Ta.warming_up no_volume)) = 2%nat
  /\ floats (fst (calculate_technical_indicators Ta.warming_up no_volume)) "sma_5"
     = Some (Ta.sma_indicator [Some 100%Q; Some 101%Q] 5)
  /\ snd (calculate_technical_indicators Ta.warming_up no_volume)
     = [(ERROR, ErrorIn "calculating technical indicators")].
Proof.
  destruct (technical_indicators_keep_sma Ta.warming_up no_volume
              [Some 100%Q; Some 101%Q] eq_refl) as (Hn & H5 & _).
  split; [exact Hn|]. split; [exact H5|]. vm_compute. reflexivity.
Defined.

(** *** The regime of the engineered frame *)

Lemma price_features_frame (lib : Ta.Library) (df : DataFrame) (c : list float) :
  floats df "close" = Some c ->
  exists R,
    calculate_price_features lib df = (R, [])
    /\ nrows R = nrows df
    /\ floats R "volatility_20d" = Some (Ta.rolling_std lib 20 (pct_change 1 c))
    /\ forall name,
         ~ In name ["returns_1d"; "returns_5d"; "returns_20d"; "volatility_20d"] ->
         columns R !! name = columns df !! name.
Proof.
  intros Hc. unfold calculate_price_features.
  erewrite RegimeFacts.try_steps_cons
    by (unfold derive; rewrite Hc; reflexivity).
  erewrite RegimeFacts.try_steps_cons
    by (unfold derive; rewrite floats_assign_ne by discriminate; rewrite Hc; reflexivity).
  erewrite RegimeFacts.try_steps_cons
    by (unfold derive; rewrite !floats_assign_ne by discriminate; rewrite Hc;
        reflexivity).
  erewrite RegimeFacts.try_steps_cons
    by (unfold derive; rewrite !floats_assign_ne by discriminate;
        rewrite floats_assign_eq; reflexivity).
  eexists. split; [reflexivity|]. split; [reflexivity|].
  split; [apply floats_assign_eq|].
  intros name Hname. simpl in Hname.
  rewrite !columns_assign_ne by (intros <-; tauto). reflexivity.
Qed.

Lemma volume_features_frame (df : DataFrame) :
  exists R l,
    calculate_volume_features df = (R, l)
    /\ (l = [] \/ l = [(ERROR, ErrorIn "calculating volume features")])
    /\ nrows R = nrows df
    /\ forall name, ~ In name ["volume_sma_20"; "volume_ratio"] ->
         columns R !! name = columns df !! name.
Proof.
  unfold calculate_volume_features.
  match goal with |- context [try_steps ?w ?steps ?d] =>
    assert (Hall : Forall (fun s => exists name,
                             In name ["volume_sma_20"; "volume_ratio"] /\ assigns name s)
                          steps);
    [|pose proof (try_steps_frame w _ steps d Hall) as [Hn Hsame];
      pose proof (try_steps_log w steps d) as Hlog;
      destruct (try_steps w steps d) as [R l]] end.
  { repeat constructor.
    - exists "volume_sma_20". split; [simpl; tauto|apply derive_assigns].
    - exists "volume_ratio". split; [simpl; tauto|]. intros d d'.
      destruct (floats d "volume"); [|discriminate]. cbn.
      destruct (floats d "volume_sma_20"); [|discriminate]. cbn.
      intros [= <-]. split; [reflexivity|].
      intros name' Hne. now rewrite columns_assign_ne. }
  exists R, l. auto.
Qed.

Definition sector_names : list string :=
  ["close"; "close_index"; "correlation_nifty_bank"; "relative_strength_sector";
   "correlation_banking_peers"].

(** The sector merge re-indexes the columns of the primary frame and adds
    columns of its own. *)
Lemma sector_features_floats (lib : Ta.Library) (df_primary df_index : DataFrame)
    (df_peers : list DataFrame) (out : DataFrame) (name : string) (xs : list float) :
  sector_features lib df_primary df_index df_peers = Some out ->
  floats df_primary name = Some xs ->
  ~ In name sector_names ->
  exists idx, floats out name = Some (gather None xs idx) /\ nrows out = length idx.
Proof.
  intros Hrun Hxs Hname. unfold sector_features in Hrun.
  apply bind_Some in Hrun as (merged & Hmerge & Hrun).
  unfold merge_close in Hmerge.
  apply bind_Some in Hmerge as (rts & _ & Hmerge).
  apply bind_Some in Hmerge as (rclose & _ & Hmerge).
  apply bind_Some in Hmerge as (lts & _ & Hmerge).
  cbv zeta in Hmerge. injection Hmerge as <-.
  apply bind_Some in Hrun as (r1 & _ & Hrun).
  apply bind_Some in Hrun as (ci & _ & Hrun).
  cbv zeta in Hrun.
  apply bind_Some in Hrun as (c & _ & Hrun).
  apply bind_Some in Hrun as (ci' & _ & Hrun).
  exists (map fst (left_pairs lts rts)).
  assert (Hn1 : (if has_col df_primary "close" then "close" +:+ "_index" else "close")
                <> name).
  { intros <-. apply Hname. destruct (has_col df_primary "close"); simpl; tauto. }
  assert (Hn2 : "correlation_nifty_bank" <> name) by (intros <-; simpl in Hname; tauto).
  assert (Hn3 : "relative_strength_sector" <> name) by (intros <-; simpl in Hname; tauto).
  assert (Hn4 : "correlation_banking_peers" <> name) by (intros <-; simpl in Hname; tauto).
  destruct df_peers as [|peer_df peers'].
  - injection Hrun as <-.
    rewrite !floats_assign_ne by assumption. rewrite floats_take, Hxs.
    split; [reflexivity|]. reflexivity.
  - apply bind_Some in Hrun as (peer_returns & _ & Hrun).
    cbv zeta in Hrun.
    apply bind_Some in Hrun as (r1' & _ & Hrun).
    injection Hrun as <-.
    rewrite !floats_assign_ne by assumption. rewrite floats_take, Hxs.
    split; [reflexivity|]. reflexivity.
Qed.

(** X3.  When the primary frame has a float close column, the frame that
    [engineer_features] stores always has a regime label in every row, one
    of the four, and no error of the regime classifier is logged: whatever
    the indicator library, the index frame and the peer frames are. *)
Theorem engineered_frame_is_classified (lib : Ta.Library)
    (df_primary df_index : DataFrame) (df_peers : list DataFrame) (c : list float) :
  floats df_primary "close" = Some c ->
  let out := engineered_frame lib df_primary df_index df_peers in
  (exists labels,
     columns (fst out) !! "regime_classification" = Some (StrCol labels)
     /\ length labels = nrows (fst out)
     /\ forall i, (i < nrows (fst out))%nat ->
          exists r, labels !! i = Some (Some r)
                    /\ In r AdvancedXGBoostModel.all_regimes)
  /\ ~ In (ERROR, ErrorIn "classifying regime") (snd out).
Proof.
  intros Hc. cbv zeta. unfold engineered_frame.
  destruct (technical_tail_frame lib df_primary c Hc)
    as (df1 & l1 & -> & Hl1 & Hn1 & H5 & H20 & H50 & Hsame1).
  assert (Hc1 : floats df1 "close" = Some c).
  { unfold floats. rewrite Hsame1 by (simpl; intuition discriminate). exact Hc. }
  destruct (price_features_frame lib df1 c Hc1) as (df2 & -> & Hn2 & Hvol2 & Hsame2).
  destruct (volume_features_frame df2) as (df3 & l3 & -> & Hl3 & Hn3 & Hsame3).
  assert (Hfloats3 : forall name, In name ["sma_5"; "sma_20"; "sma_50"; "volatility_20d"] ->
                       is_Some (floats df3 name)).
  { intros name Hname. unfold floats. rewrite Hsame3 by (simpl in *; intuition (subst; discriminate)).
    simpl in Hname. destruct Hname as [<-|[<-|[<-|[<-|[]]]]].
    - rewrite Hsame2 by (simpl; intuition discriminate). rewrite H5. eauto.
    - rewrite Hsame2 by (simpl; intuition discriminate). rewrite H20. eauto.
    - rewrite Hsame2 by (simpl; intuition discriminate). rewrite H50. eauto.
    - unfold floats in Hvol2. destruct (columns df2 !! "volatility_20d") as [[]|];
        try discriminate. eauto. }
  assert (Hsector : exists df4 l4,
            (if df_empty df_index then (df3, [])
             else calculate_sector_features lib df3 df_index df_peers) = (df4, l4)
            /\ (l4 = [] \/ l4 = [(ERROR, ErrorIn "calculating sector features")])
            /\ forall name, In name ["sma_5"; "sma_20"; "sma_50"; "volatility_20d"] ->
                 is_Some (floats df4 name)).
  { destruct (df_empty df_index); [exists df3, []; auto|].
    unfold calculate_sector_features.
    destruct (sector_features lib df3 df_index df_peers) as [merged|] eqn:Hrun.
    - exists merged, []. split; [reflexivity|]. split; [now left|].
      intros name Hname. destruct (Hfloats3 name Hname) as [xs Hxs].
      destruct (sector_features_floats lib df3 df_index df_peers merged name xs Hrun Hxs)
        as (idx & -> & _); [|eauto].
      simpl in Hname |- *. intuition (subst; discriminate).
    - eexists df3, _. split; [reflexivity|]. auto. }
  destruct Hsector as (df4 & l4 & -> & Hl4 & Hfloats4).
  destruct (Hfloats4 "sma_5") as [s5 Hs5]; [simpl; tauto|].
  destruct (Hfloats4 "sma_20") as [s20 Hs20]; [simpl; tauto|].
  destruct (Hfloats4 "sma_50") as [s50 Hs50]; [simpl; tauto|].
  destruct (Hfloats4 "volatility_20d") as [vol Hvol]; [simpl; tauto|].
  destruct (RegimeFacts.classify_regime_columns df4 s5 s20 s50 vol
              (floats_numeric _ _ _ Hs5) (floats_numeric _ _ _ Hs20)
              (floats_numeric _ _ _ Hs50) (floats_numeric _ _ _ Hvol))
    as (R & -> & HnR & Hcls & _).
  cbn [fst snd]. split.
  - eexists. split; [exact Hcls|]. rewrite tabulate_length. split; [congruence|].
    intros i Hi. exists (RegimeFacts.spec_regime s5 s20 s50 vol i).
    split; [rewrite tabulate_lookup by lia; reflexivity|].
    apply RegimeFacts.spec_regime_cases.
  - rewrite !in_app_iff. simpl.
    destruct Hl1 as [-> | ->], Hl3 as [-> | ->], Hl4 as [-> | ->]; simpl;
      intuition discriminate.
Qed.

Lemma engineered_frame_is_classified_witness :
  exists labels,
    columns (fst (engineered_frame Ta.warming_up no_volume empty_frame []))
      !! "regime_classification" = Some (StrCol labels)
    /\ length labels = 2%nat
    /\ labels !! 0%nat = Some (Some "ranging").
Proof.
  destruct (engineered_frame_is_classified Ta.warming_up no_volume empty_frame []
              [Some 100%Q; Some 101%Q] eq_refl) as [(labels & Hcol & Hlen & _) _].
  exists labels. split; [exact Hcol|].
  assert (Heval : columns (fst (engineered_frame Ta.warming_up no_volume empty_frame []))
                    !! "regime_classification"
                  = Some (StrCol [Some "ranging"; Some "ranging"]))
    by (vm_compute; reflexivity).
  rewrite Heval in Hcol. injection Hcol as <-. split; reflexivity.
Defined.

(** X4.  [classify_regime] labels a row 'ranging' whenever its 50-day
    average is still undefined: on each of the first 49 rows, whatever the
    prices are, because a comparison with NaN is false and 'ranging' is the
    default of the selection. *)
Theorem warm_up_rows_are_ranging (df : DataFrame) (close s5 s20 vol : list float)
    (i : nat) :
  floats df "sma_5" = Some s5 ->
  floats df "sma_20" = Some s20 ->
  floats df "sma_50" = Some (Ta.sma_indicator close 50) ->
  floats df "volatility_20d" = Some vol ->
  (i < nrows df)%nat -> (i < 49)%nat ->
  exists labels,
    columns (fst (classify_regime df)) !! "regime_classification" = Some (StrCol labels)
    /\ labels !! i = Some (Some "ranging").
Proof.
  intros H5 H20 H50 Hvol Hi Hwarm.
  destruct (RegimeFacts.classify_regime_columns df s5 s20 _ vol
              (floats_numeric _ _ _ H5) (floats_numeric _ _ _ H20)
              (floats_numeric _ _ _ H50) (floats_numeric _ _ _ Hvol))
    as (R & -> & _ & Hcls & _).
  cbn [fst]. eexists. split; [exact Hcls|].
  rewrite tabulate_lookup by exact Hi. do 2 f_equal.
  unfold RegimeFacts.spec_regime. cbv zeta.
  rewrite FeatureFacts.sma_warm_up by lia.
  unfold rolling_mean. rewrite (rolling_warm_up _ 50 vol i) by lia.
  unfold flt, fgt, fmul, lift2, fsub, fabs, fdiv_gt.
  destruct (cell s5 i), (cell s20 i), (cell vol i); cbn;
    rewrite ?andb_false_r; reflexivity.
Qed.

Definition rising_closes : DataFrame :=
  mkDF 1 (list_to_map [("sma_5", FloatCol [Some 110%Q]);
                       ("sma_20", FloatCol [Some 105%Q]);
                       ("sma_50", FloatCol (Ta.sma_indicator [Some 100%Q] 50));
                       ("volatility_20d", FloatCol [Some (1 # 100)])]).

Lemma warm_up_rows_are_ranging_witness :
  exists labels,
    columns (fst (classify_regime rising_closes)) !! "regime_classification"
      = Some (StrCol labels)
    /\ labels !! 0%nat = Some (Some "ranging").
Proof.
  apply (warm_up_rows_are_ranging rising_closes [Some 100%Q] [Some 110%Q]
           [Some 105%Q] [Some (1 # 100)] 0); try reflexivity; simpl; lia.
Defined.

(** X5.  On a frame that has the moving averages as float columns but no
    column [volatility_20d], [classify_regime] fails at its last statement:
    it logs its error and returns the frame with the three trend columns
    written and the regime column as it was before the call. *)
Theorem classify_regime_without_volatility (df : DataFrame) (s5 s20 s50 : list float) :
  floats df "sma_5" = Some s5 ->
  floats df "sma_20" = Some s20 ->
  floats df "sma_50" = Some s50 ->
  columns df !! "volatility_20d" = None ->
  let out := classify_regime df in
  snd out = [(ERROR, ErrorIn "classifying regime")]
  /\ nrows (fst out) = nrows df
  /\ is_Some (bools (fst out) "trend_up")
  /\ is_Some (bools (fst out) "trend_down")
  /\ is_Some (floats (fst out) "trend_strength")
  /\ columns (fst out) !! "regime_classification"
     = columns df !! "regime_classification".
Proof.
  intros H5 H20 H50 Hvol. cbv zeta. unfold classify_regime.
  apply floats_numeric in H5, H20, H50.
  assert (Hnone : numeric df "volatility_20d" = None)
    by (unfold numeric; now rewrite Hvol).
  erewrite RegimeFacts.try_steps_cons
    by (cbv beta; RegimeFacts.frame_lookup; rewrite H5, H20, H50; reflexivity).
  erewrite RegimeFacts.try_steps_cons
    by (cbv beta; RegimeFacts.frame_lookup; rewrite H5, H20, H50; reflexivity).
  erewrite RegimeFacts.try_steps_cons
    by (cbv beta; RegimeFacts.frame_lookup; rewrite H5, H50; reflexivity).
  cbn [try_steps]. RegimeFacts.frame_lookup. rewrite H5, H50, Hnone. cbn.
  split; [reflexivity|]. split; [reflexivity|].
  RegimeFacts.frame_lookup. split; [eauto|]. split; [eauto|]. split; [eauto|].
  rewrite !lookup_insert_ne by discriminate. reflexivity.
Qed.

Definition averages_only : DataFrame :=
  mkDF 1 (list_to_map [("sma_5", FloatCol [Some 110%Q]);
                       ("sma_20", FloatCol [Some 105%Q]);
                       ("sma_50", FloatCol [Some 100%Q])]).

Lemma classify_regime_without_volatility_witness :
  snd (classify_regime averages_only) = [(ERROR, ErrorIn "classifying regime")]
  /\ columns (fst (classify_regime averages_only)) !! "regime_classification" = None.
Proof.
  destruct (classify_regime_without_volatility averages_only [Some 110%Q]
              [Some 105%Q] [Some 100%Q] eq_refl eq_refl eq_refl eq_refl)
    as (Hlog & _ & _ & _ & _ & Hcol).
  split; [exact Hlog|]. rewrite Hcol. reflexivity.
Defined.

End PipelineFacts.

(** ** The features table *)
Module StorageFacts.
Import Py Pandas Store FeatureEngineer PandasFacts.

Abbreviation table := (gmap (string * Z * string) (gmap string value)).

(** The table after the upsert of keyed records, one after the other. *)
Definition upserted (tbl : table) (rows : list ((string * Z * string) * gmap string value))
  : table :=
  foldl (fun t kr => <[fst kr := snd kr]> t) tbl rows.

Lemma upserted_other (rows : list ((string * Z * string) * gmap string value))
    (tbl : table) (k : string * Z * string) :
  ~ In k (map fst rows) -> upserted tbl rows !! k = tbl !! k.
Proof.
  revert tbl. induction rows as [|[k' r] rows IH]; intros tbl Hk; [reflexivity|].
  cbn [upserted foldl fst snd]. fold (upserted (<[k' := r]> tbl) rows).
  rewrite IH by (intros Hin; apply Hk; now right).
  apply lookup_insert_ne. intros ->. apply Hk. now left.
Qed.

Lemma upserted_last (rows : list ((string * Z * string) * gmap string value))
    (tbl : table) (i : nat) (k : string * Z * string) (r : gmap string value) :
  rows !! i = Some (k, r) ->
  (forall j, (i < j)%nat -> map fst rows !! j <> Some k) ->
  upserted tbl rows !! k = Some r.
Proof.
  revert tbl i. induction rows as [|[k' r'] rows IH]; intros tbl i Hi Hlast;
    [discriminate|].
  cbn [upserted foldl fst snd]. fold (upserted (<[k' := r']> tbl) rows).
  destruct i as [|i].
  - injection Hi as -> ->. rewrite upserted_other; [apply lookup_insert_eq|].
    intros Hin. apply list_elem_of_In, list_elem_of_lookup in Hin as [j Hj].
    apply (Hlast (S j)); [lia|exact Hj].
  - apply (IH _ i Hi). intros j Hj. apply (Hlast (S j)). lia.
Qed.

Lemma last_occurrence (rows : list ((string * Z * string) * gmap string value))
    (k : string * Z * string) :
  In k (map fst rows) ->
  exists i r, rows !! i = Some (k, r)
              /\ forall j, (i < j)%nat -> map fst rows !! j <> Some k.
Proof.
  induction rows as [|[k' r'] rows IH]; intros Hin; [destruct Hin|].
  destruct (List.in_dec (fun x y => decide (x = y)) k (map fst rows)) as [Hrest|Hrest].
  - destruct (IH Hrest) as (i & r & Hi & Hlast).
    exists (S i), r. split; [exact Hi|].
    intros [|j] Hj; [lia|]. apply Hlast. lia.
  - destruct Hin as [Hk|Hin]; [|contradiction]. cbn [fst] in Hk. subst k'.
    exists 0%nat, r'. split; [reflexivity|].
    intros [|j] Hj; [lia|]. cbn [map lookup]. intros Hj'.
    apply Hrest, list_elem_of_In, list_elem_of_lookup. eauto.
Qed.

Lemma upserted_twice (rows : list ((string * Z * string) * gmap string value))
    (tbl : table) :
  upserted (upserted tbl rows) rows = upserted tbl rows.
Proof.
  apply map_eq. intros k.
  destruct (List.in_dec (fun x y => decide (x = y)) k (map fst rows)) as [Hin|Hout].
  - destruct (last_occurrence rows k Hin) as (i & r & Hi & Hlast).
    now rewrite !(upserted_last rows _ i k r Hi Hlast).
  - now rewrite !upserted_other by exact Hout.
Qed.

(** *** Sanitising keeps the key *)

Lemma sanitize_lookup (r : gmap string value) (key : string) :
  sanitize r !! key = sanitize_value key <$> r !! key.
Proof.
  unfold sanitize. rewrite map_lookup_imap. now destruct (r !! key).
Qed.

Lemma sanitize_value_other (key : string) (v : value) :
  ~ In key bigint_columns -> sanitize_value key v = v.
Proof.
  intros Hkey. destruct v; try reflexivity; cbn [sanitize_value];
    (rewrite bool_decide_eq_false_2; [reflexivity|]);
    intros Hin; now apply Hkey, list_elem_of_In.
Qed.

Lemma feature_key_sanitize (r : gmap string value) :
  feature_key (sanitize r) = feature_key r.
Proof.
  unfold feature_key. rewrite !sanitize_lookup.
  destruct (r !! "symbol") as [v1|], (r !! "timestamp") as [v2|],
    (r !! "feature_version") as [v3|]; cbn [fmap option_fmap option_map];
    rewrite ?sanitize_value_other by (simpl; intuition discriminate); reflexivity.
Qed.

Lemma mapM_feature_key_sanitize (records : list (gmap string value)) :
  mapM feature_key (sanitize <$> records) = mapM feature_key records.
Proof.
  induction records as [|r records IH]; [reflexivity|].
  cbn [fmap list_fmap mapM]. now rewrite feature_key_sanitize, IH.
Qed.

(** *** Batches *)

Lemma mapM_app_Some {A B : Type} (f : A -> option B) (l1 l2 : list A) :
  mapM f (l1 ++ l2) = k1 ← mapM f l1; k2 ← mapM f l2; Some (k1 ++ k2).
Proof.
  induction l1 as [|a l1 IH].
  - cbn. now destruct (mapM f l2).
  - cbn [app mapM]. rewrite IH. destruct (f a); cbn; [|reflexivity].
    destruct (mapM f l1); cbn; [|reflexivity]. now destruct (mapM f l2).
Qed.

Lemma upsert_features_keyed (batch : list (gmap string value)) (tbl : table)
    (keys : list (string * Z * string)) :
  mapM feature_key batch = Some keys ->
  upsert_features batch tbl = Some (upserted tbl (zip keys batch)).
Proof. intros Hkeys. unfold upsert_features. now rewrite Hkeys. Qed.

Lemma upsert_features_unkeyed (batch : list (gmap string value)) (tbl : table) :
  mapM feature_key batch = None -> upsert_features batch tbl = None.
Proof. intros Hkeys. unfold upsert_features. now rewrite Hkeys. Qed.

Lemma batches_of_concat {A : Type} (fuel batch_size : nat) (l : list A) :
  (0 < batch_size)%nat -> (length l <= fuel)%nat ->
  concat (batches_of fuel batch_size l) = l.
Proof.
  intros Hpos. revert l. induction fuel as [|fuel IH]; intros l Hlen.
  - destruct l; [reflexivity|simpl in Hlen; lia].
  - destruct l as [|a l]; [reflexivity|].
    cbn [batches_of concat]. rewrite IH.
    + apply take_drop.
    + rewrite length_drop. simpl in Hlen |- *. lia.
Qed.

(** The batches of keyed records are written one after the other: the
    table is the one of a single upsert of all of them. *)
Lemma upsert_batches_keyed (bs : list (list (gmap string value))) (tbl : table)
    (keys : list (string * Z * string)) :
  mapM feature_key (concat bs) = Some keys ->
  upsert_batches bs tbl = (true, upserted tbl (zip keys (concat bs)), []).
Proof.
  revert tbl keys. induction bs as [|b bs IH]; intros tbl keys Hkeys.
  - cbn in Hkeys. injection Hkeys as <-. reflexivity.
  - cbn [concat] in Hkeys |- *. rewrite mapM_app_Some in Hkeys.
    destruct (mapM feature_key b) as [k1|] eqn:Hk1; [|discriminate].
    destruct (mapM feature_key (concat bs)) as [k2|] eqn:Hk2; [|discriminate].
    cbn in Hkeys. injection Hkeys as <-.
    cbn [upsert_batches]. rewrite (upsert_features_keyed b tbl k1 Hk1).
    rewrite (IH _ k2 eq_refl). do 2 f_equal.
    assert (Hlen : length k1 = length b).
    { apply length_mapM in Hk1. lia. }
    unfold upserted. rewrite zip_with_app by exact Hlen. now rewrite foldl_app.
Qed.

(** X6.  [store_features] on records that all have their key (symbol,
    timestamp and feature_version), for every positive batch size.  When a
    value under obv or volume_sma_20 is one that [int] rejects (a string that
    is no integer literal), the call ends before the first upsert: it returns
    False, logs its error and writes nothing.  Otherwise it succeeds: a key
    that no record has keeps its row, a key of the records holds the
    sanitised record that comes last under it, and storing the same records
    once more changes nothing. *)
Theorem store_features_upserts (records : list (gmap string value))
    (batch_size : nat) (tbl : table) (keys : list (string * Z * string)) :
  mapM feature_key records = Some keys ->
  (0 < batch_size)%nat ->
  (forallb sanitizable records = false ->
     store_features records batch_size tbl
     = (false, tbl, [(ERROR, ErrorIn "storing features")]))
  /\ (forallb sanitizable records = true ->
      exists tbl',
        store_features records batch_size tbl = (true, tbl', [])
        /\ (forall k, ~ In k keys -> tbl' !! k = tbl !! k)
        /\ (forall i k r,
              keys !! i = Some k -> records !! i = Some r ->
              (forall j, (i < j)%nat -> keys !! j <> Some k) ->
              tbl' !! k = Some (sanitize r))
        /\ store_features records batch_size tbl' = (true, tbl', [])).
Proof.
  intros Hkeys Hpos. split.
  { intros Hbad. unfold store_features. now rewrite Hbad. }
  intros Hsan.
  assert (Hlen : length keys = length records).
  { apply length_mapM in Hkeys. lia. }
  assert (Hrun : forall t, store_features records batch_size t
                           = (true, upserted t (zip keys (sanitize <$> records)), [])).
  { intros t. unfold store_features. rewrite Hsan.
    destruct batch_size as [|b]; [lia|].
    cbv zeta.
    pose proof (batches_of_concat (length (sanitize <$> records)) (S b)
                  (sanitize <$> records) Hpos (le_n _)) as Hcat.
    rewrite (upsert_batches_keyed _ t keys); rewrite Hcat; [reflexivity|].
    now rewrite mapM_feature_key_sanitize. }
  assert (Hfst : map fst (zip keys (sanitize <$> records)) = keys).
  { change (map fst ?l) with (fst <$> l). apply fst_zip.
    rewrite length_fmap. lia. }
  exists (upserted tbl (zip keys (sanitize <$> records))).
  split; [apply Hrun|]. split; [|split].
  - intros k Hk. apply upserted_other. now rewrite Hfst.
  - intros i k r Hk Hr Hlast.
    apply (upserted_last _ tbl i k (sanitize r)).
    + rewrite lookup_zip_with, Hk. cbn. now rewrite list_lookup_fmap, Hr.
    + now rewrite Hfst.
  - rewrite Hrun. now rewrite upserted_twice.
Qed.

Definition keyed_record (t : Z) (obv : Q) : gmap string value :=
  list_to_map [("symbol", VStr "HDFCBANK.NS"); ("timestamp", VTime t);
               ("feature_version", VStr "v1"); ("obv", VFloat obv)].

(** A keyed record whose on-balance volume is text. *)
Definition text_volume (t : Z) (obv : string) : gmap string value :=
  list_to_map [("symbol", VStr "HDFCBANK.NS"); ("timestamp", VTime t);
               ("feature_version", VStr "v1"); ("obv", VStr obv)].

Lemma store_features_upserts_witness :
  (exists tbl',
     store_features [keyed_record 0 (5 # 2); keyed_record 86400 7] 1 ∅ = (true, tbl', [])
     /\ tbl' !! ("HDFCBANK.NS", 86400%Z, "v1") = Some (sanitize (keyed_record 86400 7))
     /\ store_features [keyed_record 0 (5 # 2); keyed_record 86400 7] 1 tbl'
        = (true, tbl', []))
  /\ store_features [keyed_record 0 (5 # 2); text_volume 86400 "abc"] 1 ∅
     = (false, ∅, [(ERROR, ErrorIn "storing features")]).
Proof.
  split.
  - destruct (store_features_upserts [keyed_record 0 (5 # 2); keyed_record 86400 7] 1 ∅
                [("HDFCBANK.NS", 0%Z, "v1"); ("HDFCBANK.NS", 86400%Z, "v1")]
                eq_refl (le_n 1)) as [_ Hgood].
    destruct Hgood as (tbl' & Hrun & _ & Hlast & Hagain); [vm_compute; reflexivity|].
    exists tbl'. split; [exact Hrun|]. split; [|exact Hagain].
    apply (Hlast 1%nat); [reflexivity|reflexivity|].
    intros [|[|j]] Hj; [lia|lia|discriminate].
  - destruct (store_features_upserts [keyed_record 0 (5 # 2); text_volume 86400 "abc"] 1 ∅
                [("HDFCBANK.NS", 0%Z, "v1"); ("HDFCBANK.NS", 86400%Z, "v1")]
                eq_refl (le_n 1)) as [Hbad _].
    apply Hbad. vm_compute. reflexivity.
Defined.

(** The batches up to the first record without a key. *)
Lemma upsert_batches_stop (fuel batch_size n : nat)
    (good rest : list (gmap string value)) (bad : gmap string value) (tbl : table)
    (keys : list (string * Z * string)) :
  (0 < batch_size)%nat ->
  mapM feature_key good = Some keys ->
  feature_key bad = None ->
  length good = (n * batch_size)%nat ->
  (length (good ++ bad :: rest) <= fuel)%nat ->
  upsert_batches (batches_of fuel batch_size (good ++ bad :: rest)) tbl
  = (false, upserted tbl (zip keys good), [(ERROR, ErrorIn "storing features")]).
Proof.
  intros Hpos. revert fuel good keys tbl.
  induction n as [|n IH]; intros fuel good keys tbl Hkeys Hbad Hlen Hfuel.
  - destruct good; [|discriminate]. cbn in Hkeys. injection Hkeys as <-.
    destruct fuel as [|fuel]; [simpl in Hfuel; lia|].
    cbn [app batches_of upsert_batches].
    rewrite upsert_features_unkeyed; [reflexivity|].
    destruct batch_size as [|b]; [lia|]. cbn [take mapM]. now rewrite Hbad.
  - destruct fuel as [|fuel]; [rewrite length_app in Hfuel; simpl in Hfuel; lia|].
    assert (Hsplit : good = take batch_size good ++ drop batch_size good)
      by (symmetry; apply take_drop).
    assert (Hlen1 : length (take batch_size good) = batch_size).
    { rewrite length_take. simpl in Hlen. lia. }
    rewrite Hsplit in Hkeys. rewrite mapM_app_Some in Hkeys.
    destruct (mapM feature_key (take batch_size good)) as [k1|] eqn:Hk1; [|discriminate].
    destruct (mapM feature_key (drop batch_size good)) as [k2|] eqn:Hk2; [|discriminate].
    cbn in Hkeys. injection Hkeys as <-.
    assert (Hne : good ++ bad :: rest <> []) by (now destruct good).
    destruct (good ++ bad :: rest) as [|a l] eqn:Hall; [contradiction|].
    cbn [batches_of upsert_batches]. rewrite <- Hall.
    rewrite take_app_le by (simpl in Hlen; lia).
    rewrite drop_app_le by (simpl in Hlen; lia).
    rewrite (upsert_features_keyed _ tbl k1 Hk1).
    rewrite (IH fuel (drop batch_size good) k2 _ Hk2 Hbad).
    + do 2 f_equal. rewrite Hsplit at 3. unfold upserted.
      rewrite zip_with_app by (apply length_mapM in Hk1; lia).
      now rewrite foldl_app.
    + rewrite length_drop. simpl in Hlen. lia.
    + rewrite length_app, length_drop. rewrite <- Hall, length_app in Hfuel.
      simpl in Hfuel, Hlen |- *. lia.
Qed.

(** X7.  [store_features] is not atomic: when every record passes the
    sanitising and a record has no key, the batch it lies in fails and the
    function returns False with its error logged, but the full batches
    before it stay written. *)
Theorem store_features_keeps_earlier_batches
    (good rest : list (gmap string value)) (bad : gmap string value)
    (batch_size n : nat) (tbl : table) (keys : list (string * Z * string)) :
  (0 < batch_size)%nat ->
  forallb sanitizable (good ++ bad :: rest) = true ->
  mapM feature_key good = Some keys ->
  feature_key bad = None ->
  length good = (n * batch_size)%nat ->
  store_features (good ++ bad :: rest) batch_size tbl
  = (false, upserted tbl (zip keys (sanitize <$> good)),
     [(ERROR, ErrorIn "storing features")])
  /\ forall i k r,
       keys !! i = Some k -> good !! i = Some r ->
       (forall j, (i < j)%nat -> keys !! j <> Some k) ->
       upserted tbl (zip keys (sanitize <$> good)) !! k = Some (sanitize r).
Proof.
  intros Hpos Hsan Hkeys Hbad Hlen. split.
  - unfold store_features. rewrite Hsan.
    destruct batch_size as [|b]; [lia|]. cbv zeta.
    rewrite fmap_app, fmap_cons.
    apply (upsert_batches_stop _ (S b) n); try assumption.
    + now rewrite mapM_feature_key_sanitize.
    + now rewrite feature_key_sanitize.
    + now rewrite length_fmap.
    + rewrite <- fmap_cons, <- fmap_app. apply le_n.
  - intros i k r Hk Hr Hlast.
    apply (upserted_last _ tbl i k (sanitize r)).
    + rewrite lookup_zip_with, Hk. cbn. now rewrite list_lookup_fmap, Hr.
    + change (map fst ?l) with (fst <$> l). rewrite fst_zip; [exact Hlast|].
      rewrite length_fmap. apply length_mapM in Hkeys. lia.
Qed.

Definition unkeyed_record : gmap string value :=
  list_to_map [("symbol", VStr "HDFCBANK.NS"); ("feature_version", VStr "v1")].

Lemma store_features_keeps_earlier_batches_witness :
  store_features [keyed_record 0 (5 # 2); unkeyed_record] 1 ∅
  = (false, {[ ("HDFCBANK.NS", 0%Z, "v1") := sanitize (keyed_record 0 (5 # 2)) ]},
     [(ERROR, ErrorIn "storing features")]).
Proof.
  destruct (store_features_keeps_earlier_batches [keyed_record 0 (5 # 2)] []
              unkeyed_record 1 1 ∅ [("HDFCBANK.NS", 0%Z, "v1")]
              (le_n 1)) as [Hrun _]; [vm_compute; reflexivity|reflexivity..|].
  exact Hrun.
Defined.

(** *** What is read back *)

(** [int(value)] drops the fraction, toward zero. *)
Lemma Qtruncate_close (q : Q) :
  (Qabs (inject_Z (Qtruncate q)) <= Qabs q)%Q
  /\ (Qabs (q - inject_Z (Qtruncate q)) < 1)%Q.
Proof.
  unfold Qtruncate. destruct (Qle_bool 0 q) eqn:Hsign.
  - apply Qle_bool_iff in Hsign.
    pose proof (Qfloor_le q) as Hlo. pose proof (Qlt_floor q) as Hhi.
    assert (H0 : (0 <= inject_Z (Qfloor q))%Q).
    { change 0%Q with (inject_Z 0). rewrite <- Zle_Qle.
      apply Qfloor_resp_le in Hsign. exact Hsign. }
    rewrite inject_Z_plus in Hhi. change (inject_Z 1) with 1%Q in Hhi.
    rewrite !Qabs_pos by lra. lra.
  - assert (Hneg : (q < 0)%Q).
    { apply Qnot_le_lt. intros H. apply Qle_bool_iff in H. congruence. }
    pose proof (Qle_ceiling q) as Hhi. pose proof (Qceiling_lt q) as Hlo.
    assert (H0 : (inject_Z (Qceiling q) <= 0)%Q).
    { change 0%Q with (inject_Z 0). rewrite <- Zle_Qle.
      change 0%Z with (Qceiling 0). apply Qceiling_resp_le. lra. }
    unfold Z.sub in Hlo. rewrite inject_Z_plus in Hlo.
    change (inject_Z (- (1))) with (- (1))%Q in Hlo.
    rewrite (Qabs_neg (inject_Z (Qceiling q))) by lra.
    rewrite (Qabs_neg q) by lra. rewrite (Qabs_neg (q - _)) by lra. lra.
Qed.

Lemma stored_value (df : DataFrame) (sym name : string) (xs : list float) (i : nat) :
  floats df name = Some xs -> In name feature_columns ->
  name <> "symbol" -> name <> "feature_version" -> (i < nrows df)%nat ->
  exists r, prepare_features_for_storage df sym !! i = Some r
            /\ r !! name = Some (match cell xs i with
                                 | Some q => VFloat q
                                 | None => VNone
                                 end).
Proof.
  intros Hxs Hname Hns Hnv Hi.
  unfold prepare_features_for_storage. cbv zeta. cbn [nrows assign].
  set (df2 := assign "feature_version" _ (assign "symbol" _ df)).
  eexists. split; [now apply tabulate_lookup|].
  assert (Hcol : columns df2 !! name = Some (FloatCol xs)).
  { unfold df2. rewrite !columns_assign_ne by congruence.
    unfold floats in Hxs. destruct (columns df !! name) as [[]|]; try discriminate.
    now injection Hxs as ->. }
  rewrite (FeatureFacts.record_of_row_lookup df2 _ i name (FloatCol xs)).
  - reflexivity.
  - apply NoDup_ListNoDup, List.NoDup_filter, NoDup_ListNoDup,
      FeatureFacts.feature_columns_NoDup.
  - apply filter_In. split; [exact Hname|]. apply has_col_true. eauto.
  - exact Hcol.
Qed.

(** X8.  What the model reads back from a stored record: the value of a
    float feature of the row, exactly, except for the two BIGINT columns
    obv and volume_sma_20, which come back without their fraction (cut
    toward zero); a NaN comes back as a missing value. *)
Theorem stored_feature_read_back (df : DataFrame) (sym name : string)
    (xs : list float) (i : nat) :
  floats df name = Some xs -> In name feature_columns ->
  name <> "symbol" -> name <> "feature_version" -> (i < nrows df)%nat ->
  exists r,
    (sanitize <$> prepare_features_for_storage df sym) !! i = Some r
    /\ AdvancedXGBoostModel.float_of_value (r !! name)
       = (if bool_decide (name = "obv" \/ name = "volume_sma_20")
          then (fun q => inject_Z (Qtruncate q)) <$> cell xs i
          else cell xs i)
    /\ forall q, cell xs i = Some q ->
         (Qabs (inject_Z (Qtruncate q)) <= Qabs q)%Q
         /\ (Qabs (q - inject_Z (Qtruncate q)) < 1)%Q.
Proof.
  intros Hxs Hname Hns Hnv Hi.
  destruct (stored_value df sym name xs i Hxs Hname Hns Hnv Hi) as (r & Hr & Hv).
  exists (sanitize r). split; [now rewrite list_lookup_fmap, Hr|].
  split; [|intros q _; apply Qtruncate_close].
  rewrite sanitize_lookup, Hv. cbn [fmap option_fmap option_map].
  destruct (cell xs i) as [q|]; cbn [sanitize_value].
  - destruct (bool_decide (name = "obv" \/ name = "volume_sma_20")) eqn:Hbig.
    + apply bool_decide_eq_true in Hbig.
      rewrite bool_decide_eq_true_2; [reflexivity|].
      apply list_elem_of_In. simpl. destruct Hbig as [-> | ->]; auto.
    + apply bool_decide_eq_false in Hbig.
      rewrite bool_decide_eq_false_2; [reflexivity|].
      intros Hin. apply list_elem_of_In in Hin. simpl in Hin. apply Hbig.
      destruct Hin as [<-|[<-|[]]]; auto.
  - now destruct (bool_decide _).
Qed.

Definition fractional_volume : DataFrame :=
  mkDF 1 (list_to_map [("timestamp", TimeCol [0%Z]);
                       ("volume_sma_20", FloatCol [Some (7 # 2)]);
                       ("volume_ratio", FloatCol [Some (7 # 2)])]).

Lemma stored_feature_read_back_witness :
  exists r,
    (sanitize <$> prepare_features_for_storage fractional_volume "HDFCBANK.NS") !! 0%nat
      = Some r
    /\ AdvancedXGBoostModel.float_of_value (r !! "volume_sma_20") = Some (inject_Z 3)
    /\ AdvancedXGBoostModel.float_of_value (r !! "volume_ratio") = Some (7 # 2).
Proof.
  destruct (stored_feature_read_back fractional_volume "HDFCBANK.NS" "volume_sma_20"
              [Some (7 # 2)] 0 eq_refl) as (r & Hr & Hv & _);
    [simpl; tauto|discriminate|discriminate|simpl; lia|].
  exists r. split; [exact Hr|]. split; [exact Hv|].
  assert (Heval : (sanitize <$> prepare_features_for_storage fractional_volume
                                  "HDFCBANK.NS") !! 0%nat
                  ≫= (fun r => r !! "volume_ratio") = Some (VFloat (7 # 2)))
    by (vm_compute; reflexivity).
  rewrite Hr in Heval. cbn in Heval. now rewrite Heval.
Defined.

End StorageFacts.

(** ** The training set *)
Module TrainingFacts.
Import Py Pandas Store AdvancedXGBoostModel PandasFacts DatasetFacts.

Lemma fetch_all_prices_listing (market_data_raw : list Bar) :
  fetch_all_prices market_data_raw
  ≡ₚ List.filter (fun b => bool_decide (symbol b = "HDFCBANK.NS")) market_data_raw
  /\ StronglySorted Z.le (map timestamp (fetch_all_prices market_data_raw)).
Proof.
  unfold fetch_all_prices.
  rewrite fetch_pages_all by (unfold range_size; lia).
  rewrite drop_0. split.
  - rewrite PipelineFacts.select_bars_perm.
    erewrite List.filter_ext; [reflexivity|].
    intros b. apply andb_true_r.
  - apply PipelineFacts.select_bars_sorted.
Qed.

(** X9.  The paging loop of [create_sequences] fetches every price row of
    HDFCBANK.NS, however many pages of 1000 rows that takes, each row once
    and in ascending order of the timestamp. *)
Theorem fetch_all_prices_complete (market_data_raw : list Bar) :
  fetch_all_prices market_data_raw
  ≡ₚ List.filter (fun b => bool_decide (symbol b = "HDFCBANK.NS")) market_data_raw
  /\ StronglySorted Z.le (map timestamp (fetch_all_prices market_data_raw)).
Proof. apply fetch_all_prices_listing. Qed.

(** X10.  When the price table has no row of HDFCBANK.NS, [create_sequences]
    raises KeyError('timestamp') before any join, whatever the features are:
    it is not the error of an empty join, and nothing is logged. *)
Theorem create_sequences_without_prices (fc : list string) (tbl : list Bar)
    (df : DataFrame) (h : Z) :
  (forall b, In b tbl -> symbol b <> "HDFCBANK.NS") ->
  create_sequences fc tbl df h = ([], Raise (KeyError "timestamp")).
Proof.
  intros Hnone. unfold create_sequences.
  assert (Hfilter : List.filter (fun b => bool_decide (symbol b = "HDFCBANK.NS")) tbl = []).
  { induction tbl as [|b tbl IH]; [reflexivity|]. cbn [List.filter].
    rewrite bool_decide_eq_false_2 by (apply Hnone; now left).
    apply IH. intros b' Hb'. apply Hnone. now right. }
  destruct (fetch_all_prices_listing tbl) as [Hperm _].
  rewrite Hfilter in Hperm. apply Permutation_nil_r in Hperm. now rewrite Hperm.
Qed.

Lemma create_sequences_without_prices_witness :
  create_sequences ["sma_5"] FeatureFacts.index_only three_features 1
  = ([], Raise (KeyError "timestamp")).
Proof.
  apply create_sequences_without_prices.
  intros b [<-|[]]. discriminate.
Defined.

(** *** The rows that [dropna] keeps *)

Lemma lookup_all_take (idx : list nat) (df : DataFrame) (names : list string)
    (Xs : list column) :
  lookup_all (df_take idx df) names = Ok Xs ->
  exists cs, lookup_all df names = Ok cs /\ Xs = map (col_take idx) cs.
Proof.
  revert Xs. induction names as [|name names IH]; intros Xs H.
  - injection H as <-. now exists [].
  - cbn [lookup_all] in H |- *.
    apply bind_Ok in H as (c & Hc & H). apply getitem_Ok in Hc.
    apply bind_Ok in H as (cs' & Hcs' & H). injection H as <-.
    rewrite columns_take in Hc.
    destruct (columns df !! name) as [c0|]; [|discriminate].
    injection Hc as <-. destruct (IH _ Hcs') as (cs & -> & ->).
    now exists (c0 :: cs).
Qed.

Lemma col_len_take (idx : list nat) (c : column) : col_len (col_take idx c) = length idx.
Proof. destruct c; apply gather_length. Qed.

Lemma col_isna_take (idx : list nat) (c : column) (k : nat) :
  (k < length idx)%nat ->
  col_isna (col_take idx c) k = col_isna c (nth k idx 0%nat).
Proof.
  intros Hk.
  assert (Hidx : idx !! k = Some (nth k idx 0%nat)).
  { destruct (lookup_lt_is_Some_2 idx k Hk) as [i Hi]. rewrite Hi.
    f_equal. symmetry. now apply nth_lookup_Some. }
  destruct c; try reflexivity; cbn [col_take col_isna].
  - now rewrite (FeatureFacts.cell_gather xs idx k _ Hidx).
  - unfold gather. change (map ?f idx) with (f <$> idx).
    rewrite list_lookup_fmap, Hidx. cbn [fmap option_fmap option_map].
    destruct (ss !! nth k idx 0%nat) as [o|] eqn:Hlook.
    + now rewrite (nth_lookup_Some ss _ None o Hlook).
    + apply lookup_ge_None in Hlook. now rewrite List.nth_overflow by exact Hlook.
Qed.

Lemma complete_rows_increasing (cs : list column) (n : nat) :
  StronglySorted lt (complete_rows cs n).
Proof.
  unfold complete_rows. generalize 0%nat as lo.
  induction n as [|n IH]; intros lo; [constructor|].
  cbn [seq List.filter]. destruct (row_complete cs lo).
  - constructor; [apply IH|]. apply Forall_forall. intros i Hi.
    apply list_elem_of_In, filter_In in Hi as [Hi _]. apply in_seq in Hi. lia.
  - apply IH.
Qed.

Lemma gather_sorted (l : list Z) (idx : list nat) :
  StronglySorted Z.le l -> StronglySorted lt idx ->
  Forall (fun i => (i < length l)%nat) idx ->
  StronglySorted Z.le (gather 0%Z l idx).
Proof.
  intros Hl Hidx. induction Hidx as [|i idx Hidx IH Hi]; intros Hbound; [constructor|].
  apply Forall_cons in Hbound as [Hib Hbound].
  cbn [gather map]. constructor; [now apply IH|].
  apply Forall_forall. intros z Hz.
  apply list_elem_of_In, in_map_iff in Hz as (j & <- & Hj).
  rewrite Forall_forall in Hi, Hbound.
  apply sorted_nth_le; [exact Hl|]. split.
  - now apply Hi, list_elem_of_In.
  - now apply Hbound, list_elem_of_In.
Qed.

(** What a successful [create_sequences] returns: the rows [kept] of the
    joined, sorted frame [J] where no feature and no target is missing. *)
Lemma create_sequences_inv (fc : list string) (tbl : list Bar) (df : DataFrame)
    (h : Z) (l : log) (s : Sequences) :
  create_sequences fc tbl df h = (l, Ok s) ->
  exists fts J cs tgt ts,
    times df "timestamp" = Some fts
    /\ l = []
    /\ lookup_all J fc = Ok cs
    /\ length ts = nrows J
    /\ (nrows J = length (inner_pairs (date_str <$> fts)
                            (date_str <$> (timestamp <$> fetch_all_prices tbl))))%nat
    /\ StronglySorted Z.le (date_str <$> ts)
    /\ let kept := complete_rows (cs ++ [FloatCol tgt]) (nrows J) in
       X s = map (col_take kept) cs
       /\ y s = gather None tgt kept
       /\ timestamps s = gather 0%Z ts kept.
Proof.
  intros Hrun. unfold create_sequences in Hrun.
  destruct (fetch_all_prices tbl) as [|b ps] eqn:Hps; [discriminate|].
  destruct (times df "timestamp") as [fts|] eqn:Hts; [|discriminate].
  set (merged := joined_frame df fts (b :: ps)) in *.
  destruct (nrows merged =? 0)%nat; [discriminate|].
  injection Hrun as <- Hrun.
  apply bind_Ok in Hrun as (J & HJ & Hrun).
  apply bind_Ok in Hrun as (D & HD & Hrun).
  apply bind_Ok in Hrun as (Xs & HXs & Hrun).
  apply bind_Ok in Hrun as (ys & Hy & Hrun). apply getitem_Ok in Hy.
  apply bind_Ok in Hrun as (tss & Htss & Hrun). apply getitem_Ok in Htss.
  injection Hrun as <-. cbn [X y timestamps].
  destruct (with_target_spec _ _ _ HJ) as (keys & closes & Hkeys & Hclose & ->).
  destruct (dropna_spec _ _ _ HD) as (cs0 & Hcs0 & ->).
  rewrite nrows_assign in *.
  pose proof Hclose as Hc0. unfold sort_values in Hc0. rewrite floats_take in Hc0.
  destruct (floats merged "close") as [c0|] eqn:Hc0'; [|discriminate].
  injection Hc0 as Hc0.
  destruct (joined_frame_columns df fts (b :: ps) c0 Hts Hc0') as (Hd & Ht & Hdates & Hn).
  fold merged in Hd, Ht, Hn.
  rewrite Hd in Hkeys. injection Hkeys as <-.
  set (keys := joined_dates fts (b :: ps)) in *. clearbody keys.
  rewrite length_map in Hn.
  set (pairs := inner_pairs (date_str <$> fts) (date_str <$> (timestamp <$> b :: ps))) in *.
  set (idx := map fst pairs) in *.
  assert (Hidx : length idx = length pairs) by apply length_map.
  clearbody idx.
  set (S := sort_values keys merged) in *.
  set (ts := gather 0%Z (gather 0%Z fts idx) (argsort keys)).
  set (targets := shift (- h) closes) in *.
  set (J := assign "target" (FloatCol targets) S) in *.
  assert (Hlen : length keys = length idx).
  { rewrite Hdates. rewrite length_fmap. apply gather_length. }
  assert (HnS : nrows S = length keys).
  { unfold S, sort_values, df_take. simpl. apply argsort_length. }
  assert (HtJ : times J "timestamp" = Some ts).
  { unfold times, J. rewrite columns_assign_ne by discriminate.
    fold (times S "timestamp"). unfold S, sort_values.
    rewrite times_take, Ht. reflexivity. }
  assert (Hsorted : date_str <$> ts = gather 0%Z keys (argsort keys)).
  { unfold ts. rewrite <- date_str_gather. now rewrite <- Hdates. }
  assert (HgJ : columns J !! "target" = Some (FloatCol targets)).
  { unfold J. now rewrite columns_assign_eq. }
  apply lookup_all_app in Hcs0 as (cs & cs2 & -> & Hcs & Hcs2).
  apply lookup_all_single in Hcs2 as (c & -> & Hc).
  rewrite HgJ in Hc. injection Hc as <-.
  change (nrows J) with (nrows S) in *.
  set (kept := complete_rows (cs ++ [FloatCol targets]) (nrows S)) in *.
  destruct (lookup_all_take kept J fc Xs HXs) as (cs' & Hcs' & ->).
  rewrite Hcs in Hcs'. injection Hcs' as <-.
  exists fts, J, cs, targets, ts.
  split; [reflexivity|]. split; [reflexivity|]. split; [exact Hcs|].
  split; [unfold ts; rewrite gather_length, argsort_length; symmetry; exact HnS|].
  split; [change (nrows J) with (nrows S); rewrite HnS, Hlen, Hidx; reflexivity|].
  split; [rewrite Hsorted; apply argsort_sorted|].
  cbv zeta. change (nrows J) with (nrows S). fold kept.
  split; [reflexivity|]. split.
  - rewrite floats_take in Hy. unfold floats in Hy. rewrite HgJ in Hy.
    now injection Hy as <-.
  - rewrite times_take, HtJ in Htss. now injection Htss as <-.
Qed.

(** X11.  The training set that [create_sequences] returns has no missing
    value: the feature columns, the targets and the timestamps have the same
    number of rows, every target is a number, and no feature value of a
    returned row is NaN or None. *)
Theorem create_sequences_complete_samples (fc : list string) (tbl : list Bar)
    (df : DataFrame) (h : Z) (l : log) (s : Sequences) :
  create_sequences fc tbl df h = (l, Ok s) ->
  length (timestamps s) = length (y s)
  /\ length (X s) = length fc
  /\ (forall c, In c (X s) -> col_len c = length (y s))
  /\ (forall k, (k < length (y s))%nat ->
        cell (y s) k <> None
        /\ forall c, In c (X s) -> col_isna c k = false).
Proof.
  intros Hrun.
  destruct (create_sequences_inv fc tbl df h l s Hrun)
    as (fts & J & cs & tgt & ts & _ & _ & Hcs & _ & _ & _ & HX & Hy & Ht).
  set (kept := complete_rows (cs ++ [FloatCol tgt]) (nrows J)) in *.
  rewrite HX, Hy, Ht, !gather_length.
  assert (Hfc : length cs = length fc).
  { clear -Hcs. revert cs Hcs. induction fc as [|name fc IH]; intros cs Hcs.
    - now injection Hcs as <-.
    - cbn [lookup_all] in Hcs. apply bind_Ok in Hcs as (c & _ & Hcs).
      apply bind_Ok in Hcs as (cs' & Hcs' & Hcs). injection Hcs as <-.
      cbn [length]. f_equal. now apply IH. }
  split; [reflexivity|]. split; [now rewrite length_map|]. split.
  - intros c Hc. apply in_map_iff in Hc as (c0 & <- & _). apply col_len_take.
  - intros k Hk.
    assert (Hin : In (nth k kept 0%nat) kept) by now apply nth_In.
    apply complete_rows_spec in Hin as [_ Hall]. split.
    + pose proof (Hall (FloatCol tgt)) as Hna.
      rewrite <- (col_isna_take kept (FloatCol tgt) k Hk) in Hna.
      cbn [col_take col_isna] in Hna.
      intros E. rewrite E in Hna. cbn in Hna.
      discriminate Hna. apply in_or_app. right. now left.
    + intros c Hc. apply in_map_iff in Hc as (c0 & <- & Hc0).
      rewrite col_isna_take by exact Hk. apply Hall, in_or_app. now left.
Qed.

Lemma create_sequences_complete_samples_witness :
  exists s,
    create_sequences ["sma_5"] three_days three_features 1 = ([], Ok s)
    /\ length (timestamps s) = length (y s)
    /\ forall k, (k < length (y s))%nat -> cell (y s) k <> None.
Proof.
  assert (Hrun : exists s, create_sequences ["sma_5"] three_days three_features 1
                           = ([], Ok s)) by (vm_compute; eauto).
  destruct Hrun as [s Hrun]. exists s. split; [exact Hrun|].
  destruct (create_sequences_complete_samples _ _ _ _ _ _ Hrun) as (Hlen & _ & _ & Hrows).
  split; [exact Hlen|]. intros k Hk. now apply Hrows.
Defined.

Lemma timestamps_sorted (fc : list string) (tbl : list Bar)
    (df : DataFrame) (h : Z) (l : log) (s : Sequences) :
  create_sequences fc tbl df h = (l, Ok s) ->
  StronglySorted Z.le (date_str <$> timestamps s).
Proof.
  intros Hrun.
  destruct (create_sequences_inv fc tbl df h l s Hrun)
    as (fts & J & cs & tgt & ts & _ & _ & _ & Hlen & _ & Hsorted & _ & _ & Ht).
  rewrite Ht, <- date_str_gather.
  apply gather_sorted; [exact Hsorted|apply complete_rows_increasing|].
  apply Forall_forall. intros i Hi.
  apply list_elem_of_In, complete_rows_spec in Hi as [Hi _].
  rewrite length_fmap. lia.
Qed.

(** X12.  The rows that [create_sequences] returns are in chronological
    order: the calendar dates of the returned timestamps never decrease, so
    a split by position is a split in time. *)
Theorem create_sequences_chronological (fc : list string) (tbl : list Bar)
    (df : DataFrame) (h : Z) (l : log) (s : Sequences) :
  create_sequences fc tbl df h = (l, Ok s) ->
  StronglySorted Z.le (date_str <$> timestamps s).
Proof. apply timestamps_sorted. Qed.

Lemma create_sequences_chronological_witness :
  exists s,
    create_sequences ["sma_5"] three_days three_features 1 = ([], Ok s)
    /\ StronglySorted Z.le (date_str <$> timestamps s).
Proof.
  assert (Hrun : exists s, create_sequences ["sma_5"] three_days three_features 1
                           = ([], Ok s)) by (vm_compute; eauto).
  destruct Hrun as [s Hrun]. exists s. split; [exact Hrun|].
  exact (create_sequences_chronological _ _ _ _ _ _ Hrun).
Defined.

(** *** One price bar a day *)

Lemma matches_unique (k : Z) (rkeys : list Z) :
  NoDup rkeys -> (length (matches k rkeys) <= 1)%nat.
Proof.
  intros Hnd.
  assert (Hdistinct : NoDup (matches k rkeys)).
  { unfold matches. apply NoDup_ListNoDup, List.NoDup_filter, List.seq_NoDup. }
  destruct (matches k rkeys) as [|j1 [|j2 rest]] eqn:Hm; simpl; try lia.
  exfalso.
  assert (H1 : In j1 (matches k rkeys)) by (rewrite Hm; simpl; auto).
  assert (H2 : In j2 (matches k rkeys)) by (rewrite Hm; simpl; auto).
  apply FeatureFacts.matches_spec in H1 as [Hb1 Hk1].
  apply FeatureFacts.matches_spec in H2 as [Hb2 Hk2].
  apply NoDup_ListNoDup in Hnd.
  assert (Heq : j1 = j2).
  { apply (proj1 (List.NoDup_nth rkeys 0%Z) Hnd); [exact Hb1|exact Hb2|congruence]. }
  subst j2. apply NoDup_cons in Hdistinct as [Hnot _].
  apply Hnot. now left.
Qed.

Lemma inner_pairs_bound (lkeys rkeys : list Z) :
  NoDup rkeys -> (length (inner_pairs lkeys rkeys) <= length lkeys)%nat.
Proof.
  intros Hnd. unfold inner_pairs.
  enough (H : forall rows,
            (length (flat_map (fun i => map (fun j => (i, j))
                                            (matches (nth i lkeys 0%Z) rkeys)) rows)
             <= length rows)%nat)
    by (specialize (H (seq 0 (length lkeys))); now rewrite length_seq in H).
  induction rows as [|i rows IH]; [reflexivity|].
  cbn [flat_map]. rewrite length_app, length_map.
  pose proof (matches_unique (nth i lkeys 0%Z) rkeys Hnd). simpl. lia.
Qed.

(** X13.  When the price table has one bar a day at most, [create_sequences]
    returns no more samples than the feature frame has rows: the join on the
    date matches a feature row with one price row at most. *)
Theorem create_sequences_sample_bound (fc : list string) (tbl : list Bar)
    (df : DataFrame) (h : Z) (fts : list Z) (l : log) (s : Sequences) :
  NoDup (date_str <$> (timestamp <$> fetch_all_prices tbl)) ->
  times df "timestamp" = Some fts ->
  create_sequences fc tbl df h = (l, Ok s) ->
  (length (y s) <= length fts)%nat.
Proof.
  intros Hnd Hts Hrun.
  destruct (create_sequences_inv fc tbl df h l s Hrun)
    as (fts' & J & cs & tgt & ts & Hts' & _ & _ & _ & Hn & _ & _ & Hy & _).
  rewrite Hts in Hts'. injection Hts' as <-.
  rewrite Hy, gather_length. unfold complete_rows.
  etransitivity; [apply List.filter_length_le|].
  rewrite length_seq, Hn.
  etransitivity; [apply inner_pairs_bound; exact Hnd|].
  now rewrite length_fmap.
Qed.

Lemma create_sequences_sample_bound_witness :
  exists s,
    create_sequences ["sma_5"] three_days three_features 1 = ([], Ok s)
    /\ (length (y s) <= 3)%nat.
Proof.
  assert (Hrun : exists s, create_sequences ["sma_5"] three_days three_features 1
                           = ([], Ok s)) by (vm_compute; eauto).
  destruct Hrun as [s Hrun]. exists s. split; [exact Hrun|].
  apply (create_sequences_sample_bound ["sma_5"] three_days three_features 1
           [172800; 0; 86400]%Z [] s); [|reflexivity|exact Hrun].
  apply (bool_decide_unpack _). vm_compute. exact I.
Defined.

(** *** The feature frame of the model *)

Lemma select_features_length (store : gmap (string * Z * string) (gmap string value))
    (sym version : string) (start : option Z) (t : Z) (r : gmap string value) :
  store !! (sym, t, version) = Some r ->
  match start with Some t0 => (t0 <= t)%Z | None => True end ->
  select_features store sym version start <> [].
Proof.
  intros Hrow Hstart Hnil.
  apply (f_equal length) in Hnil. unfold select_features in Hnil.
  rewrite length_map in Hnil.
  rewrite (Permutation_length (sort_pairs_perm _)) in Hnil.
  rewrite length_map in Hnil.
  apply length_zero_iff_nil in Hnil.
  assert (Hin : In ((sym, t, version), r) (map_to_list store)).
  { apply list_elem_of_In, elem_of_map_to_list. exact Hrow. }
  match type of Hnil with List.filter ?f _ = [] =>
    assert (Hhit : f ((sym, t, version), r) = true);
    [|pose proof (proj2 (filter_In f _ _) (conj Hin Hhit)) as Hin'] end.
  - cbn [fst]. rewrite !bool_decide_eq_true_2 by reflexivity.
    destruct start as [t0|]; [|reflexivity]. cbn. now apply Z.leb_le.
  - rewrite Hnil in Hin'. destruct Hin'.
Qed.

(** X14.  [fetch_training_data] finds the features of the symbol whatever
    their age: as soon as the table has one row of the symbol under version
    v1, the returned frame is not empty, and the log holds no error (at most
    the warning that the date filter was dropped). *)
Theorem fetch_training_data_ignores_age
    (store : gmap (string * Z * string) (gmap string value))
    (now : Z) (sym : string) (days_back t : Z) (r : gmap string value) :
  store !! (sym, t, "v1") = Some r ->
  let out := fetch_training_data store now sym days_back in
  df_empty (fst out) = false
  /\ (0 < nrows (fst out))%nat
  /\ (snd out = [] \/ snd out = [(WARNING, NoFeatureData)]).
Proof.
  intros Hrow. cbv zeta. unfold fetch_training_data.
  pose proof (select_features_length store sym "v1" None t r Hrow I) as Hall.
  change FEATURE_VERSION with "v1".
  destruct (select_features store sym "v1" (Some (now - days_back * 86400)%Z))
    as [|r1 rows1].
  - destruct (select_features store sym "v1" None) as [|r2 rows2]; [contradiction|].
    cbn [fst snd]. split; [reflexivity|]. split; [simpl; lia|]. now right.
  - cbn [fst snd]. split; [reflexivity|]. split; [simpl; lia|]. now left.
Qed.

Definition old_feature_row : gmap (string * Z * string) (gmap string value) :=
  {[ ("HDFCBANK.NS", 0%Z, "v1") :=
       list_to_map [("symbol", VStr "HDFCBANK.NS"); ("timestamp", VTime 0);
                    ("feature_version", VStr "v1"); ("sma_5", VFloat 1500)] ]}.

Lemma fetch_training_data_ignores_age_witness :
  df_empty (fst (fetch_training_data old_feature_row 864000000 "HDFCBANK.NS" 730)) = false
  /\ snd (fetch_training_data old_feature_row 864000000 "HDFCBANK.NS" 730)
     = [(WARNING, NoFeatureData)].
Proof.
  destruct (fetch_training_data_ignores_age old_feature_row 864000000 "HDFCBANK.NS"
              730 0 _ eq_refl) as (Hempty & _ & _).
  split; [exact Hempty|]. vm_compute. reflexivity.
Defined.

(** The feature columns of the model on a frame fetched from the store. *)
Definition model_feature_columns : list string :=
  base_feature_columns ++ RegimeFacts.lag_names ++ RegimeFacts.rolling_names
  ++ (regime_column <$> all_regimes).

Lemma prepare_features_fetched (lib : Ta.Library) (r : gmap string value)
    (rows : list (gmap string value)) :
  exists df',
    prepare_features lib (frame_of_features (r :: rows)) = Ok (df', model_feature_columns)
    /\ nrows df' = S (length rows).
Proof.
  assert (H : match prepare_features lib (frame_of_features (r :: rows)) with
              | Ok st => snd st = model_feature_columns
                         /\ nrows (fst st) = S (length rows)
              | Raise _ => False
              end) by (vm_compute; split; reflexivity).
  destruct (prepare_features lib (frame_of_features (r :: rows))) as [[df' fc]|e];
    [|destruct H].
  cbn [fst snd] in H. destruct H as [-> Hn]. eauto.
Qed.

(** X15.  Training and inference prepare the same feature columns: on every
    frame that [fetch_training_data] or [fetch_latest_features] returns and
    that is not empty, [prepare_features] raises nothing, keeps the rows and
    sets [feature_columns] to the same 36 names in the same order (the 22
    base columns, the 8 lags, the 2 rolling statistics and the 4 regime
    flags), whatever the stored values are. *)
Theorem feature_columns_are_fixed (lib : Ta.Library)
    (store : gmap (string * Z * string) (gmap string value))
    (now : Z) (sym : string) (days_back : Z) :
  let training := fst (fetch_training_data store now sym days_back) in
  let latest := fst (PredictionService.fetch_latest_features store now 100) in
  (df_empty training = false ->
     exists df', prepare_features lib training = Ok (df', model_feature_columns)
                 /\ nrows df' = nrows training)
  /\ (df_empty latest = false ->
        exists df', prepare_features lib latest = Ok (df', model_feature_columns)
                    /\ nrows df' = nrows latest)
  /\ length model_feature_columns = 36%nat
  /\ NoDup model_feature_columns.
Proof.
  cbv zeta. split; [|split; [|split]].
  - unfold fetch_training_data.
    destruct (select_features store sym FEATURE_VERSION _) as [|r1 rows1].
    + destruct (select_features store sym FEATURE_VERSION None) as [|r2 rows2].
      * intros H. discriminate H.
      * intros _. apply prepare_features_fetched.
    + intros _. apply prepare_features_fetched.
  - unfold PredictionService.fetch_latest_features.
    destruct (select_features store PredictionService.service_symbol "v1" _)
      as [|r1 rows1].
    + intros H. discriminate H.
    + intros _. apply prepare_features_fetched.
  - reflexivity.
  - apply (bool_decide_unpack _). vm_compute. exact I.
Qed.

(** The regime flags of a frame that has a label column. *)
Lemma prepare_features_flags (lib : Ta.Library) (df : DataFrame)
    (labels : list (option string)) :
  columns df !! "regime_classification" = Some (StrCol labels) ->
  (forall c, In c lag_features -> has_col df c = true -> is_Some (numeric df c)) ->
  exists df' fc,
    prepare_features lib df = Ok (df', fc)
    /\ nrows df' = nrows df
    /\ forall r, In r all_regimes ->
         In (regime_column r) fc
         /\ ints df' (regime_column r)
            = Some (tabulate (nrows df)
                      (fun i => if bool_decide (nth i labels None = Some r)
                                then 1%Z else 0%Z)).
Proof.
  intros Hcls Hnum. unfold prepare_features.
  destruct (RegimeFacts.add_lags_ok lag_features df base_feature_columns (incl_refl _) Hnum)
    as (df1 & extra1 & -> & Hn1 & Hex1 & Hsame1).
  change (Ok ?st ≫= ?k) with (k st). cbv beta.
  destruct (RegimeFacts.add_rolling_ok lib df1 (base_feature_columns ++ extra1))
    as (df2 & extra2 & -> & Hn2 & Hex2 & Hsame2).
  { unfold has_col, numeric.
    rewrite Hsame1 by (simpl; intuition discriminate).
    apply Hnum. simpl. auto. }
  change (Ok ?st ≫= ?k) with (k st). cbv beta.
  destruct (RegimeFacts.encode_regimes_columns df2
              ((base_feature_columns ++ extra1) ++ extra2) labels)
    as (df3 & -> & Hn3 & Hints).
  { rewrite Hsame2 by (simpl; intuition discriminate).
    rewrite Hsame1 by (simpl; intuition discriminate). exact Hcls. }
  { intros r Hr. now apply RegimeFacts.regime_columns_fresh. }
  assert (Hn : nrows df2 = nrows df) by congruence.
  rewrite Hn in Hints.
  exists df3, (((base_feature_columns ++ extra1) ++ extra2)
               ++ (regime_column <$> all_regimes)).
  split; [reflexivity|]. split; [congruence|].
  intros r Hr. split; [|now apply Hints].
  apply in_or_app. right.
  change (regime_column <$> all_regimes) with (map regime_column all_regimes).
  now apply in_map.
Qed.

(** X16.  A row whose regime label is missing, or is none of the four
    regimes, gets no regime flag from [prepare_features]: the four regime
    columns are created and listed as features, and all four are 0 in that
    row. *)
Theorem unlabelled_row_has_no_regime_flag (lib : Ta.Library) (df : DataFrame)
    (labels : list (option string)) (i : nat) :
  columns df !! "regime_classification" = Some (StrCol labels) ->
  (forall c, In c lag_features -> has_col df c = true -> is_Some (numeric df c)) ->
  (i < nrows df)%nat ->
  (forall r, In r all_regimes -> nth i labels None <> Some r) ->
  exists df' fc,
    prepare_features lib df = Ok (df', fc)
    /\ forall r, In r all_regimes ->
         In (regime_column r) fc
         /\ exists zs, ints df' (regime_column r) = Some zs /\ nth i zs 0%Z = 0%Z.
Proof.
  intros Hcls Hnum Hi Hnone.
  destruct (prepare_features_flags lib df labels Hcls Hnum)
    as (df' & fc & Hrun & _ & Hflags).
  exists df', fc. split; [exact Hrun|].
  intros r Hr. destruct (Hflags r Hr) as [Hin Hints].
  split; [exact Hin|]. eexists. split; [exact Hints|].
  rewrite (tabulate_nth 0%Z) by exact Hi.
  now rewrite bool_decide_eq_false_2 by (now apply Hnone).
Qed.

Definition unlabelled_row : DataFrame :=
  mkDF 1 (list_to_map [("regime_classification", StrCol [None])]).

Lemma unlabelled_row_has_no_regime_flag_witness :
  exists df' fc,
    prepare_features Ta.warming_up unlabelled_row = Ok (df', fc)
    /\ forall r, In r all_regimes ->
         exists zs, ints df' (regime_column r) = Some zs /\ nth 0 zs 0%Z = 0%Z.
Proof.
  destruct (unlabelled_row_has_no_regime_flag Ta.warming_up unlabelled_row [None] 0)
    as (df' & fc & Hrun & Hflags).
  - reflexivity.
  - intros c Hc Hhas. exfalso. simpl in Hc.
    destruct Hc as [<-|[<-|[<-|[<-|[]]]]]; discriminate Hhas.
  - simpl. lia.
  - intros r _. discriminate.
  - exists df', fc. split; [exact Hrun|]. intros r Hr. now apply Hflags.
Defined.

End TrainingFacts.

(** ** The split and the validation metrics *)
Module ValidationFacts.
Import Py Pandas Store AdvancedXGBoostModel PandasFacts DatasetFacts.

Lemma slice_bound_le (n : nat) (k : Z) : (slice_bound n k <= n)%nat.
Proof. unfold slice_bound. destruct (Z.ltb_spec k 0); lia. Qed.

Lemma check_array_Ok (rows : nat) (X : list column) :
  check_array rows X = Ok tt <-> (0 < rows)%nat /\ X <> [].
Proof.
  unfold check_array. destruct rows as [|rows], X as [|c X]; split;
    try discriminate; try (intros [H1 H2]; (lia || congruence));
    intros _; split; (lia || discriminate).
Qed.

Lemma check_array_Raise (rows : nat) (X : list column) :
  rows = 0%nat \/ X = [] -> exists msg, check_array rows X = Raise (ValueError msg).
Proof.
  unfold check_array. intros [-> | ->]; [eauto|]. destruct rows; eauto.
Qed.

(** What a successful [prepare_data] has done. *)
Lemma prepare_data_Ok {S M : Type} (sk : StandardScaler S M) (len_X : nat)
    (X : list column) (y : list float) (train_ratio : Q) (sp : Split S M) :
  prepare_data sk len_X X y train_ratio = Ok sp ->
  exists ts,
    train_size len_X train_ratio = Ok ts
    /\ (0 < slice_bound len_X ts < len_X)%nat
    /\ X <> []
    /\ fit sk (col_rows 0 (slice_bound len_X ts) <$> X) = Ok (scaler sp)
    /\ transform sk (scaler sp) (col_rows 0 (slice_bound len_X ts) <$> X)
       = Ok (X_train_scaled sp)
    /\ transform sk (scaler sp) (col_rows (slice_bound len_X ts) len_X <$> X)
       = Ok (X_val_scaled sp)
    /\ y_train sp = take (slice_bound (length y) ts) y
    /\ y_val sp = drop (slice_bound (length y) ts) y.
Proof.
  unfold prepare_data. intros Hrun.
  apply bind_Ok in Hrun as (ts & Hts & Hrun). cbv zeta in Hrun.
  apply bind_Ok in Hrun as ([] & Hc1 & Hrun).
  apply bind_Ok in Hrun as (s & Hfit & Hrun).
  apply bind_Ok in Hrun as (a & Ha & Hrun).
  apply bind_Ok in Hrun as ([] & Hc2 & Hrun).
  apply bind_Ok in Hrun as (b & Hb & Hrun).
  injection Hrun as <-. cbn [scaler X_train_scaled X_val_scaled y_train y_val].
  apply check_array_Ok in Hc1 as [Hk1 HX1], Hc2 as [Hk2 _].
  exists ts. split; [exact Hts|]. split; [lia|].
  split; [intros ->; now apply HX1|]. auto.
Qed.

(** X17.  [prepare_data] splits by position at [k], the slice bound of
    [int(len(X) * train_ratio)], the product rounded as a float.  When a part
    is empty ([k] is 0 or the number of rows) or there is no feature column,
    the scaler rejects the data and the call raises.  When the
    call returns, both parts have rows, the training targets are the first
    [k] targets and the validation targets the rest, in their order, and the
    scaler is fitted to the training rows of the features only: a change of
    validation rows changes neither the fitted scaler nor the scaled training
    matrix.  It does return when both parts have rows and the scaler accepts
    the three matrices. *)
Theorem prepare_data_split {S M : Type} (sk : StandardScaler S M) (len_X : nat)
    (X : list column) (y : list float) (train_ratio : Q) (ts : Z) :
  length y = len_X ->
  train_size len_X train_ratio = Ok ts ->
  let k := slice_bound len_X ts in
  (k <= len_X)%nat
  /\ (k = 0%nat \/ k = len_X \/ X = [] ->
      exists e, prepare_data sk len_X X y train_ratio = Raise e)
  /\ (forall sp,
        prepare_data sk len_X X y train_ratio = Ok sp ->
        (0 < k < len_X)%nat
        /\ y_train sp = take k y
        /\ y_val sp = drop k y
        /\ y_train sp ++ y_val sp = y
        /\ length (y_train sp) = k
        /\ fit sk (col_rows 0 k <$> X) = Ok (scaler sp)
        /\ transform sk (scaler sp) (col_rows 0 k <$> X) = Ok (X_train_scaled sp)
        /\ transform sk (scaler sp) (col_rows k len_X <$> X) = Ok (X_val_scaled sp)
        /\ forall X' y' sp',
             col_rows 0 k <$> X' = col_rows 0 k <$> X ->
             prepare_data sk len_X X' y' train_ratio = Ok sp' ->
             scaler sp' = scaler sp /\ X_train_scaled sp' = X_train_scaled sp)
  /\ ((0 < k < len_X)%nat -> X <> [] ->
      forall s a b,
        fit sk (col_rows 0 k <$> X) = Ok s ->
        transform sk s (col_rows 0 k <$> X) = Ok a ->
        transform sk s (col_rows k len_X <$> X) = Ok b ->
        prepare_data sk len_X X y train_ratio = Ok (mkSplit s a b (take k y) (drop k y))).
Proof.
  intros Hlen Hts. cbv zeta.
  pose proof (slice_bound_le len_X ts) as Hle.
  split; [exact Hle|]. split; [|split].
  - intros Hempty. unfold prepare_data. rewrite Hts.
    change (Ok ts ≫= ?f) with (f ts). cbv beta zeta.
    destruct (check_array (slice_bound len_X ts) _) as [[]|e] eqn:Hc1; [|eauto].
    apply check_array_Ok in Hc1 as [Hk HX].
    assert (Hfull : slice_bound len_X ts = len_X).
    { destruct Hempty as [H|[H|H]]; [lia|exact H|]. subst X. now contradiction HX. }
    change (Ok () ≫= ?f) with (f tt). cbv beta.
    destruct (fit sk (col_rows 0 (slice_bound len_X ts) <$> X)) as [s|e]; [|eauto].
    change (Ok s ≫= ?f) with (f s). cbv beta.
    destruct (transform sk s (col_rows 0 (slice_bound len_X ts) <$> X)) as [a|e];
      [|eauto].
    change (Ok a ≫= ?f) with (f a). cbv beta.
    rewrite Hfull, Nat.sub_diag. cbn [check_array]. eauto.
  - intros sp Hrun.
    destruct (prepare_data_Ok sk len_X X y train_ratio sp Hrun)
      as (ts' & Hts' & Hk & HX & Hfit & Ha & Hb & Hytr & Hyv).
    rewrite Hts in Hts'. injection Hts' as <-. rewrite Hlen in Hytr, Hyv.
    split; [exact Hk|]. split; [exact Hytr|]. split; [exact Hyv|].
    split; [rewrite Hytr, Hyv; apply take_drop|].
    split; [rewrite Hytr, length_take; lia|].
    split; [exact Hfit|]. split; [exact Ha|]. split; [exact Hb|].
    intros X' y' sp' HX' Hrun'.
    destruct (prepare_data_Ok sk len_X X' y' train_ratio sp' Hrun')
      as (ts' & Hts' & _ & _ & Hfit' & Ha' & _).
    rewrite Hts in Hts'. injection Hts' as <-.
    rewrite HX' in Hfit', Ha'. rewrite Hfit in Hfit'. injection Hfit' as Hs.
    split; [now symmetry|]. rewrite <- Hs, Ha in Ha'. now injection Ha'.
  - intros Hk HX s a b Hfit Ha Hb. unfold prepare_data. rewrite Hts.
    change (Ok ts ≫= ?f) with (f ts). cbv beta zeta.
    assert (Hc : forall rows cols, (0 < rows)%nat -> check_array rows (cols <$> X) = Ok tt).
    { intros rows cols Hrows. apply check_array_Ok. split; [exact Hrows|].
      destruct X; [contradiction|discriminate]. }
    rewrite Hc by lia. change (Ok () ≫= ?f) with (f tt). cbv beta.
    rewrite Hfit. change (Ok s ≫= ?f) with (f s). cbv beta.
    rewrite Ha. change (Ok a ≫= ?f) with (f a). cbv beta.
    rewrite Hc by lia. change (Ok () ≫= ?f) with (f tt). cbv beta.
    rewrite Hb. change (Ok b ≫= ?f) with (f b). cbv beta.
    now rewrite Hlen.
Qed.

(** A stand-in scaler that accepts every matrix and keeps its columns. *)
Definition keep_columns : StandardScaler (list column) (list column) :=
  mkScaler _ _ (fun cols => Ok cols) (fun _ cols => Ok cols).

Definition five_rows : list column := [FloatCol [Some 1; Some 2; Some 3; Some 4; Some 5]%Q].

Definition five_targets : list float := [Some 10; Some 20; Some 30; Some 40; Some 50]%Q.

Lemma prepare_data_split_witness :
  (exists sp,
     prepare_data keep_columns 5 five_rows five_targets (8 # 10) = Ok sp
     /\ y_train sp = [Some 10; Some 20; Some 30; Some 40]%Q
     /\ y_val sp = [Some 50%Q])
  /\ (exists e, prepare_data keep_columns 5 five_rows five_targets 1 = Raise e)
  /\ train_size 100 (29 # 100) = Ok 28%Z.
Proof.
  split; [|split; [|vm_compute; reflexivity]].
  - destruct (prepare_data_split keep_columns 5 five_rows five_targets (8 # 10) 4 eq_refl)
      as (_ & _ & Hsplit & Hruns); [vm_compute; reflexivity|].
    eexists. split.
    + apply Hruns; [vm_compute; lia|discriminate|reflexivity..].
    + split; reflexivity.
  - destruct (prepare_data_split keep_columns 5 five_rows five_targets 1 5 eq_refl)
      as (_ & Hraise & _); [vm_compute; reflexivity|].
    apply Hraise. right. left. reflexivity.
Defined.

(** X18.  The split of [prepare_data] applied to what [create_sequences]
    returns is a split in time: the date of a training row is never later
    than the date of a validation row (it can be the same date). *)
Theorem training_rows_precede_validation {S M : Type} (sk : StandardScaler S M)
    (fc : list string) (tbl : list Bar) (df : DataFrame) (h : Z) (l : log)
    (s : Sequences) (train_ratio : Q) (sp : Split S M) (i j : nat) :
  create_sequences fc tbl df h = (l, Ok s) ->
  prepare_data sk (length (y s)) (X s) (y s) train_ratio = Ok sp ->
  (i < length (y_train sp))%nat ->
  (length (y_train sp) <= j < length (y s))%nat ->
  y_train sp !! i = y s !! i
  /\ y_val sp !! (j - length (y_train sp))%nat = y s !! j
  /\ (date_str (nth i (timestamps s) 0) <= date_str (nth j (timestamps s) 0))%Z.
Proof.
  intros Hrun Hsplit Hi Hj.
  destruct (prepare_data_Ok sk _ _ _ _ sp Hsplit)
    as (ts & _ & Hk & _ & _ & _ & _ & Hytr & Hyv).
  rewrite Hytr, Hyv in *. rewrite length_take in Hi, Hj |- *.
  split; [apply lookup_take_lt; lia|].
  split; [rewrite lookup_drop; f_equal; lia|].
  pose proof (TrainingFacts.timestamps_sorted fc tbl df h l s Hrun) as Hsorted.
  destruct (TrainingFacts.create_sequences_inv fc tbl df h l s Hrun)
    as (fts & J & cs & tgt & tss & _ & _ & _ & _ & _ & _ & _ & Hy & Ht).
  assert (Hlen : length (timestamps s) = length (y s)).
  { now rewrite Hy, Ht, !gather_length. }
  rewrite <- !date_str_nth.
  apply sorted_nth_le; [exact Hsorted|]. rewrite length_fmap. lia.
Qed.

Definition full_features : DataFrame :=
  mkDF 3 (list_to_map [("timestamp", TimeCol [0; 86400; 172800]%Z);
                       ("sma_5", FloatCol [Some 1%Q; Some 2%Q; Some 3%Q])]).

Lemma training_rows_precede_validation_witness :
  exists s,
    create_sequences ["sma_5"] three_days full_features 1 = ([], Ok s)
    /\ (date_str (nth 0 (timestamps s) 0) <= date_str (nth 1 (timestamps s) 0))%Z.
Proof.
  assert (Hrun : exists s, create_sequences ["sma_5"] three_days full_features 1
                           = ([], Ok s)
                           /\ y s = [Some 101%Q; Some 102%Q]
                           /\ X s = [FloatCol [Some 1%Q; Some 2%Q]])
    by (vm_compute; eauto).
  destruct Hrun as (s & Hrun & Hy & HX). exists s. split; [exact Hrun|].
  assert (Hsplit : exists sp,
            prepare_data keep_columns (length (y s)) (X s) (y s) (1 # 2) = Ok sp
            /\ y_train sp = [Some 101%Q]).
  { rewrite Hy, HX. vm_compute. eauto. }
  destruct Hsplit as (sp & Hsplit & Hytr).
  destruct (training_rows_precede_validation keep_columns ["sma_5"] three_days
              full_features 1 [] s (1 # 2) sp 0 1 Hrun Hsplit) as (_ & _ & Hdate).
  - rewrite Hytr. vm_compute. lia.
  - rewrite Hytr, Hy. vm_compute. lia.
  - exact Hdate.
Defined.

(** *** Directional accuracy *)

Lemma all_hits (signs : list Z) :
  List.filter id (zip_with Z.eqb signs signs) = zip_with Z.eqb signs signs.
Proof.
  induction signs as [|z signs IH]; [reflexivity|].
  cbn [zip_with List.filter]. rewrite Z.eqb_refl. cbn [id]. now rewrite IH.
Qed.

(** X19.  The directional accuracy that [validate] reports compares each
    validation target with the target before it: for [n] validation rows it
    is the share of hits among [n - 1] steps, so it lies between 0 and 1, it
    is 1 when the model predicts every target exactly, and it is NaN when
    there are fewer than two rows. *)
Theorem validate_directional_accuracy (sk : Sklearn) (m : Fitted) (importances : list Q)
    (fc : list string) (X_val : list (list float)) (y_val : list Q) (v : Validation) :
  validate sk (Some m) importances fc X_val y_val = Some v ->
  length X_val = length y_val ->
  ((length y_val <= 1)%nat -> validation_directional_accuracy v = None)
  /\ ((2 <= length y_val)%nat ->
      exists hits : nat,
        (hits <= length y_val - 1)%nat
        /\ validation_directional_accuracy v
           = Some (inject_Z (Z.of_nat hits)
                   / inject_Z (Z.of_nat (length y_val - 1)))%Q
        /\ (xgb_predict m <$> X_val = y_val -> hits = (length y_val - 1)%nat)).
Proof.
  intros Hrun Hlen. unfold validate in Hrun. cbn [mbind option_bind] in Hrun.
  apply bind_Some in Hrun as (mse & _ & Hrun).
  apply bind_Some in Hrun as (mae & _ & Hrun).
  apply bind_Some in Hrun as (r2 & _ & Hrun).
  injection Hrun as <-. cbn [validation_directional_accuracy].
  set (pred := xgb_predict m <$> X_val) in *.
  assert (Hp : length pred = length y_val) by (unfold pred; now rewrite length_fmap).
  unfold val_directional_accuracy. cbv zeta.
  set (actual := zip_with (fun a b => np_sign (a - b)) (drop 1 y_val) (removelast y_val)).
  set (guess := zip_with (fun a b => np_sign (a - b)) (drop 1 pred) (removelast y_val)).
  assert (Hhits : length (zip_with Z.eqb actual guess) = (length y_val - 1)%nat).
  { unfold actual, guess.
    rewrite !length_zip_with, !length_drop, removelast_firstn_len, length_take. lia. }
  split.
  - intros Hn. destruct (zip_with Z.eqb actual guess); [reflexivity|].
    simpl in Hhits. lia.
  - intros Hn. exists (length (List.filter id (zip_with Z.eqb actual guess))).
    split; [rewrite <- Hhits; apply List.filter_length_le|]. split.
    + rewrite <- Hhits. destruct (zip_with Z.eqb actual guess) eqn:E; [|reflexivity].
      simpl in Hhits. lia.
    + intros Hexact. rewrite <- Hhits. unfold guess. rewrite Hexact.
      fold actual. now rewrite all_hits.
Qed.

(** A model that repeats its one input, and metric functions that return
    0. *)
Definition zero_metrics : Sklearn :=
  mkSklearn (fun _ _ => Some 0%Q) (fun _ _ => Some 0%Q) (fun _ _ => Some (Some 0%Q)).

Lemma validate_directional_accuracy_witness :
  exists v,
    validate zero_metrics (Some ForecastFacts.echo_model) [] []
      [[Some 100%Q]; [Some 101%Q]; [Some 99%Q]] [100; 101; 99]%Q = Some v
    /\ validation_directional_accuracy v = Some (inject_Z 2 / inject_Z 2)%Q.
Proof.
  eexists. split; [reflexivity|].
  destruct (validate_directional_accuracy zero_metrics ForecastFacts.echo_model [] []
              [[Some 100%Q]; [Some 101%Q]; [Some 99%Q]] [100; 101; 99]%Q _
              eq_refl eq_refl) as [_ Hmany].
  destruct Hmany as (hits & _ & Hacc & Hall); [simpl; lia|].
  rewrite Hacc, (Hall eq_refl). reflexivity.
Defined.

(** *** The most important features *)

Definition before (p q : string * Q) : Prop := (snd q <= snd p)%Q.

Lemma insert_descending_perm (p : string * Q) (l : list (string * Q)) :
  insert_descending p l ≡ₚ p :: l.
Proof.
  induction l as [|q l IH]; [reflexivity|].
  cbn [insert_descending]. destruct (Qle_bool (snd q) (snd p)); [reflexivity|].
  rewrite IH. apply Permutation_swap.
Qed.

Lemma sorted_descending_perm (l : list (string * Q)) : sorted_descending l ≡ₚ l.
Proof.
  induction l as [|p l IH]; [reflexivity|].
  cbn [sorted_descending fold_right]. fold (sorted_descending l).
  now rewrite insert_descending_perm, IH.
Qed.

Lemma insert_descending_sorted (p : string * Q) (l : list (string * Q)) :
  StronglySorted before l -> StronglySorted before (insert_descending p l).
Proof.
  induction 1 as [|q l Hl IH Hq]; [repeat constructor|].
  cbn [insert_descending]. destruct (Qle_bool (snd q) (snd p)) eqn:Hle.
  - apply Qle_bool_iff in Hle. constructor; [now constructor|].
    constructor; [exact Hle|].
    eapply Forall_impl; [exact Hq|]. unfold before. intros x Hx.
    now apply Qle_trans with (snd q).
  - assert (Hlt : (snd p < snd q)%Q).
    { apply Qnot_le_lt. intros H. apply Qle_bool_iff in H. congruence. }
    constructor; [exact IH|].
    rewrite insert_descending_perm. constructor; [|exact Hq].
    unfold before. now apply Qlt_le_weak.
Qed.

Lemma sorted_descending_sorted (l : list (string * Q)) :
  StronglySorted before (sorted_descending l).
Proof.
  induction l as [|p l IH]; [constructor|].
  cbn [sorted_descending fold_right]. now apply insert_descending_sorted.
Qed.

Lemma sorted_app_inv (l1 l2 : list (string * Q)) :
  StronglySorted before (l1 ++ l2) ->
  StronglySorted before l1
  /\ forall p q, In p l1 -> In q l2 -> before p q.
Proof.
  induction l1 as [|a l1 IH]; intros Hs.
  - split; [constructor|]. intros p q [].
  - cbn [app] in Hs. apply StronglySorted_inv in Hs as [Hs Ha].
    destruct (IH Hs) as [Hs1 Hcross]. rewrite Forall_app in Ha.
    destruct Ha as [Ha1 Ha2]. split; [now constructor|].
    intros p q [<-|Hp] Hq; [|now apply Hcross].
    rewrite Forall_forall in Ha2. now apply Ha2, list_elem_of_In.
Qed.

Lemma dict_set_fresh (key : string) (v : Q) (d : list (string * Q)) :
  key ∉ d.*1 -> dict_set key v d = d ++ [(key, v)].
Proof.
  induction d as [|[key' v'] d IH]; intros Hkey; [reflexivity|].
  cbn [dict_set]. cbn [fmap list_fmap fst] in Hkey.
  apply not_elem_of_cons in Hkey as [Hne Hkey].
  rewrite bool_decide_eq_false_2 by congruence.
  cbn [app]. now rewrite IH.
Qed.

Lemma dict_of_distinct (items : list (string * Q)) :
  NoDup items.*1 -> dict_of items = items.
Proof.
  unfold dict_of.
  enough (H : forall acc, NoDup (acc ++ items).*1 ->
              foldl (fun d kv => dict_set (fst kv) (snd kv) d) acc items = acc ++ items)
    by (intros Hnd; now apply (H [])).
  induction items as [|[key v] items IH]; intros acc Hnd.
  - now rewrite app_nil_r.
  - cbn [foldl fst snd]. rewrite dict_set_fresh.
    + rewrite IH; rewrite <- app_assoc; [reflexivity|exact Hnd].
    + rewrite fmap_app in Hnd. apply NoDup_app in Hnd as (_ & Hcross & _).
      intros Hin. apply (Hcross key Hin). cbn. apply elem_of_cons. now left.
Qed.

Lemma zip_keys_distinct (fc : list string) (importances : list Q) :
  NoDup fc -> NoDup (zip fc importances).*1.
Proof.
  intros Hnd. apply (sublist_NoDup _ fc); [exact Hnd|].
  revert importances. induction fc as [|name fc IH]; intros importances.
  - constructor.
  - apply NoDup_cons in Hnd as [_ Hnd].
    destruct importances as [|v importances]; cbn.
    + apply sublist_nil_l.
    + apply sublist_skip, IH, Hnd.
Qed.

(** X20.  The feature importances that [validate] reports, for feature
    columns without a duplicate: the ten pairs of a column and its
    importance with the largest importances (all of them when there are
    fewer), in descending order; no pair that is left out has a larger
    importance than a pair that is reported. *)
Theorem validate_top_features (sk : Sklearn) (model : option Fitted)
    (importances : list Q) (fc : list string) (X_val : list (list float))
    (y_val : list Q) (v : Validation) :
  validate sk model importances fc X_val y_val = Some v ->
  NoDup fc ->
  let top := validation_feature_importance v in
  length top = Nat.min 10 (Nat.min (length fc) (length importances))
  /\ StronglySorted before top
  /\ (forall p, In p top -> In p (zip fc importances))
  /\ (forall p q, In p top -> In q (zip fc importances) -> ~ In q top -> before p q).
Proof.
  intros Hrun Hnd. cbv zeta. unfold validate in Hrun.
  apply bind_Some in Hrun as (m & _ & Hrun). cbv zeta in Hrun.
  apply bind_Some in Hrun as (mse & _ & Hrun).
  apply bind_Some in Hrun as (mae & _ & Hrun).
  apply bind_Some in Hrun as (r2 & _ & Hrun).
  injection Hrun as <-. cbn [validation_feature_importance].
  unfold top_features.
  rewrite (dict_of_distinct (zip fc importances)) by now apply zip_keys_distinct.
  set (items := zip fc importances).
  set (ranked := sorted_descending items).
  assert (Hperm : ranked ≡ₚ items) by apply sorted_descending_perm.
  assert (Hsort : StronglySorted before (take 10 ranked ++ drop 10 ranked)).
  { rewrite take_drop. apply sorted_descending_sorted. }
  apply sorted_app_inv in Hsort as [Htop Hcross].
  rewrite dict_of_distinct.
  2:{ rewrite fmap_take. apply (sublist_NoDup _ ranked.*1); [|apply sublist_take].
      rewrite Hperm. now apply zip_keys_distinct. }
  split.
  { rewrite length_take, (Permutation_length Hperm). unfold items.
    now rewrite length_zip. }
  split; [exact Htop|]. split.
  - intros p Hp. apply list_elem_of_In. rewrite <- Hperm.
    apply list_elem_of_In in Hp. now apply elem_of_take in Hp as (i & Hp & _);
      apply list_elem_of_lookup_2 in Hp.
  - intros p q Hp Hq Hout. apply Hcross; [exact Hp|].
    apply list_elem_of_In in Hq. rewrite <- Hperm, <- (take_drop 10 ranked) in Hq.
    apply elem_of_app in Hq as [Hq|Hq]; [|now apply list_elem_of_In].
    exfalso. now apply Hout, list_elem_of_In.
Qed.

Lemma validate_top_features_witness :
  exists v,
    validate zero_metrics (Some ForecastFacts.echo_model) [1 # 10; 7 # 10; 2 # 10]%Q
      ["sma_5"; "rsi_14"; "macd"] [] [] = Some v
    /\ validation_feature_importance v
       = [("rsi_14", 7 # 10); ("macd", 2 # 10); ("sma_5", 1 # 10)]%Q
    /\ StronglySorted before (validation_feature_importance v).
Proof.
  eexists. split; [reflexivity|]. split; [reflexivity|].
  destruct (validate_top_features zero_metrics (Some ForecastFacts.echo_model)
              [1 # 10; 7 # 10; 2 # 10]%Q ["sma_5"; "rsi_14"; "macd"] [] [] _ eq_refl)
    as (_ & Hsorted & _); [|exact Hsorted].
  apply (bool_decide_unpack _). vm_compute. exact I.
Defined.

(** *** The baseline *)

Lemma rising_head (x : float) (xs : list float) :
  exists tail, BaselineARIMAModel.rising (x :: xs) = 0%Z :: tail
               /\ length tail = length xs.
Proof.
  exists (map (fun d => if fgt d (Some 0%Q) then 1%Z else 0%Z)
              (zip_with fsub xs (take (length xs) (x :: xs)))).
  split.
  - unfold BaselineARIMAModel.rising, BaselineARIMAModel.diff, shift.
    cbn. now destruct x.
  - rewrite length_map, length_zip_with, length_take. simpl. lia.
Qed.

(** X21.  The directional accuracy of the baseline counts the first
    validation row as a hit, whatever the forecast is: the first difference
    of both series is NaN, which is 'not rising' on both sides.  So for [n]
    rows the accuracy is a share of [n] with at least one hit, never 0, and
    1 for a single row. *)
Theorem baseline_accuracy_counts_first_row (val_data forecast : list float) :
  length forecast = length val_data ->
  val_data <> [] ->
  exists hits : nat,
    (1 <= hits <= length val_data)%nat
    /\ BaselineARIMAModel.val_directional_accuracy val_data forecast
       = Some (inject_Z (Z.of_nat hits) / inject_Z (Z.of_nat (length val_data)))%Q.
Proof.
  intros Hlen Hne. destruct val_data as [|x xs]; [contradiction|].
  destruct forecast as [|f fs]; [discriminate|]. simpl in Hlen.
  unfold BaselineARIMAModel.val_directional_accuracy.
  destruct (rising_head x xs) as (t1 & -> & Ht1).
  destruct (rising_head f fs) as (t2 & -> & Ht2).
  cbn [zip_with]. cbn [Z.eqb].
  set (rest := zip_with Z.eqb t1 t2).
  assert (Hrest : length rest = length xs).
  { unfold rest. rewrite length_zip_with. lia. }
  exists (S (length (List.filter id rest))). split.
  - pose proof (List.filter_length_le id rest). simpl. lia.
  - cbn [List.filter id length]. now rewrite Hrest.
Qed.

Lemma baseline_accuracy_counts_first_row_witness :
  BaselineARIMAModel.val_directional_accuracy [Some 100%Q] [Some 0%Q]
  = Some (inject_Z 1 / inject_Z 1)%Q.
Proof.
  destruct (baseline_accuracy_counts_first_row [Some 100%Q] [Some 0%Q] eq_refl)
    as (hits & Hhits & Hacc); [discriminate|].
  rewrite Hacc. simpl in Hhits. now replace hits with 1%nat by lia.
Defined.

End ValidationFacts.

(** ** The prediction service and the registry beyond the claims *)
Module ServiceFacts.
Import Py Pandas Store PandasFacts.
Import AdvancedXGBoostModel PredictionService ForecastFacts.

(** The price that a run compares its prediction with. *)
Lemma day_inputs_price (model : option Fitted) (market_data_raw : list Bar)
    (scaled : list float) (first : Prediction) (cp : option Q) :
  day_inputs model market_data_raw scaled = Some (first, cp) ->
  match latest_close market_data_raw with
  | Some (Some q) => cp = Some q
  | Some None => False
  | None => cp = None
  end.
Proof.
  unfold day_inputs. intros H.
  destruct (predict model [scaled] (95 # 100)) as [rows|]; [|discriminate].
  cbn [mbind option_bind] in H. destruct (head rows); [|discriminate].
  cbn [mbind option_bind] in H.
  destruct (latest_close market_data_raw) as [[q|]|]; cbn in H;
    try discriminate; now injection H as _ <-.
Qed.

(** The float of a rational that is zero is 0.0. *)
Lemma of_Q_zero (q : Q) : (q == 0)%Q -> Double.of_Q q = SpecFloat.S754_zero false.
Proof.
  unfold Qeq. cbn [Qnum Qden]. rewrite Z.mul_1_r, Z.mul_0_l. intros Hq.
  unfold Double.of_Q. now rewrite Hq.
Qed.

(** X22.  A prediction made without a usable current price has no
    direction: when the price table has no row of the symbol, or when the
    newest close is 0, every record of [generate_predictions] has None for
    the direction and for its probability. *)
Theorem no_price_no_direction (lib : Ta.Library) (model : option Fitted)
    (features_store : gmap (string * Z * string) (gmap string value))
    (market_data_raw : list Bar) (clock : nat -> Z) (forecast_days : Z) (r : Forecast) :
  In r (fst (generate_predictions lib model features_store market_data_raw clock
               forecast_days)) ->
  latest_close market_data_raw = None
  \/ (exists price, latest_close market_data_raw = Some (Some price) /\ (price == 0)%Q) ->
  predicted_direction r = None /\ direction_probability r = None.
Proof.
  intros Hin Hprice.
  destruct (generate_predictions_records lib model features_store market_data_raw
              clock forecast_days) as [Hnil|(scaled & first & cp & Hinputs & Hrecs)].
  { rewrite Hnil in Hin. destruct Hin. }
  rewrite Hrecs in Hin.
  apply list_elem_of_In, list_elem_of_fmap in Hin as (day & -> & _).
  apply day_inputs_price in Hinputs.
  unfold forecast_record. cbn [predicted_direction direction_probability].
  destruct Hprice as [Hnone|(price & Hsome & Hzero)].
  - rewrite Hnone in Hinputs. subst cp. split; reflexivity.
  - rewrite Hsome in Hinputs. subst cp. unfold determine_direction.
    rewrite (of_Q_zero price Hzero). split; reflexivity.
Qed.

Lemma no_price_no_direction_witness :
  exists r,
    fst (generate_predictions Ta.warming_up (Some predicts_1503) one_feature_row
           [] Z.of_nat 1) = [r]
    /\ predicted_direction r = None
    /\ direction_probability r = None.
Proof.
  assert (Hrun : exists r,
             fst (generate_predictions Ta.warming_up (Some predicts_1503)
                    one_feature_row [] Z.of_nat 1) = [r])
    by (vm_compute; eauto).
  destruct Hrun as [r Hrun]. exists r. split; [exact Hrun|].
  apply (no_price_no_direction Ta.warming_up (Some predicts_1503) one_feature_row
           [] Z.of_nat 1 r).
  - rewrite Hrun. now left.
  - left. reflexivity.
Defined.

(** X23.  [generate_predictions] returns no record at all when no model is
    loaded, and when the newest price row of the symbol has a null close
    (the conversion to float raises inside the loop): the empty list is
    returned, whatever the features are. *)
Theorem generate_predictions_fails_whole (lib : Ta.Library) (model : option Fitted)
    (features_store : gmap (string * Z * string) (gmap string value))
    (market_data_raw : list Bar) (clock : nat -> Z) (forecast_days : Z) :
  model = None \/ latest_close market_data_raw = Some None ->
  fst (generate_predictions lib model features_store market_data_raw clock
         forecast_days) = [].
Proof.
  intros Hcause.
  destruct (generate_predictions_records lib model features_store market_data_raw
              clock forecast_days) as [Hnil|(scaled & first & cp & Hinputs & Hrecs)];
    [exact Hnil|].
  exfalso. destruct Hcause as [-> | Hnull].
  - discriminate Hinputs.
  - apply day_inputs_price in Hinputs. now rewrite Hnull in Hinputs.
Qed.

Definition null_close_bar : list Bar :=
  [mkBar "HDFCBANK.NS" 0 None None None None None None].

Lemma generate_predictions_fails_whole_witness :
  fst (generate_predictions Ta.warming_up (Some predicts_1503) one_feature_row
         null_close_bar Z.of_nat 5) = [].
Proof.
  apply generate_predictions_fails_whole. right. reflexivity.
Defined.

(** *** The direction of a prediction *)

(** [b] is the one newest bar of the symbol of the service. *)
Definition newest_bar (market_data_raw : list Bar) (b : Bar) : Prop :=
  In b market_data_raw
  /\ Store.symbol b = service_symbol
  /\ forall b', In b' market_data_raw -> Store.symbol b' = service_symbol ->
                (timestamp b <= timestamp b')%Z -> b' = b.

Lemma sorted_last_max (l : list Z) (k : Z) :
  StronglySorted Z.le (l ++ [k]) -> forall x, In x l -> (x <= k)%Z.
Proof.
  induction l as [|a l IH]; intros Hs x Hx; [destruct Hx|].
  cbn [app] in Hs. apply StronglySorted_inv in Hs as [Hs Ha].
  destruct Hx as [<-|Hx]; [|now apply IH].
  rewrite List.Forall_forall in Ha. apply Ha, in_or_app. right. now left.
Qed.

(** The query of lines 99-106 returns the close of the newest bar. *)
Lemma latest_close_newest (market_data_raw : list Bar) (b : Bar) :
  newest_bar market_data_raw b -> latest_close market_data_raw = Some (close b).
Proof.
  intros (Hin & Hsym & Hnewest). unfold latest_close.
  pose proof (PipelineFacts.select_bars_perm market_data_raw service_symbol None) as Hperm.
  pose proof (PipelineFacts.select_bars_sorted market_data_raw service_symbol None)
    as Hsorted.
  assert (Hmem : forall x, In x (select_bars market_data_raw service_symbol None)
                           <-> In x market_data_raw /\ Store.symbol x = service_symbol).
  { intros x. rewrite <- (list_elem_of_In (select_bars _ _ _) x), Hperm.
    rewrite list_elem_of_In, filter_In, andb_true_r, bool_decide_eq_true.
    reflexivity. }
  destruct (last (select_bars market_data_raw service_symbol None)) as [x|] eqn:Hlast.
  - apply last_Some in Hlast as [l Hl]. rewrite Hl in Hsorted, Hmem.
    assert (Hx : In x market_data_raw /\ Store.symbol x = service_symbol).
    { apply Hmem, in_or_app. right. now left. }
    assert (Hb : In b (l ++ [x])) by (apply Hmem; auto).
    assert (Hle : (timestamp b <= timestamp x)%Z).
    { apply in_app_or in Hb as [Hb|[<-|[]]]; [|lia].
      rewrite map_app in Hsorted. cbn [map] in Hsorted.
      apply (sorted_last_max _ _ Hsorted). now apply in_map. }
    destruct Hx as [Hx1 Hx2]. now rewrite (Hnewest x Hx1 Hx2 Hle).
  - apply last_None in Hlast.
    assert (Hb : In b (select_bars market_data_raw service_symbol None))
      by (apply Hmem; auto).
    rewrite Hlast in Hb. destruct Hb.
Qed.

(** C7.  Every record of a run is labelled by comparing its point prediction
    with the close of the newest bar of the symbol, when that close is there
    and is not 0.0: UP with probability 0.65 when the prediction is above
    price x 1.001, DOWN with 0.65 when it is below price x 0.999, NEUTRAL
    with 0.5 otherwise.  The two bounds are the products as the code computes
    them, in floating point: with a close of 1000.0 the upper bound is
    1000.9999999999999, and a prediction of 1001.0 is UP. *)
Theorem direction_dead_band (lib : Ta.Library) (model : option Fitted)
    (features_store : gmap (string * Z * string) (gmap string value))
    (market_data_raw : list Bar) (clock : nat -> Z) (forecast_days : Z)
    (r : Forecast) (b : Bar) (price : Q) :
  In r (fst (generate_predictions lib model features_store market_data_raw clock
               forecast_days)) ->
  newest_bar market_data_raw b ->
  close b = Some price ->
  let current_price := Double.of_Q price in
  let prediction := Double.of_Q (predicted_price r) in
  Double.truthy current_price = true ->
  (predicted_direction r, direction_probability r)
  = if Double.ltb (Double.mul current_price (Double.of_Q (1001 # 1000))) prediction
    then (Some "UP", Some (65 # 100))
    else if Double.ltb prediction (Double.mul current_price (Double.of_Q (999 # 1000)))
    then (Some "DOWN", Some (65 # 100))
    else (Some "NEUTRAL", Some (5 # 10)).
Proof.
  intros Hin Hnewest Hclose. cbv zeta. intros Hprice.
  destruct (generate_predictions_records lib model features_store market_data_raw
              clock forecast_days) as [Hnil|(scaled & first & cp & Hinputs & Hrecs)].
  { rewrite Hnil in Hin. destruct Hin. }
  rewrite Hrecs in Hin.
  apply list_elem_of_In, list_elem_of_fmap in Hin as (day & -> & _).
  apply day_inputs_price in Hinputs.
  rewrite (latest_close_newest _ _ Hnewest), Hclose in Hinputs. subst cp.
  unfold forecast_record.
  cbn [predicted_price predicted_direction direction_probability].
  unfold determine_direction. rewrite Hprice.
  repeat match goal with |- context [if ?c then _ else _] => destruct c end;
    reflexivity.
Qed.

(** The example of the spec, a newest close of 1500.00 and a model that
    predicts 1503.00, in a table where the newest bar of the symbol is
    neither the first row nor the oldest, and the other bars would give
    DOWN. *)
Definition newest_1500 : Bar := DatasetFacts.flat_bar "HDFCBANK.NS" 86400 1500.

Definition four_bars : list Bar :=
  [DatasetFacts.flat_bar "HDFCBANK.NS" 0 1600;
   DatasetFacts.flat_bar "ICICIBANK.NS" 172800 2000;
   newest_1500;
   DatasetFacts.flat_bar "HDFCBANK.NS" 43200 1700].

Lemma direction_dead_band_witness :
  exists r,
    fst (generate_predictions Ta.warming_up (Some predicts_1503) one_feature_row
           four_bars Z.of_nat 1) = [r]
    /\ predicted_price r = 1503%Q
    /\ predicted_direction r = Some "UP"
    /\ direction_probability r = Some (65 # 100)
    /\ determine_direction 1001 (Some 1000%Q) = (Some "UP", Some (65 # 100)).
Proof.
  assert (Hedge : determine_direction 1001 (Some 1000%Q) = (Some "UP", Some (65 # 100)))
    by (vm_compute; reflexivity).
  assert (Hprices : predicted_price <$>
                      fst (generate_predictions Ta.warming_up (Some predicts_1503)
                             one_feature_row four_bars Z.of_nat 1) = [1503%Q])
    by (vm_compute; reflexivity).
  pose proof (direction_dead_band Ta.warming_up (Some predicts_1503) one_feature_row
                four_bars Z.of_nat 1) as Hband.
  destruct (fst (generate_predictions Ta.warming_up (Some predicts_1503)
                   one_feature_row four_bars Z.of_nat 1))
    as [|r [|r' rest]]; [discriminate Hprices| |discriminate Hprices].
  injection Hprices as Hp.
  exists r. split; [reflexivity|]. split; [exact Hp|].
  specialize (Hband r newest_1500 1500%Q (or_introl eq_refl)).
  cbv zeta in Hband. rewrite Hp in Hband.
  assert (Hdir : (predicted_direction r, direction_probability r)
                 = (Some "UP", Some (65 # 100))).
  { rewrite Hband; [vm_compute; reflexivity| |reflexivity|vm_compute; reflexivity].
    split; [right; right; now left|]. split; [reflexivity|].
    intros b' [<-|[<-|[<-|[<-|[]]]]] Hsym Hle; try reflexivity;
      vm_compute in Hsym, Hle; try discriminate; now contradiction Hle. }
  injection Hdir as -> ->. split; [reflexivity|]. split; [reflexivity|exact Hedge].
Defined.

(** *** The predictions table *)

Definition key_of (p : Forecast) : string * Z * string * string :=
  (symbol p, target_timestamp p, model_name p, model_version p).

Lemma same_key_spec (pred : Forecast) (row : Stored) :
  same_key pred row = true <-> key_of (forecast row) = key_of pred.
Proof.
  unfold same_key, key_of.
  rewrite !andb_true_iff, !bool_decide_eq_true, Z.eqb_eq.
  split; [intros [[[-> ->] ->] ->]; reflexivity|].
  intros [= -> -> -> ->]. auto.
Qed.

Lemma deleted_rows (predictions : list Forecast) (tbl : list Stored) (row : Stored) :
  In row (foldl delete_existing tbl predictions)
  <-> In row tbl /\ forall p, In p predictions -> same_key p row = false.
Proof.
  revert tbl. induction predictions as [|p ps IH]; intros tbl.
  - cbn [foldl]. split; [intros H; split; [exact H|intros p []]|tauto].
  - cbn [foldl]. rewrite IH. unfold delete_existing at 1. rewrite filter_In.
    rewrite negb_true_iff. split.
    + intros [[Hrow Hp] Hps]. split; [exact Hrow|].
      intros p' [<-|Hp']; auto.
    + intros [Hrow Hall]. split; [split; [exact Hrow|]|].
      * apply Hall. now left.
      * intros p' Hp'. apply Hall. now right.
Qed.

Lemma filter_none {A : Type} (f : A -> bool) (l : list A) :
  (forall x, In x l -> f x = false) -> List.filter f l = [].
Proof.
  induction l as [|a l IH]; intros H; [reflexivity|].
  cbn [List.filter]. rewrite (H a) by now left.
  apply IH. intros x Hx. apply H. now right.
Qed.

Lemma filter_inserted (f : Stored -> bool) (g : Forecast -> bool)
    (h : nat -> Forecast -> Stored) (l : list Forecast) :
  (forall k p, f (h k p) = g p) ->
  length (List.filter f (imap h l)) = length (List.filter g l).
Proof.
  revert h. induction l as [|p l IH]; intros h Hfg; [reflexivity|].
  cbn [imap List.filter]. rewrite Hfg.
  assert (Hrest : length (List.filter f (imap (h ∘ S) l)) = length (List.filter g l)).
  { apply IH. intros k p'. apply Hfg. }
  destruct (g p); cbn [length]; now rewrite Hrest.
Qed.

Lemma one_with_key (p : Forecast) (l : list Forecast) :
  NoDup (key_of <$> l) -> In p l ->
  length (List.filter (fun p' => bool_decide (key_of p' = key_of p)) l) = 1%nat.
Proof.
  induction l as [|a l IH]; intros Hnd Hin; [destruct Hin|].
  cbn [fmap list_fmap] in Hnd. apply NoDup_cons in Hnd as [Hnot Hnd].
  cbn [List.filter]. destruct Hin as [->|Hin].
  - rewrite bool_decide_eq_true_2 by reflexivity. cbn [length]. f_equal.
    rewrite filter_none; [reflexivity|].
    intros x Hx. apply bool_decide_eq_false_2. intros E. apply Hnot.
    rewrite <- E. apply list_elem_of_fmap. exists x. split; [reflexivity|].
    now apply list_elem_of_In.
  - rewrite bool_decide_eq_false_2; [now apply IH|].
    intros E. apply Hnot. rewrite E. apply list_elem_of_fmap.
    exists p. split; [reflexivity|]. now apply list_elem_of_In.
Qed.

Lemma store_predictions_supersedes_rows (fresh : nat -> Z) (predictions : list Forecast)
    (tbl : list Stored) :
  predictions <> [] ->
  exists tbl',
    store_predictions fresh predictions tbl = (true, tbl', [])
    /\ forall row,
         In row tbl' <->
         (In row tbl /\ forall p, In p predictions -> same_key p row = false)
         \/ exists k p, predictions !! k = Some p /\ row = mkStored (fresh k) p None.
Proof.
  intros Hne. unfold store_predictions.
  destruct predictions as [|p0 ps] eqn:Hpreds; [contradiction|]. rewrite <- Hpreds.
  clear Hne. eexists. split; [reflexivity|].
  intros row. rewrite in_app_iff, deleted_rows.
  apply or_iff_compat_l. split.
  - intros Hin. apply list_elem_of_In, list_elem_of_lookup in Hin as [k Hk].
    rewrite list_lookup_imap in Hk.
    destruct (predictions !! k) as [p|] eqn:Hp; [|discriminate].
    injection Hk as <-. eauto.
  - intros (k & p & Hp & ->). apply list_elem_of_In, list_elem_of_lookup.
    exists k. now rewrite list_lookup_imap, Hp.
Qed.

(** X24.  [store_predictions] of a list that is not empty succeeds and
    replaces by key: the table afterwards holds the old rows whose key
    (symbol, target timestamp, model name, model version) is the key of no
    new record, followed by one new row for each record, without an actual
    price; when the new records have pairwise different keys, each of their
    keys is the key of exactly one row. *)
Theorem store_predictions_supersedes (fresh : nat -> Z) (predictions : list Forecast)
    (tbl : list Stored) :
  predictions <> [] ->
  exists tbl',
    store_predictions fresh predictions tbl = (true, tbl', [])
    /\ (forall row,
          In row tbl' <->
          (In row tbl /\ forall p, In p predictions -> same_key p row = false)
          \/ exists k p, predictions !! k = Some p /\ row = mkStored (fresh k) p None)
    /\ (NoDup (key_of <$> predictions) ->
        forall p, In p predictions ->
          length (List.filter (same_key p) tbl') = 1%nat).
Proof.
  intros Hne. unfold store_predictions.
  destruct predictions as [|p0 ps] eqn:Hpreds; [contradiction|]. rewrite <- Hpreds.
  clear Hne. eexists. split; [reflexivity|]. split.
  - intros row. rewrite in_app_iff, deleted_rows.
    apply or_iff_compat_l. split.
    + intros Hin. apply list_elem_of_In, list_elem_of_lookup in Hin as [k Hk].
      rewrite list_lookup_imap in Hk.
      destruct (predictions !! k) as [p|] eqn:Hp; [|discriminate].
      injection Hk as <-. eauto.
    + intros (k & p & Hp & ->). apply list_elem_of_In, list_elem_of_lookup.
      exists k. now rewrite list_lookup_imap, Hp.
  - intros Hnd p Hp. rewrite List.filter_app, length_app.
    rewrite (filter_none (same_key p)).
    2:{ intros row Hrow. apply deleted_rows in Hrow as [_ Hall]. now apply Hall. }
    cbn [length plus].
    rewrite (filter_inserted _ (fun p' => bool_decide (key_of p' = key_of p))).
    + now apply one_with_key.
    + intros k p'. apply eq_true_iff_eq.
      rewrite same_key_spec, bool_decide_eq_true. reflexivity.
Qed.

Definition forecast_for (target : Z) (price : Q) : Forecast :=
  mkForecast "HDFCBANK.NS" 0 target price price price (95 # 100)
             "advanced_xgboost" "v1.0" "v1" None None.

Lemma store_predictions_supersedes_witness :
  store_predictions (fun k => Z.of_nat k + 10)%Z [forecast_for 86400 1503]
    [mkStored 1 (forecast_for 86400 1500) (Some 1499%Q);
     mkStored 2 (forecast_for 172800 1500) None]
  = (true,
     [mkStored 2 (forecast_for 172800 1500) None;
      mkStored 10 (forecast_for 86400 1503) None], []).
Proof.
  destruct (store_predictions_supersedes (fun k => Z.of_nat k + 10)%Z
              [forecast_for 86400 1503]
              [mkStored 1 (forecast_for 86400 1500) (Some 1499%Q);
               mkStored 2 (forecast_for 172800 1500) None])
    as (tbl' & Hrun & _); [discriminate|].
  rewrite Hrun. vm_compute in Hrun. injection Hrun as <-. reflexivity.
Defined.

(** *** Actual prices *)

(** The close [a] is the close of a bar of the row's symbol on the calendar
    day of the row's target. *)
Definition filled_from (market_data_raw : list Bar) (row : Stored) (a : Q) : Prop :=
  exists b, In b market_data_raw
            /\ Store.symbol b = symbol (forecast row)
            /\ date_str (timestamp b) = date_str (target_timestamp (forecast row))
            /\ close b = Some a.

(** A row of the table, before and after the update. *)
Definition updated (market_data_raw : list Bar) (now : Z) (row row' : Stored) : Prop :=
  id row' = id row
  /\ forecast row' = forecast row
  /\ (actual_price row' = actual_price row
      \/ (actual_price row = None
          /\ (target_timestamp (forecast row) < now)%Z
          /\ exists a, actual_price row' = Some a /\ filled_from market_data_raw row a)).

Definition rows_updated (market_data_raw : list Bar) (now : Z)
    (tbl tbl' : list Stored) : Prop :=
  length tbl' = length tbl
  /\ forall k row row', tbl !! k = Some row -> tbl' !! k = Some row' ->
       updated market_data_raw now row row'.

Lemma on_target_date_spec (sym : string) (target : Z) (b : Bar) :
  on_target_date sym target b = true ->
  Store.symbol b = sym /\ date_str (timestamp b) = date_str target.
Proof.
  unfold on_target_date. rewrite !andb_true_iff, bool_decide_eq_true.
  rewrite Z.leb_le, Z.ltb_lt. intros [[Hsym Hlo] Hhi]. split; [exact Hsym|].
  unfold date_str in *. symmetry.
  apply (Z.div_unique (timestamp b) 86400 (target / 86400)
                      (timestamp b - target / 86400 * 86400)); lia.
Qed.

Lemma same_id_same_row (tbl : list Stored) (k : nat) (row pred : Stored) :
  NoDup (id <$> tbl) -> tbl !! k = Some row -> In pred tbl -> id row = id pred ->
  row = pred.
Proof.
  intros Hnd Hk Hpred Hid.
  apply list_elem_of_In, list_elem_of_lookup in Hpred as [k' Hk'].
  assert (k = k').
  { apply (NoDup_lookup (id <$> tbl) k k' (id row)); [exact Hnd| |].
    - now rewrite list_lookup_fmap, Hk.
    - now rewrite list_lookup_fmap, Hk', Hid. }
  subst k'. congruence.
Qed.

Lemma set_actual_price_updated (market_data_raw : list Bar) (now : Z)
    (tbl current : list Stored) (pred : Stored) (b : Bar) (rest : list Bar) (a : Q) :
  NoDup (id <$> tbl) ->
  rows_updated market_data_raw now tbl current ->
  In pred tbl ->
  actual_price pred = None ->
  (target_timestamp (forecast pred) < now)%Z ->
  List.filter (on_target_date (symbol (forecast pred)) (target_timestamp (forecast pred)))
              market_data_raw = b :: rest ->
  close b = Some a ->
  rows_updated market_data_raw now tbl (set_actual_price (id pred) a current).
Proof.
  intros Hnd [Hlen Hrows] Hpred Hnone Hdue Hbars Hclose.
  unfold set_actual_price. split; [now rewrite length_map|].
  intros k row row' Hk Hk'.
  change (map ?f current) with (f <$> current) in Hk'.
  rewrite list_lookup_fmap in Hk'.
  destruct (current !! k) as [rowc|] eqn:Hc; [|discriminate].
  injection Hk' as <-.
  destruct (Hrows k row rowc Hk Hc) as (Hid & Hfc & Hact).
  destruct (Z.eqb_spec (id rowc) (id pred)) as [Heq|Hne].
  - assert (row = pred) by (apply (same_id_same_row tbl k); congruence).
    subst row. split; [exact Hid|]. split; [exact Hfc|]. right.
    split; [exact Hnone|]. split; [exact Hdue|]. exists a. split; [reflexivity|].
    assert (Hb : In b (List.filter (on_target_date (symbol (forecast pred))
                                      (target_timestamp (forecast pred)))
                                   market_data_raw))
      by (rewrite Hbars; now left).
    apply filter_In in Hb as [Hb Hon].
    apply on_target_date_spec in Hon as [Hsym Hdate].
    exists b. auto.
  - split; [exact Hid|]. split; [exact Hfc|]. exact Hact.
Qed.

Lemma update_each_updated (market_data_raw : list Bar) (now : Z)
    (tbl : list Stored) (response current : list Stored) :
  NoDup (id <$> tbl) ->
  (forall pred, In pred response ->
     In pred tbl /\ actual_price pred = None
     /\ (target_timestamp (forecast pred) < now)%Z) ->
  rows_updated market_data_raw now tbl current ->
  rows_updated market_data_raw now tbl (fst (update_each market_data_raw response current)).
Proof.
  intros Hnd. revert current.
  induction response as [|pred response IH]; intros current Hresp Hcur; [exact Hcur|].
  cbn [update_each].
  destruct (Hresp pred (or_introl eq_refl)) as (Hin & Hnone & Hdue).
  assert (Hrest : forall p, In p response ->
            In p tbl /\ actual_price p = None /\ (target_timestamp (forecast p) < now)%Z)
    by (intros p Hp; apply Hresp; now right).
  destruct (List.filter _ market_data_raw) as [|b bars] eqn:Hbars; [now apply IH|].
  destruct (close b) as [a|] eqn:Hclose; [|exact Hcur].
  apply IH; [exact Hrest|].
  now apply (set_actual_price_updated market_data_raw now tbl current pred b bars a).
Qed.

(** X25.  [update_actual_prices] changes nothing but actual prices, and each
    of them once: the table keeps its rows, their ids and their predictions;
    a row that has an actual price, or whose target is not yet in the past,
    is left as it is; and an actual price that is filled in is the close of a
    bar of the row's symbol on the calendar day of the row's target.  The
    ids of the table are its primary key. *)
Theorem update_actual_prices_fills_once (market_data_raw : list Bar) (now : Z)
    (tbl : list Stored) :
  NoDup (id <$> tbl) ->
  let tbl' := fst (update_actual_prices market_data_raw now tbl) in
  length tbl' = length tbl
  /\ forall k row, tbl !! k = Some row ->
       exists row',
         tbl' !! k = Some row'
         /\ id row' = id row
         /\ forecast row' = forecast row
         /\ (actual_price row' = actual_price row
             \/ (actual_price row = None
                 /\ (target_timestamp (forecast row) < now)%Z
                 /\ exists a, actual_price row' = Some a
                              /\ filled_from market_data_raw row a)).
Proof.
  intros Hnd. cbv zeta. unfold update_actual_prices.
  destruct (update_each_updated market_data_raw now tbl
              (List.filter (fun row => bool_decide (actual_price row = None)
                                       && (target_timestamp (forecast row) <? now)%Z) tbl)
              tbl Hnd) as [Hlen Hrows].
  - intros pred Hpred. apply filter_In in Hpred as [Hin Hdue].
    apply andb_true_iff in Hdue as [Hnone Hdue].
    apply bool_decide_eq_true in Hnone. apply Z.ltb_lt in Hdue. auto.
  - split; [reflexivity|]. intros k row row' Hk Hk'.
    rewrite Hk in Hk'. injection Hk' as <-. repeat split. now left.
  - split; [exact Hlen|]. intros k row Hk.
    destruct (lookup_lt_is_Some_2 (fst (update_each market_data_raw
                (List.filter (fun row => bool_decide (actual_price row = None)
                                         && (target_timestamp (forecast row) <? now)%Z) tbl)
                tbl)) k) as [row' Hk'].
    { rewrite Hlen. apply lookup_lt_is_Some_1. eauto. }
    exists row'. split; [exact Hk'|]. exact (Hrows k row row' Hk Hk').
Qed.

Definition due_and_done : list Stored :=
  [mkStored 1 (forecast_for 86400 1503) None;
   mkStored 2 (forecast_for 172800 1500) (Some 1499%Q);
   mkStored 3 (forecast_for 8640000 1500) None].

Lemma update_actual_prices_fills_once_witness :
  exists row',
    fst (update_actual_prices DatasetFacts.three_days 500000 due_and_done) !! 0%nat
      = Some row'
    /\ id row' = 1%Z
    /\ forecast row' = forecast_for 86400 1503
    /\ actual_price row' = Some 101%Q.
Proof.
  assert (Hnd : NoDup (id <$> due_and_done))
    by (apply (bool_decide_unpack _); vm_compute; exact I).
  destruct (update_actual_prices_fills_once DatasetFacts.three_days 500000
              due_and_done Hnd) as [_ Hrows].
  destruct (Hrows 0%nat _ eq_refl) as (row' & Hrow' & Hid & Hfc & _).
  exists row'. split; [exact Hrow'|]. split; [exact Hid|]. split; [exact Hfc|].
  assert (Heval : fst (update_actual_prices DatasetFacts.three_days 500000 due_and_done)
                    !! 0%nat
                  = Some (mkStored 1 (forecast_for 86400 1503) (Some 101%Q)))
    by (vm_compute; reflexivity).
  rewrite Heval in Hrow'. now injection Hrow' as <-.
Defined.

(** A bar of the row's symbol on the day of the row's target. *)
Definition has_bar (market_data_raw : list Bar) (row : Stored) : Prop :=
  exists b, In b market_data_raw
            /\ Store.symbol b = symbol (forecast row)
            /\ date_str (timestamp b) = date_str (target_timestamp (forecast row)).

Lemma has_bar_filter (market_data_raw : list Bar) (row : Stored) :
  has_bar market_data_raw row ->
  List.filter (on_target_date (symbol (forecast row)) (target_timestamp (forecast row)))
              market_data_raw <> [].
Proof.
  intros (b & Hb & Hsym & Hdate) Hnil.
  assert (Hin : In b (List.filter (on_target_date (symbol (forecast row))
                                     (target_timestamp (forecast row)))
                                  market_data_raw)).
  { apply filter_In. split; [exact Hb|]. unfold on_target_date.
    rewrite !andb_true_iff, bool_decide_eq_true, Z.leb_le, Z.ltb_lt.
    rewrite <- Hdate. unfold date_str.
    pose proof (Z.mul_div_le (timestamp b) 86400 eq_refl).
    pose proof (Z.mul_succ_div_gt (timestamp b) 86400 eq_refl).
    repeat split; [exact Hsym|lia|lia]. }
  rewrite Hnil in Hin. destruct Hin.
Qed.

(** The rows that are due, that have a bar and that are not filled yet are
    still to come in the response. *)
Definition all_done (market_data_raw : list Bar) (now : Z)
    (tbl current response : list Stored) : Prop :=
  forall k row,
    tbl !! k = Some row ->
    actual_price row = None ->
    (target_timestamp (forecast row) < now)%Z ->
    has_bar market_data_raw row ->
    In row response
    \/ exists rowc a, current !! k = Some rowc /\ actual_price rowc = Some a.

Lemma update_each_all_done (market_data_raw : list Bar) (now : Z)
    (tbl : list Stored) (response current : list Stored) :
  NoDup (id <$> tbl) ->
  (forall b, In b market_data_raw -> close b <> None) ->
  (forall pred, In pred response ->
     In pred tbl /\ actual_price pred = None
     /\ (target_timestamp (forecast pred) < now)%Z) ->
  rows_updated market_data_raw now tbl current ->
  all_done market_data_raw now tbl current response ->
  snd (update_each market_data_raw response current) = []
  /\ all_done market_data_raw now tbl
       (fst (update_each market_data_raw response current)) [].
Proof.
  intros Hnd Hclosed. revert current.
  induction response as [|pred response IH]; intros current Hresp Hcur Hdone;
    [split; [reflexivity|exact Hdone]|].
  cbn [update_each].
  destruct (Hresp pred (or_introl eq_refl)) as (Hin & Hnone & Hdue).
  assert (Hrest : forall p, In p response ->
            In p tbl /\ actual_price p = None /\ (target_timestamp (forecast p) < now)%Z)
    by (intros p Hp; apply Hresp; now right).
  destruct (List.filter _ market_data_raw) as [|b bars] eqn:Hbars.
  - apply IH; [exact Hrest|exact Hcur|].
    intros k row Hk Hn Hd Hbar.
    destruct (Hdone k row Hk Hn Hd Hbar) as [[<-|Hin']|Hfilled]; auto.
    exfalso. now apply (has_bar_filter market_data_raw pred).
  - assert (Hb : In b market_data_raw).
    { assert (H : In b (b :: bars)) by now left.
      rewrite <- Hbars in H. now apply filter_In in H. }
    destruct (close b) as [a|] eqn:Hclose; [|now apply Hclosed in Hb].
    apply IH; [exact Hrest| |].
    + now apply (set_actual_price_updated market_data_raw now tbl current pred b bars a).
    + intros k row Hk Hn Hd Hbar.
      destruct Hcur as [Hlen Hrows].
      destruct (lookup_lt_is_Some_2 current k) as [rowc Hc].
      { rewrite Hlen. apply lookup_lt_is_Some_1. eauto. }
      assert (Hnew : set_actual_price (id pred) a current !! k
                     = Some (if (id rowc =? id pred)%Z
                             then mkStored (id rowc) (forecast rowc) (Some a)
                             else rowc)).
      { unfold set_actual_price. change (map ?f current) with (f <$> current).
        now rewrite list_lookup_fmap, Hc. }
      destruct (Hdone k row Hk Hn Hd Hbar) as [[<-|Hin']|(rowc' & a' & Hc' & Ha')].
      * right. destruct (Hrows k pred rowc Hk Hc) as (Hid & _).
        rewrite Hid, Z.eqb_refl in Hnew. eauto.
      * now left.
      * right. rewrite Hc in Hc'. injection Hc' as <-.
        destruct (id rowc =? id pred)%Z; eauto.
Qed.

(** X28.  When no price row has a null close, [update_actual_prices] logs
    no error and fills in every row that is due: a row without an actual
    price whose target is in the past has one afterwards, as soon as the
    price table has a bar of its symbol on the day of the target. *)
Theorem update_actual_prices_fills_all (market_data_raw : list Bar) (now : Z)
    (tbl : list Stored) :
  NoDup (id <$> tbl) ->
  (forall b, In b market_data_raw -> close b <> None) ->
  snd (update_actual_prices market_data_raw now tbl) = []
  /\ forall k row,
       tbl !! k = Some row ->
       actual_price row = None ->
       (target_timestamp (forecast row) < now)%Z ->
       has_bar market_data_raw row ->
       exists row' a,
         fst (update_actual_prices market_data_raw now tbl) !! k = Some row'
         /\ actual_price row' = Some a.
Proof.
  intros Hnd Hclosed. unfold update_actual_prices.
  set (response := List.filter (fun row => bool_decide (actual_price row = None)
                                           && (target_timestamp (forecast row) <? now)%Z)
                               tbl).
  destruct (update_each_all_done market_data_raw now tbl response tbl Hnd Hclosed)
    as [Hlog Hdone].
  - intros pred Hpred. apply filter_In in Hpred as [Hin Hdue].
    apply andb_true_iff in Hdue as [Hnone Hdue].
    apply bool_decide_eq_true in Hnone. apply Z.ltb_lt in Hdue. auto.
  - split; [reflexivity|]. intros k row row' Hk Hk'.
    rewrite Hk in Hk'. injection Hk' as <-. repeat split. now left.
  - intros k row Hk Hn Hd Hbar. left. apply filter_In.
    split; [apply list_elem_of_In, list_elem_of_lookup; eauto|].
    apply andb_true_iff. split; [now apply bool_decide_eq_true|now apply Z.ltb_lt].
  - split; [exact Hlog|]. intros k row Hk Hn Hd Hbar.
    destruct (Hdone k row Hk Hn Hd Hbar) as [[]|Hfilled]. exact Hfilled.
Qed.

Lemma update_actual_prices_fills_all_witness :
  snd (update_actual_prices DatasetFacts.three_days 500000 due_and_done) = []
  /\ exists row' a,
       fst (update_actual_prices DatasetFacts.three_days 500000 due_and_done) !! 0%nat
         = Some row'
       /\ actual_price row' = Some a.
Proof.
  assert (Hnd : NoDup (id <$> due_and_done))
    by (apply (bool_decide_unpack _); vm_compute; exact I).
  destruct (update_actual_prices_fills_all DatasetFacts.three_days 500000
              due_and_done Hnd) as [Hlog Hrows].
  - intros b [<-|[<-|[<-|[]]]]; discriminate.
  - split; [exact Hlog|].
    apply (Hrows 0%nat (mkStored 1 (forecast_for 86400 1503) None));
      [reflexivity|reflexivity|reflexivity|].
    exists (DatasetFacts.flat_bar "HDFCBANK.NS" 86400 101).
    split; [simpl; auto|]. split; reflexivity.
Defined.

(** *** Two runs of the service *)

Lemma record_target (lib : Ta.Library) (model : option Fitted)
    (features_store : gmap (string * Z * string) (gmap string value))
    (market_data_raw : list Bar) (clock : nat -> Z) (forecast_days : Z) (r : Forecast) :
  In r (fst (generate_predictions lib model features_store market_data_raw clock
               forecast_days)) ->
  exists day : nat, target_timestamp r = (clock 1%nat + Z.of_nat day * 86400)%Z.
Proof.
  intros Hin.
  destruct (generate_predictions_records lib model features_store market_data_raw
              clock forecast_days) as [Hnil|(scaled & first & cp & _ & Hrecs)].
  { rewrite Hnil in Hin. destruct Hin. }
  rewrite Hrecs in Hin.
  apply list_elem_of_In, list_elem_of_fmap in Hin as (day & -> & _).
  now exists day.
Qed.

(** X26.  Two runs of the service do not replace each other's records: the
    target timestamp of a record is the wall clock of its run plus whole
    days, so when the two runs do not start a whole number of days apart, no
    key of the second run is a key of the first, and every row that the
    first [store_predictions] wrote is still in the table after the
    second. *)
Theorem reruns_accumulate (lib : Ta.Library) (model : option Fitted)
    (features_store : gmap (string * Z * string) (gmap string value))
    (market_data_raw : list Bar) (clock1 clock2 : nat -> Z) (forecast_days : Z)
    (fresh1 fresh2 : nat -> Z) (tbl : list Stored) :
  ((clock2 1%nat - clock1 1%nat) mod 86400 <> 0)%Z ->
  let first_run := fst (generate_predictions lib model features_store market_data_raw
                          clock1 forecast_days) in
  let second_run := fst (generate_predictions lib model features_store market_data_raw
                           clock2 forecast_days) in
  first_run <> [] -> second_run <> [] ->
  exists tbl1 tbl2,
    store_predictions fresh1 first_run tbl = (true, tbl1, [])
    /\ store_predictions fresh2 second_run tbl1 = (true, tbl2, [])
    /\ (forall k p, first_run !! k = Some p -> In (mkStored (fresh1 k) p None) tbl2)
    /\ (forall k p, second_run !! k = Some p -> In (mkStored (fresh2 k) p None) tbl2).
Proof.
  intros Hapart. cbv zeta. intros Hne1 Hne2.
  set (first_run := fst (generate_predictions lib model features_store market_data_raw
                           clock1 forecast_days)) in *.
  set (second_run := fst (generate_predictions lib model features_store market_data_raw
                            clock2 forecast_days)) in *.
  destruct (store_predictions_supersedes_rows fresh1 first_run tbl Hne1)
    as (tbl1 & Hrun1 & Hrows1).
  destruct (store_predictions_supersedes_rows fresh2 second_run tbl1 Hne2)
    as (tbl2 & Hrun2 & Hrows2).
  exists tbl1, tbl2. split; [exact Hrun1|]. split; [exact Hrun2|]. split.
  - intros k p Hp. apply Hrows2. left. split.
    + apply Hrows1. right. eauto.
    + intros q Hq. apply not_true_iff_false. intros Hkey.
      apply same_key_spec in Hkey. cbn [forecast] in Hkey.
      injection Hkey as _ Htarget _ _.
      assert (Hp' : In p first_run)
        by (apply list_elem_of_In, list_elem_of_lookup; eauto).
      destruct (record_target _ _ _ _ _ _ _ Hp') as [d1 Hd1].
      destruct (record_target _ _ _ _ _ _ _ Hq) as [d2 Hd2].
      apply Hapart.
      replace (clock2 1%nat - clock1 1%nat)%Z
        with ((Z.of_nat d1 - Z.of_nat d2) * 86400)%Z by lia.
      apply Z.mod_mul. lia.
  - intros k p Hp. apply Hrows2. right. eauto.
Qed.

Lemma reruns_accumulate_witness :
  exists tbl1 tbl2,
    store_predictions Z.of_nat
      (fst (generate_predictions Ta.warming_up (Some predicts_1503) one_feature_row
              close_1500 Z.of_nat 1)) [] = (true, tbl1, [])
    /\ store_predictions (fun k => Z.of_nat k + 100)%Z
         (fst (generate_predictions Ta.warming_up (Some predicts_1503) one_feature_row
                 close_1500 (fun k => Z.of_nat k + 3600)%Z 1)) tbl1 = (true, tbl2, [])
    /\ length tbl2 = 2%nat.
Proof.
  destruct (reruns_accumulate Ta.warming_up (Some predicts_1503) one_feature_row
              close_1500 Z.of_nat (fun k => Z.of_nat k + 3600)%Z 1
              Z.of_nat (fun k => Z.of_nat k + 100)%Z [])
    as (tbl1 & tbl2 & Hrun1 & Hrun2 & _).
  - vm_compute. discriminate.
  - vm_compute. discriminate.
  - vm_compute. discriminate.
  - exists tbl1, tbl2. split; [exact Hrun1|]. split; [exact Hrun2|].
    vm_compute in Hrun1. injection Hrun1 as <-.
    vm_compute in Hrun2. injection Hrun2 as <-. reflexivity.
Defined.

(** *** The registry *)

(** X27.  Registering a model again overwrites its one record: after two
    calls of [save_metadata] the table is the table of the second call alone,
    so no history of the first training is kept; and the record of the
    baseline and the record of the primary model do not touch each other,
    whatever the order of the two registrations. *)
Theorem retraining_overwrites (model_metadata : gmap (string * string) Metadata)
    (now1 now2 : Z) (train1 val1 train2 val2 : Metrics)
    (start1 end1 samples1 start2 end2 samples2 : Z) :
  AdvancedXGBoostModel.save_metadata
    (AdvancedXGBoostModel.save_metadata model_metadata now1 train1 val1
       start1 end1 samples1)
    now2 train2 val2 start2 end2 samples2
  = AdvancedXGBoostModel.save_metadata model_metadata now2 train2 val2
      start2 end2 samples2
  /\ BaselineARIMAModel.save_metadata
       (BaselineARIMAModel.save_metadata model_metadata now1 train1 val1
          start1 end1 samples1)
       now2 train2 val2 start2 end2 samples2
     = BaselineARIMAModel.save_metadata model_metadata now2 train2 val2
         start2 end2 samples2
  /\ BaselineARIMAModel.save_metadata
       (AdvancedXGBoostModel.save_metadata model_metadata now1 train1 val1
          start1 end1 samples1)
       now2 train2 val2 start2 end2 samples2
     = AdvancedXGBoostModel.save_metadata
         (BaselineARIMAModel.save_metadata model_metadata now2 train2 val2
            start2 end2 samples2)
         now1 train1 val1 start1 end1 samples1.
Proof.
  unfold AdvancedXGBoostModel.save_metadata, BaselineARIMAModel.save_metadata,
    upsert_metadata.
  cbn [AdvancedXGBoostModel.model_name AdvancedXGBoostModel.model_version].
  split; [apply insert_insert_eq|]. split; [apply insert_insert_eq|].
  apply insert_insert_ne. discriminate.
Qed.

End ServiceFacts.
